(** * Multi-agent tutoring bot: the orchestration runtime

    A shallow embedding of the Python sources
    - [src/agents/tutor_agent.py]   (routing policy of the Tutor agent),
    - [src/agents/math_agent.py]    (a tool-using agent),
    - [src/agents/physics_agent.py] (an agent that uses both tools),
    - [src/utils/adk.py]            (Runner and SessionService),
    - [src/utils/gemini.py]         (retries and intent analysis of the client),
    - [src/utils/errors.py]         (formatting of validation errors),
    - [src/tools/calculator.py]     (expression validation),
    - [src/tools/lookup.py]         (reference lookup),
    - [src/models/adk.py], [src/models/api.py] (events and request model),
    - [src/api/main.py]             (the runner of a request),
    - [src/config/settings.py]      (thresholds and reference tables).

    Conventions.
    - A Python [str] is a [string] holding its UTF-8 bytes; [len],
      [str.lower] and [str.strip] work on its characters, with the case
      mapping and the white space of the Unicode database.
    - A Python [float] is a primitive binary64 [float]; arithmetic and
      comparisons are the IEEE operations Python uses.  A value that the
      text-generation service supplies is a [value]: nothing is known of
      its type until the code looks at it.
    - A [Dict[str, Any]] whose iteration order is observed is an association
      list in insertion order; the session store is a finite map.
    - An async generator is a resumable tree [Gen]: each [Yield] carries the
      value handed to the consumer and a continuation that receives the value
      sent back on resumption. *)

From Stdlib Require Import ZArith List String Ascii Bool Lia.
From Stdlib Require Import Floats.
From stdpp Require Import base option list gmap strings.
Import ListNotations.

(* A decimal literal such as [0.7] denotes the nearest binary64 value, as it
   does in Python; [value] is a nested inductive type and needs no induction
   scheme here. *)
Set Warnings "-inexact-float,-register-all".

Local Open Scope string_scope.

(* ===================================================================== *)
(** ** Python string primitives *)
(* ===================================================================== *)

Module PyStr.

Definition code (c : ascii) : nat := nat_of_ascii c.

(** The ASCII classes of the regular expressions: [A-Z], [a-z], [a-zA-Z]
    and the ASCII digits. *)
Definition is_upper (c : ascii) : bool :=
  (65 <=? code c)%nat && (code c <=? 90)%nat.

Definition is_ascii_lower (c : ascii) : bool :=
  (97 <=? code c)%nat && (code c <=? 122)%nat.

Definition is_alpha (c : ascii) : bool := is_upper c || is_ascii_lower c.

Definition is_digit (c : ascii) : bool :=
  (48 <=? code c)%nat && (code c <=? 57)%nat.

(** *** Characters

    A [str] is held as its UTF-8 bytes; its characters are read off by
    [chars], each with its code point and its own bytes.  A lone surrogate
    is a character like any other.  A byte that starts no character of the
    string stands for no Python text; it is kept as a character of its own,
    with a number above the code points. *)

Definition byte (c : ascii) : N := N_of_ascii c.

Definition continuation (c : ascii) : bool :=
  (0x80 <=? byte c)%N && (byte c <=? 0xBF)%N.

Definition decode2 (b0 b1 : ascii) : option N :=
  if (0xC2 <=? byte b0)%N && (byte b0 <=? 0xDF)%N && continuation b1 then
    Some ((byte b0 - 0xC0) * 64 + (byte b1 - 0x80))%N
  else None.

Definition decode3 (b0 b1 b2 : ascii) : option N :=
  if (0xE0 <=? byte b0)%N && (byte b0 <=? 0xEF)%N && continuation b1
     && continuation b2 then
    let cp := ((byte b0 - 0xE0) * 4096 + (byte b1 - 0x80) * 64
               + (byte b2 - 0x80))%N in
    if (0x800 <=? cp)%N then Some cp else None
  else None.

Definition decode4 (b0 b1 b2 b3 : ascii) : option N :=
  if (0xF0 <=? byte b0)%N && (byte b0 <=? 0xF4)%N && continuation b1
     && continuation b2 && continuation b3 then
    let cp := ((byte b0 - 0xF0) * 262144 + (byte b1 - 0x80) * 4096
               + (byte b2 - 0x80) * 64 + (byte b3 - 0x80))%N in
    if (0x10000 <=? cp)%N && (cp <? 0x110000)%N then Some cp else None
  else None.

Definition stray (b : ascii) : N * string :=
  ((0x110000 + byte b)%N, String b EmptyString).

Fixpoint chars (s : string) : list (N * string) :=
  match s with
  | EmptyString => []
  | String b0 t0 =>
      if (byte b0 <? 0x80)%N then (byte b0, String b0 EmptyString) :: chars t0
      else
        match t0 with
        | EmptyString => stray b0 :: chars t0
        | String b1 t1 =>
            match decode2 b0 b1 with
            | Some cp => (cp, String b0 (String b1 EmptyString)) :: chars t1
            | None =>
                match t1 with
                | EmptyString => stray b0 :: chars t0
                | String b2 t2 =>
                    match decode3 b0 b1 b2 with
                    | Some cp =>
                        (cp, String b0 (String b1 (String b2 EmptyString)))
                        :: chars t2
                    | None =>
                        match t2 with
                        | EmptyString => stray b0 :: chars t0
                        | String b3 t3 =>
                            match decode4 b0 b1 b2 b3 with
                            | Some cp =>
                                (cp, String b0 (String b1 (String b2
                                       (String b3 EmptyString))))
                                :: chars t3
                            | None => stray b0 :: chars t0
                            end
                        end
                    end
                end
            end
        end
  end.

(** The text of a list of characters. *)
Fixpoint text (l : list (N * string)) : string :=
  match l with
  | [] => EmptyString
  | c :: rest => snd c ++ text rest
  end.

(** [chr(cp)] in UTF-8 *)
Definition utf8 (cp : N) : string :=
  let b (n : N) := ascii_of_N n in
  if (cp <? 0x80)%N then String (b cp) EmptyString
  else if (cp <? 0x800)%N then
    String (b (0xC0 + cp / 64)%N) (String (b (0x80 + cp mod 64)%N) EmptyString)
  else if (cp <? 0x10000)%N then
    String (b (0xE0 + cp / 4096)%N)
      (String (b (0x80 + (cp / 64) mod 64)%N)
         (String (b (0x80 + cp mod 64)%N) EmptyString))
  else if (cp <? 0x110000)%N then
    String (b (0xF0 + cp / 262144)%N)
      (String (b (0x80 + (cp / 4096) mod 64)%N)
         (String (b (0x80 + (cp / 64) mod 64)%N)
            (String (b (0x80 + cp mod 64)%N) EmptyString)))
  else String (b ((cp - 0x110000) mod 256)%N) EmptyString.

(** [len(s)] *)
Definition len (s : string) : nat := length (chars s).

(** *** The character database

    The tables are those of the Unicode database 14.0.0 that CPython 3.11
    carries. *)

(** The code points for which [str.isspace] holds. *)
Definition whitespace : list N :=
  [ 0x9; 0xA; 0xB; 0xC; 0xD; 0x1C; 0x1D; 0x1E; 0x1F; 0x20;
    0x85; 0xA0; 0x1680; 0x2000; 0x2001; 0x2002; 0x2003; 0x2004; 0x2005; 0x2006;
    0x2007; 0x2008; 0x2009; 0x200A; 0x2028; 0x2029; 0x202F; 0x205F; 0x3000 ]%N.

(** The decimal digits (category Nd): each range holds the ten digits of
    one script. *)
Definition decimal_ranges : list (N * N) :=
  [ (0x30, 0x39); (0x660, 0x669); (0x6F0, 0x6F9); (0x7C0, 0x7C9);
    (0x966, 0x96F); (0x9E6, 0x9EF); (0xA66, 0xA6F); (0xAE6, 0xAEF);
    (0xB66, 0xB6F); (0xBE6, 0xBEF); (0xC66, 0xC6F); (0xCE6, 0xCEF);
    (0xD66, 0xD6F); (0xDE6, 0xDEF); (0xE50, 0xE59); (0xED0, 0xED9);
    (0xF20, 0xF29); (0x1040, 0x1049); (0x1090, 0x1099); (0x17E0, 0x17E9);
    (0x1810, 0x1819); (0x1946, 0x194F); (0x19D0, 0x19D9); (0x1A80, 0x1A89);
    (0x1A90, 0x1A99); (0x1B50, 0x1B59); (0x1BB0, 0x1BB9); (0x1C40, 0x1C49);
    (0x1C50, 0x1C59); (0xA620, 0xA629); (0xA8D0, 0xA8D9); (0xA900, 0xA909);
    (0xA9D0, 0xA9D9); (0xA9F0, 0xA9F9); (0xAA50, 0xAA59); (0xABF0, 0xABF9);
    (0xFF10, 0xFF19); (0x104A0, 0x104A9); (0x10D30, 0x10D39); (0x11066, 0x1106F);
    (0x110F0, 0x110F9); (0x11136, 0x1113F); (0x111D0, 0x111D9); (0x112F0, 0x112F9);
    (0x11450, 0x11459); (0x114D0, 0x114D9); (0x11650, 0x11659); (0x116C0, 0x116C9);
    (0x11730, 0x11739); (0x118E0, 0x118E9); (0x11950, 0x11959); (0x11C50, 0x11C59);
    (0x11D50, 0x11D59); (0x11DA0, 0x11DA9); (0x16A60, 0x16A69); (0x16AC0, 0x16AC9);
    (0x16B50, 0x16B59); (0x1D7CE, 0x1D7FF); (0x1E140, 0x1E149); (0x1E2F0, 0x1E2F9);
    (0x1E950, 0x1E959); (0x1FBF0, 0x1FBF9) ]%N.

(** The simple lower-case mapping outside ASCII, as rules
    [(first, last, step, target)]: the code points [first], [first + step],
    ... up to [last] are mapped to [target], [target + step], ... *)
Definition lower_rules : list (N * N * N * N) :=
  [ (0xC0, 0xD6, 1, 0xE0); (0xD8, 0xDE, 1, 0xF8); (0x100, 0x12E, 2, 0x101);
    (0x132, 0x136, 2, 0x133); (0x139, 0x147, 2, 0x13A); (0x14A, 0x176, 2, 0x14B);
    (0x178, 0x178, 1, 0xFF); (0x179, 0x17D, 2, 0x17A); (0x181, 0x181, 1, 0x253);
    (0x182, 0x184, 2, 0x183); (0x186, 0x186, 1, 0x254); (0x187, 0x187, 1, 0x188);
    (0x189, 0x18A, 1, 0x256); (0x18B, 0x18B, 1, 0x18C); (0x18E, 0x18E, 1, 0x1DD);
    (0x18F, 0x18F, 1, 0x259); (0x190, 0x190, 1, 0x25B); (0x191, 0x191, 1, 0x192);
    (0x193, 0x193, 1, 0x260); (0x194, 0x194, 1, 0x263); (0x196, 0x196, 1, 0x269);
    (0x197, 0x197, 1, 0x268); (0x198, 0x198, 1, 0x199); (0x19C, 0x19C, 1, 0x26F);
    (0x19D, 0x19D, 1, 0x272); (0x19F, 0x19F, 1, 0x275); (0x1A0, 0x1A4, 2, 0x1A1);
    (0x1A6, 0x1A6, 1, 0x280); (0x1A7, 0x1A7, 1, 0x1A8); (0x1A9, 0x1A9, 1, 0x283);
    (0x1AC, 0x1AC, 1, 0x1AD); (0x1AE, 0x1AE, 1, 0x288); (0x1AF, 0x1AF, 1, 0x1B0);
    (0x1B1, 0x1B2, 1, 0x28A); (0x1B3, 0x1B5, 2, 0x1B4); (0x1B7, 0x1B7, 1, 0x292);
    (0x1B8, 0x1B8, 1, 0x1B9); (0x1BC, 0x1BC, 1, 0x1BD); (0x1C4, 0x1C4, 1, 0x1C6);
    (0x1C5, 0x1C5, 1, 0x1C6); (0x1C7, 0x1C7, 1, 0x1C9); (0x1C8, 0x1C8, 1, 0x1C9);
    (0x1CA, 0x1CA, 1, 0x1CC); (0x1CB, 0x1DB, 2, 0x1CC); (0x1DE, 0x1EE, 2, 0x1DF);
    (0x1F1, 0x1F1, 1, 0x1F3); (0x1F2, 0x1F4, 2, 0x1F3); (0x1F6, 0x1F6, 1, 0x195);
    (0x1F7, 0x1F7, 1, 0x1BF); (0x1F8, 0x21E, 2, 0x1F9); (0x220, 0x220, 1, 0x19E);
    (0x222, 0x232, 2, 0x223); (0x23A, 0x23A, 1, 0x2C65); (0x23B, 0x23B, 1, 0x23C);
    (0x23D, 0x23D, 1, 0x19A); (0x23E, 0x23E, 1, 0x2C66); (0x241, 0x241, 1, 0x242);
    (0x243, 0x243, 1, 0x180); (0x244, 0x244, 1, 0x289); (0x245, 0x245, 1, 0x28C);
    (0x246, 0x24E, 2, 0x247); (0x370, 0x372, 2, 0x371); (0x376, 0x376, 1, 0x377);
    (0x37F, 0x37F, 1, 0x3F3); (0x386, 0x386, 1, 0x3AC); (0x388, 0x38A, 1, 0x3AD);
    (0x38C, 0x38C, 1, 0x3CC); (0x38E, 0x38F, 1, 0x3CD); (0x391, 0x3A1, 1, 0x3B1);
    (0x3A3, 0x3AB, 1, 0x3C3); (0x3CF, 0x3CF, 1, 0x3D7); (0x3D8, 0x3EE, 2, 0x3D9);
    (0x3F4, 0x3F4, 1, 0x3B8); (0x3F7, 0x3F7, 1, 0x3F8); (0x3F9, 0x3F9, 1, 0x3F2);
    (0x3FA, 0x3FA, 1, 0x3FB); (0x3FD, 0x3FF, 1, 0x37B); (0x400, 0x40F, 1, 0x450);
    (0x410, 0x42F, 1, 0x430); (0x460, 0x480, 2, 0x461); (0x48A, 0x4BE, 2, 0x48B);
    (0x4C0, 0x4C0, 1, 0x4CF); (0x4C1, 0x4CD, 2, 0x4C2); (0x4D0, 0x52E, 2, 0x4D1);
    (0x531, 0x556, 1, 0x561); (0x10A0, 0x10C5, 1, 0x2D00); (0x10C7, 0x10C7, 1, 0x2D27);
    (0x10CD, 0x10CD, 1, 0x2D2D); (0x13A0, 0x13EF, 1, 0xAB70); (0x13F0, 0x13F5, 1, 0x13F8);
    (0x1C90, 0x1CBA, 1, 0x10D0); (0x1CBD, 0x1CBF, 1, 0x10FD); (0x1E00, 0x1E94, 2, 0x1E01);
    (0x1E9E, 0x1E9E, 1, 0xDF); (0x1EA0, 0x1EFE, 2, 0x1EA1); (0x1F08, 0x1F0F, 1, 0x1F00);
    (0x1F18, 0x1F1D, 1, 0x1F10); (0x1F28, 0x1F2F, 1, 0x1F20); (0x1F38, 0x1F3F, 1, 0x1F30);
    (0x1F48, 0x1F4D, 1, 0x1F40); (0x1F59, 0x1F5F, 2, 0x1F51); (0x1F68, 0x1F6F, 1, 0x1F60);
    (0x1F88, 0x1F8F, 1, 0x1F80); (0x1F98, 0x1F9F, 1, 0x1F90); (0x1FA8, 0x1FAF, 1, 0x1FA0);
    (0x1FB8, 0x1FB9, 1, 0x1FB0); (0x1FBA, 0x1FBB, 1, 0x1F70); (0x1FBC, 0x1FBC, 1, 0x1FB3);
    (0x1FC8, 0x1FCB, 1, 0x1F72); (0x1FCC, 0x1FCC, 1, 0x1FC3); (0x1FD8, 0x1FD9, 1, 0x1FD0);
    (0x1FDA, 0x1FDB, 1, 0x1F76); (0x1FE8, 0x1FE9, 1, 0x1FE0); (0x1FEA, 0x1FEB, 1, 0x1F7A);
    (0x1FEC, 0x1FEC, 1, 0x1FE5); (0x1FF8, 0x1FF9, 1, 0x1F78); (0x1FFA, 0x1FFB, 1, 0x1F7C);
    (0x1FFC, 0x1FFC, 1, 0x1FF3); (0x2126, 0x2126, 1, 0x3C9); (0x212A, 0x212A, 1, 0x6B);
    (0x212B, 0x212B, 1, 0xE5); (0x2132, 0x2132, 1, 0x214E); (0x2160, 0x216F, 1, 0x2170);
    (0x2183, 0x2183, 1, 0x2184); (0x24B6, 0x24CF, 1, 0x24D0); (0x2C00, 0x2C2F, 1, 0x2C30);
    (0x2C60, 0x2C60, 1, 0x2C61); (0x2C62, 0x2C62, 1, 0x26B); (0x2C63, 0x2C63, 1, 0x1D7D);
    (0x2C64, 0x2C64, 1, 0x27D); (0x2C67, 0x2C6B, 2, 0x2C68); (0x2C6D, 0x2C6D, 1, 0x251);
    (0x2C6E, 0x2C6E, 1, 0x271); (0x2C6F, 0x2C6F, 1, 0x250); (0x2C70, 0x2C70, 1, 0x252);
    (0x2C72, 0x2C72, 1, 0x2C73); (0x2C75, 0x2C75, 1, 0x2C76); (0x2C7E, 0x2C7F, 1, 0x23F);
    (0x2C80, 0x2CE2, 2, 0x2C81); (0x2CEB, 0x2CED, 2, 0x2CEC); (0x2CF2, 0x2CF2, 1, 0x2CF3);
    (0xA640, 0xA66C, 2, 0xA641); (0xA680, 0xA69A, 2, 0xA681); (0xA722, 0xA72E, 2, 0xA723);
    (0xA732, 0xA76E, 2, 0xA733); (0xA779, 0xA77B, 2, 0xA77A); (0xA77D, 0xA77D, 1, 0x1D79);
    (0xA77E, 0xA786, 2, 0xA77F); (0xA78B, 0xA78B, 1, 0xA78C); (0xA78D, 0xA78D, 1, 0x265);
    (0xA790, 0xA792, 2, 0xA791); (0xA796, 0xA7A8, 2, 0xA797); (0xA7AA, 0xA7AA, 1, 0x266);
    (0xA7AB, 0xA7AB, 1, 0x25C); (0xA7AC, 0xA7AC, 1, 0x261); (0xA7AD, 0xA7AD, 1, 0x26C);
    (0xA7AE, 0xA7AE, 1, 0x26A); (0xA7B0, 0xA7B0, 1, 0x29E); (0xA7B1, 0xA7B1, 1, 0x287);
    (0xA7B2, 0xA7B2, 1, 0x29D); (0xA7B3, 0xA7B3, 1, 0xAB53); (0xA7B4, 0xA7C2, 2, 0xA7B5);
    (0xA7C4, 0xA7C4, 1, 0xA794); (0xA7C5, 0xA7C5, 1, 0x282); (0xA7C6, 0xA7C6, 1, 0x1D8E);
    (0xA7C7, 0xA7C9, 2, 0xA7C8); (0xA7D0, 0xA7D0, 1, 0xA7D1); (0xA7D6, 0xA7D8, 2, 0xA7D7);
    (0xA7F5, 0xA7F5, 1, 0xA7F6); (0xFF21, 0xFF3A, 1, 0xFF41); (0x10400, 0x10427, 1, 0x10428);
    (0x104B0, 0x104D3, 1, 0x104D8); (0x10570, 0x1057A, 1, 0x10597); (0x1057C, 0x1058A, 1, 0x105A3);
    (0x1058C, 0x10592, 1, 0x105B3); (0x10594, 0x10595, 1, 0x105BB); (0x10C80, 0x10CB2, 1, 0x10CC0);
    (0x118A0, 0x118BF, 1, 0x118C0); (0x16E40, 0x16E5F, 1, 0x16E60); (0x1E900, 0x1E921, 1, 0x1E922) ]%N.

(** The code points that are cased and not case-ignorable, and those that
    are case-ignorable, as ranges. *)
Definition cased_ranges : list (N * N) :=
  [ (0x41, 0x5A); (0x61, 0x7A); (0xAA, 0xAA); (0xB5, 0xB5);
    (0xBA, 0xBA); (0xC0, 0xD6); (0xD8, 0xF6); (0xF8, 0x1BA);
    (0x1BC, 0x1BF); (0x1C4, 0x293); (0x295, 0x2AF); (0x370, 0x373);
    (0x376, 0x377); (0x37B, 0x37D); (0x37F, 0x37F); (0x386, 0x386);
    (0x388, 0x38A); (0x38C, 0x38C); (0x38E, 0x3A1); (0x3A3, 0x3F5);
    (0x3F7, 0x481); (0x48A, 0x52F); (0x531, 0x556); (0x560, 0x588);
    (0x10A0, 0x10C5); (0x10C7, 0x10C7); (0x10CD, 0x10CD); (0x10D0, 0x10FA);
    (0x10FD, 0x10FF); (0x13A0, 0x13F5); (0x13F8, 0x13FD); (0x1C80, 0x1C88);
    (0x1C90, 0x1CBA); (0x1CBD, 0x1CBF); (0x1D00, 0x1D2B); (0x1D6B, 0x1D77);
    (0x1D79, 0x1D9A); (0x1E00, 0x1F15); (0x1F18, 0x1F1D); (0x1F20, 0x1F45);
    (0x1F48, 0x1F4D); (0x1F50, 0x1F57); (0x1F59, 0x1F59); (0x1F5B, 0x1F5B);
    (0x1F5D, 0x1F5D); (0x1F5F, 0x1F7D); (0x1F80, 0x1FB4); (0x1FB6, 0x1FBC);
    (0x1FBE, 0x1FBE); (0x1FC2, 0x1FC4); (0x1FC6, 0x1FCC); (0x1FD0, 0x1FD3);
    (0x1FD6, 0x1FDB); (0x1FE0, 0x1FEC); (0x1FF2, 0x1FF4); (0x1FF6, 0x1FFC);
    (0x2102, 0x2102); (0x2107, 0x2107); (0x210A, 0x2113); (0x2115, 0x2115);
    (0x2119, 0x211D); (0x2124, 0x2124); (0x2126, 0x2126); (0x2128, 0x2128);
    (0x212A, 0x212D); (0x212F, 0x2134); (0x2139, 0x2139); (0x213C, 0x213F);
    (0x2145, 0x2149); (0x214E, 0x214E); (0x2160, 0x217F); (0x2183, 0x2184);
    (0x24B6, 0x24E9); (0x2C00, 0x2C7B); (0x2C7E, 0x2CE4); (0x2CEB, 0x2CEE);
    (0x2CF2, 0x2CF3); (0x2D00, 0x2D25); (0x2D27, 0x2D27); (0x2D2D, 0x2D2D);
    (0xA640, 0xA66D); (0xA680, 0xA69B); (0xA722, 0xA76F); (0xA771, 0xA787);
    (0xA78B, 0xA78E); (0xA790, 0xA7CA); (0xA7D0, 0xA7D1); (0xA7D3, 0xA7D3);
    (0xA7D5, 0xA7D9); (0xA7F5, 0xA7F6); (0xA7FA, 0xA7FA); (0xAB30, 0xAB5A);
    (0xAB60, 0xAB68); (0xAB70, 0xABBF); (0xFB00, 0xFB06); (0xFB13, 0xFB17);
    (0xFF21, 0xFF3A); (0xFF41, 0xFF5A); (0x10400, 0x1044F); (0x104B0, 0x104D3);
    (0x104D8, 0x104FB); (0x10570, 0x1057A); (0x1057C, 0x1058A); (0x1058C, 0x10592);
    (0x10594, 0x10595); (0x10597, 0x105A1); (0x105A3, 0x105B1); (0x105B3, 0x105B9);
    (0x105BB, 0x105BC); (0x10C80, 0x10CB2); (0x10CC0, 0x10CF2); (0x118A0, 0x118DF);
    (0x16E40, 0x16E7F); (0x1D400, 0x1D454); (0x1D456, 0x1D49C); (0x1D49E, 0x1D49F);
    (0x1D4A2, 0x1D4A2); (0x1D4A5, 0x1D4A6); (0x1D4A9, 0x1D4AC); (0x1D4AE, 0x1D4B9);
    (0x1D4BB, 0x1D4BB); (0x1D4BD, 0x1D4C3); (0x1D4C5, 0x1D505); (0x1D507, 0x1D50A);
    (0x1D50D, 0x1D514); (0x1D516, 0x1D51C); (0x1D51E, 0x1D539); (0x1D53B, 0x1D53E);
    (0x1D540, 0x1D544); (0x1D546, 0x1D546); (0x1D54A, 0x1D550); (0x1D552, 0x1D6A5);
    (0x1D6A8, 0x1D6C0); (0x1D6C2, 0x1D6DA); (0x1D6DC, 0x1D6FA); (0x1D6FC, 0x1D714);
    (0x1D716, 0x1D734); (0x1D736, 0x1D74E); (0x1D750, 0x1D76E); (0x1D770, 0x1D788);
    (0x1D78A, 0x1D7A8); (0x1D7AA, 0x1D7C2); (0x1D7C4, 0x1D7CB); (0x1DF00, 0x1DF09);
    (0x1DF0B, 0x1DF1E); (0x1E900, 0x1E943); (0x1F130, 0x1F149); (0x1F150, 0x1F169);
    (0x1F170, 0x1F189) ]%N.

Definition case_ignorable_ranges : list (N * N) :=
  [ (0x27, 0x27); (0x2E, 0x2E); (0x3A, 0x3A); (0x5E, 0x5E);
    (0x60, 0x60); (0xA8, 0xA8); (0xAD, 0xAD); (0xAF, 0xAF);
    (0xB4, 0xB4); (0xB7, 0xB8); (0x2B0, 0x36F); (0x374, 0x375);
    (0x37A, 0x37A); (0x384, 0x385); (0x387, 0x387); (0x483, 0x489);
    (0x559, 0x559); (0x55F, 0x55F); (0x591, 0x5BD); (0x5BF, 0x5BF);
    (0x5C1, 0x5C2); (0x5C4, 0x5C5); (0x5C7, 0x5C7); (0x5F4, 0x5F4);
    (0x600, 0x605); (0x610, 0x61A); (0x61C, 0x61C); (0x640, 0x640);
    (0x64B, 0x65F); (0x670, 0x670); (0x6D6, 0x6DD); (0x6DF, 0x6E8);
    (0x6EA, 0x6ED); (0x70F, 0x70F); (0x711, 0x711); (0x730, 0x74A);
    (0x7A6, 0x7B0); (0x7EB, 0x7F5); (0x7FA, 0x7FA); (0x7FD, 0x7FD);
    (0x816, 0x82D); (0x859, 0x85B); (0x888, 0x888); (0x890, 0x891);
    (0x898, 0x89F); (0x8C9, 0x902); (0x93A, 0x93A); (0x93C, 0x93C);
    (0x941, 0x948); (0x94D, 0x94D); (0x951, 0x957); (0x962, 0x963);
    (0x971, 0x971); (0x981, 0x981); (0x9BC, 0x9BC); (0x9C1, 0x9C4);
    (0x9CD, 0x9CD); (0x9E2, 0x9E3); (0x9FE, 0x9FE); (0xA01, 0xA02);
    (0xA3C, 0xA3C); (0xA41, 0xA42); (0xA47, 0xA48); (0xA4B, 0xA4D);
    (0xA51, 0xA51); (0xA70, 0xA71); (0xA75, 0xA75); (0xA81, 0xA82);
    (0xABC, 0xABC); (0xAC1, 0xAC5); (0xAC7, 0xAC8); (0xACD, 0xACD);
    (0xAE2, 0xAE3); (0xAFA, 0xAFF); (0xB01, 0xB01); (0xB3C, 0xB3C);
    (0xB3F, 0xB3F); (0xB41, 0xB44); (0xB4D, 0xB4D); (0xB55, 0xB56);
    (0xB62, 0xB63); (0xB82, 0xB82); (0xBC0, 0xBC0); (0xBCD, 0xBCD);
    (0xC00, 0xC00); (0xC04, 0xC04); (0xC3C, 0xC3C); (0xC3E, 0xC40);
    (0xC46, 0xC48); (0xC4A, 0xC4D); (0xC55, 0xC56); (0xC62, 0xC63);
    (0xC81, 0xC81); (0xCBC, 0xCBC); (0xCBF, 0xCBF); (0xCC6, 0xCC6);
    (0xCCC, 0xCCD); (0xCE2, 0xCE3); (0xD00, 0xD01); (0xD3B, 0xD3C);
    (0xD41, 0xD44); (0xD4D, 0xD4D); (0xD62, 0xD63); (0xD81, 0xD81);
    (0xDCA, 0xDCA); (0xDD2, 0xDD4); (0xDD6, 0xDD6); (0xE31, 0xE31);
    (0xE34, 0xE3A); (0xE46, 0xE4E); (0xEB1, 0xEB1); (0xEB4, 0xEBC);
    (0xEC6, 0xEC6); (0xEC8, 0xECD); (0xF18, 0xF19); (0xF35, 0xF35);
    (0xF37, 0xF37); (0xF39, 0xF39); (0xF71, 0xF7E); (0xF80, 0xF84);
    (0xF86, 0xF87); (0xF8D, 0xF97); (0xF99, 0xFBC); (0xFC6, 0xFC6);
    (0x102D, 0x1030); (0x1032, 0x1037); (0x1039, 0x103A); (0x103D, 0x103E);
    (0x1058, 0x1059); (0x105E, 0x1060); (0x1071, 0x1074); (0x1082, 0x1082);
    (0x1085, 0x1086); (0x108D, 0x108D); (0x109D, 0x109D); (0x10FC, 0x10FC);
    (0x135D, 0x135F); (0x1712, 0x1714); (0x1732, 0x1733); (0x1752, 0x1753);
    (0x1772, 0x1773); (0x17B4, 0x17B5); (0x17B7, 0x17BD); (0x17C6, 0x17C6);
    (0x17C9, 0x17D3); (0x17D7, 0x17D7); (0x17DD, 0x17DD); (0x180B, 0x180F);
    (0x1843, 0x1843); (0x1885, 0x1886); (0x18A9, 0x18A9); (0x1920, 0x1922);
    (0x1927, 0x1928); (0x1932, 0x1932); (0x1939, 0x193B); (0x1A17, 0x1A18);
    (0x1A1B, 0x1A1B); (0x1A56, 0x1A56); (0x1A58, 0x1A5E); (0x1A60, 0x1A60);
    (0x1A62, 0x1A62); (0x1A65, 0x1A6C); (0x1A73, 0x1A7C); (0x1A7F, 0x1A7F);
    (0x1AA7, 0x1AA7); (0x1AB0, 0x1ACE); (0x1B00, 0x1B03); (0x1B34, 0x1B34);
    (0x1B36, 0x1B3A); (0x1B3C, 0x1B3C); (0x1B42, 0x1B42); (0x1B6B, 0x1B73);
    (0x1B80, 0x1B81); (0x1BA2, 0x1BA5); (0x1BA8, 0x1BA9); (0x1BAB, 0x1BAD);
    (0x1BE6, 0x1BE6); (0x1BE8, 0x1BE9); (0x1BED, 0x1BED); (0x1BEF, 0x1BF1);
    (0x1C2C, 0x1C33); (0x1C36, 0x1C37); (0x1C78, 0x1C7D); (0x1CD0, 0x1CD2);
    (0x1CD4, 0x1CE0); (0x1CE2, 0x1CE8); (0x1CED, 0x1CED); (0x1CF4, 0x1CF4);
    (0x1CF8, 0x1CF9); (0x1D2C, 0x1D6A); (0x1D78, 0x1D78); (0x1D9B, 0x1DFF);
    (0x1FBD, 0x1FBD); (0x1FBF, 0x1FC1); (0x1FCD, 0x1FCF); (0x1FDD, 0x1FDF);
    (0x1FED, 0x1FEF); (0x1FFD, 0x1FFE); (0x200B, 0x200F); (0x2018, 0x2019);
    (0x2024, 0x2024); (0x2027, 0x2027); (0x202A, 0x202E); (0x2060, 0x2064);
    (0x2066, 0x206F); (0x2071, 0x2071); (0x207F, 0x207F); (0x2090, 0x209C);
    (0x20D0, 0x20F0); (0x2C7C, 0x2C7D); (0x2CEF, 0x2CF1); (0x2D6F, 0x2D6F);
    (0x2D7F, 0x2D7F); (0x2DE0, 0x2DFF); (0x2E2F, 0x2E2F); (0x3005, 0x3005);
    (0x302A, 0x302D); (0x3031, 0x3035); (0x303B, 0x303B); (0x3099, 0x309E);
    (0x30FC, 0x30FE); (0xA015, 0xA015); (0xA4F8, 0xA4FD); (0xA60C, 0xA60C);
    (0xA66F, 0xA672); (0xA674, 0xA67D); (0xA67F, 0xA67F); (0xA69C, 0xA69F);
    (0xA6F0, 0xA6F1); (0xA700, 0xA721); (0xA770, 0xA770); (0xA788, 0xA78A);
    (0xA7F2, 0xA7F4); (0xA7F8, 0xA7F9); (0xA802, 0xA802); (0xA806, 0xA806);
    (0xA80B, 0xA80B); (0xA825, 0xA826); (0xA82C, 0xA82C); (0xA8C4, 0xA8C5);
    (0xA8E0, 0xA8F1); (0xA8FF, 0xA8FF); (0xA926, 0xA92D); (0xA947, 0xA951);
    (0xA980, 0xA982); (0xA9B3, 0xA9B3); (0xA9B6, 0xA9B9); (0xA9BC, 0xA9BD);
    (0xA9CF, 0xA9CF); (0xA9E5, 0xA9E6); (0xAA29, 0xAA2E); (0xAA31, 0xAA32);
    (0xAA35, 0xAA36); (0xAA43, 0xAA43); (0xAA4C, 0xAA4C); (0xAA70, 0xAA70);
    (0xAA7C, 0xAA7C); (0xAAB0, 0xAAB0); (0xAAB2, 0xAAB4); (0xAAB7, 0xAAB8);
    (0xAABE, 0xAABF); (0xAAC1, 0xAAC1); (0xAADD, 0xAADD); (0xAAEC, 0xAAED);
    (0xAAF3, 0xAAF4); (0xAAF6, 0xAAF6); (0xAB5B, 0xAB5F); (0xAB69, 0xAB6B);
    (0xABE5, 0xABE5); (0xABE8, 0xABE8); (0xABED, 0xABED); (0xFB1E, 0xFB1E);
    (0xFBB2, 0xFBC2); (0xFE00, 0xFE0F); (0xFE13, 0xFE13); (0xFE20, 0xFE2F);
    (0xFE52, 0xFE52); (0xFE55, 0xFE55); (0xFEFF, 0xFEFF); (0xFF07, 0xFF07);
    (0xFF0E, 0xFF0E); (0xFF1A, 0xFF1A); (0xFF3E, 0xFF3E); (0xFF40, 0xFF40);
    (0xFF70, 0xFF70); (0xFF9E, 0xFF9F); (0xFFE3, 0xFFE3); (0xFFF9, 0xFFFB);
    (0x101FD, 0x101FD); (0x102E0, 0x102E0); (0x10376, 0x1037A); (0x10780, 0x10785);
    (0x10787, 0x107B0); (0x107B2, 0x107BA); (0x10A01, 0x10A03); (0x10A05, 0x10A06);
    (0x10A0C, 0x10A0F); (0x10A38, 0x10A3A); (0x10A3F, 0x10A3F); (0x10AE5, 0x10AE6);
    (0x10D24, 0x10D27); (0x10EAB, 0x10EAC); (0x10F46, 0x10F50); (0x10F82, 0x10F85);
    (0x11001, 0x11001); (0x11038, 0x11046); (0x11070, 0x11070); (0x11073, 0x11074);
    (0x1107F, 0x11081); (0x110B3, 0x110B6); (0x110B9, 0x110BA); (0x110BD, 0x110BD);
    (0x110C2, 0x110C2); (0x110CD, 0x110CD); (0x11100, 0x11102); (0x11127, 0x1112B);
    (0x1112D, 0x11134); (0x11173, 0x11173); (0x11180, 0x11181); (0x111B6, 0x111BE);
    (0x111C9, 0x111CC); (0x111CF, 0x111CF); (0x1122F, 0x11231); (0x11234, 0x11234);
    (0x11236, 0x11237); (0x1123E, 0x1123E); (0x112DF, 0x112DF); (0x112E3, 0x112EA);
    (0x11300, 0x11301); (0x1133B, 0x1133C); (0x11340, 0x11340); (0x11366, 0x1136C);
    (0x11370, 0x11374); (0x11438, 0x1143F); (0x11442, 0x11444); (0x11446, 0x11446);
    (0x1145E, 0x1145E); (0x114B3, 0x114B8); (0x114BA, 0x114BA); (0x114BF, 0x114C0);
    (0x114C2, 0x114C3); (0x115B2, 0x115B5); (0x115BC, 0x115BD); (0x115BF, 0x115C0);
    (0x115DC, 0x115DD); (0x11633, 0x1163A); (0x1163D, 0x1163D); (0x1163F, 0x11640);
    (0x116AB, 0x116AB); (0x116AD, 0x116AD); (0x116B0, 0x116B5); (0x116B7, 0x116B7);
    (0x1171D, 0x1171F); (0x11722, 0x11725); (0x11727, 0x1172B); (0x1182F, 0x11837);
    (0x11839, 0x1183A); (0x1193B, 0x1193C); (0x1193E, 0x1193E); (0x11943, 0x11943);
    (0x119D4, 0x119D7); (0x119DA, 0x119DB); (0x119E0, 0x119E0); (0x11A01, 0x11A0A);
    (0x11A33, 0x11A38); (0x11A3B, 0x11A3E); (0x11A47, 0x11A47); (0x11A51, 0x11A56);
    (0x11A59, 0x11A5B); (0x11A8A, 0x11A96); (0x11A98, 0x11A99); (0x11C30, 0x11C36);
    (0x11C38, 0x11C3D); (0x11C3F, 0x11C3F); (0x11C92, 0x11CA7); (0x11CAA, 0x11CB0);
    (0x11CB2, 0x11CB3); (0x11CB5, 0x11CB6); (0x11D31, 0x11D36); (0x11D3A, 0x11D3A);
    (0x11D3C, 0x11D3D); (0x11D3F, 0x11D45); (0x11D47, 0x11D47); (0x11D90, 0x11D91);
    (0x11D95, 0x11D95); (0x11D97, 0x11D97); (0x11EF3, 0x11EF4); (0x13430, 0x13438);
    (0x16AF0, 0x16AF4); (0x16B30, 0x16B36); (0x16B40, 0x16B43); (0x16F4F, 0x16F4F);
    (0x16F8F, 0x16F9F); (0x16FE0, 0x16FE1); (0x16FE3, 0x16FE4); (0x1AFF0, 0x1AFF3);
    (0x1AFF5, 0x1AFFB); (0x1AFFD, 0x1AFFE); (0x1BC9D, 0x1BC9E); (0x1BCA0, 0x1BCA3);
    (0x1CF00, 0x1CF2D); (0x1CF30, 0x1CF46); (0x1D167, 0x1D169); (0x1D173, 0x1D182);
    (0x1D185, 0x1D18B); (0x1D1AA, 0x1D1AD); (0x1D242, 0x1D244); (0x1DA00, 0x1DA36);
    (0x1DA3B, 0x1DA6C); (0x1DA75, 0x1DA75); (0x1DA84, 0x1DA84); (0x1DA9B, 0x1DA9F);
    (0x1DAA1, 0x1DAAF); (0x1E000, 0x1E006); (0x1E008, 0x1E018); (0x1E01B, 0x1E021);
    (0x1E023, 0x1E024); (0x1E026, 0x1E02A); (0x1E130, 0x1E13D); (0x1E2AE, 0x1E2AE);
    (0x1E2EC, 0x1E2EF); (0x1E8D0, 0x1E8D6); (0x1E944, 0x1E94B); (0x1F3FB, 0x1F3FF);
    (0xE0001, 0xE0001); (0xE0020, 0xE007F); (0xE0100, 0xE01EF) ]%N.

Definition in_ranges (cp : N) (ranges : list (N * N)) : bool :=
  existsb (fun r => (fst r <=? cp)%N && (cp <=? snd r)%N) ranges.

(** [chr(cp).isspace()] *)
Definition isspace (cp : N) : bool := existsb (N.eqb cp) whitespace.

(** [chr(cp).isdecimal()], which is the class [\d] of a [str] pattern *)
Definition is_decimal (cp : N) : bool := in_ranges cp decimal_ranges.

Definition is_cased (cp : N) : bool := in_ranges cp cased_ranges.
Definition is_case_ignorable (cp : N) : bool :=
  in_ranges cp case_ignorable_ranges.

Fixpoint apply_rules (rules : list (N * N * N * N)) (cp : N) : option N :=
  match rules with
  | [] => None
  | (first, last, step, target) :: rest =>
      if (first <=? cp)%N && (cp <=? last)%N
         && ((cp - first) mod step =? 0)%N
      then Some (target + (cp - first))%N
      else apply_rules rest cp
  end.

(** Is the first character that is not case-ignorable a cased one? *)
Fixpoint followed_by_cased (rest : list (N * string)) : bool :=
  match rest with
  | [] => false
  | c :: rest' =>
      if is_case_ignorable (fst c) then followed_by_cased rest'
      else is_cased (fst c)
  end.

(** The lower case of one character.  A capital sigma becomes a final sigma
    when a cased character precedes it and none follows, case-ignorable
    characters apart; [preceded] tells the former. *)
Definition lower_char (preceded : bool) (rest : list (N * string))
    (c : N * string) : string :=
  let cp := fst c in
  if (cp <? 0x80)%N then
    if (65 <=? cp)%N && (cp <=? 90)%N then utf8 (cp + 32) else snd c
  else if (cp =? 0x3A3)%N then
    if preceded && negb (followed_by_cased rest) then utf8 0x3C2
    else utf8 0x3C3
  else if (cp =? 0x130)%N then utf8 0x69 ++ utf8 0x307
  else
    match apply_rules lower_rules cp with
    | Some target => utf8 target
    | None => snd c
    end.

Fixpoint lower_chars (preceded : bool) (l : list (N * string)) : string :=
  match l with
  | [] => EmptyString
  | c :: rest =>
      lower_char preceded rest c
      ++ lower_chars (if is_case_ignorable (fst c) then preceded
                      else is_cased (fst c)) rest
  end.

(** [s.lower()] *)
Definition lower (s : string) : string := lower_chars false (chars s).

(** [needle in hay]: a string occurs in another as a sequence of
    characters exactly when its bytes occur in the other's bytes. *)
Fixpoint contains (needle hay : string) : bool :=
  String.prefix needle hay
  || match hay with
     | EmptyString => false
     | String _ t => contains needle t
     end.

(** [s.count(c)] for a one-character pattern *)
Fixpoint count_char (c : ascii) (s : string) : nat :=
  match s with
  | EmptyString => 0
  | String d t => (if Ascii.eqb c d then 1 else 0) + count_char c t
  end.

Fixpoint lstrip_chars (l : list (N * string)) : list (N * string) :=
  match l with
  | [] => []
  | c :: rest => if isspace (fst c) then lstrip_chars rest else l
  end.

(** [rstrip] keeps a character when it is not white space or when something
    survives to its right. *)
Fixpoint rstrip_chars (l : list (N * string)) : list (N * string) :=
  match l with
  | [] => []
  | c :: rest =>
      match rstrip_chars rest with
      | [] => if isspace (fst c) then [] else [c]
      | kept => c :: kept
      end
  end.

Definition lstrip (s : string) : string := text (lstrip_chars (chars s)).
Definition rstrip (s : string) : string := text (rstrip_chars (chars s)).

(** [s.strip()] *)
Definition strip (s : string) : string :=
  text (rstrip_chars (lstrip_chars (chars s))).

(** Python truthiness of a string: [not s] is [is_empty s]. *)
Definition is_empty (s : string) : bool :=
  match s with EmptyString => true | _ => false end.

(** Every character of [s] is white space. *)
Definition all_space (s : string) : bool :=
  forallb (fun c => isspace (fst c)) (chars s).

End PyStr.

(* ===================================================================== *)
(** ** Python float primitives *)
(* ===================================================================== *)

Module PyFloat.

Local Open Scope float_scope.

(** [float(n)] for a non-negative [int] *)
Definition of_nat (n : nat) : float :=
  PrimFloat.of_uint63 (Uint63.of_Z (Z.of_nat n)).

(** [a >= b], [a > b], [a < b] *)
Definition ge (a b : float) : bool := PrimFloat.leb b a.
Definition gt (a b : float) : bool := PrimFloat.ltb b a.
Definition lt (a b : float) : bool := PrimFloat.ltb a b.

(** The builtin [min(a, b)]: the first argument is kept unless the second
    compares strictly smaller. *)
Definition min (a b : float) : float := if lt b a then b else a.

(** Exact value of a finite float as [m * 2^e], sign apart. *)
Definition scaled100 (m : positive) (e : Z) : Z * Z :=
  (* numerator and denominator of [100 * m * 2^e] *)
  if (0 <=? e)%Z then (100 * Z.pos m * 2 ^ e, 1)%Z
  else (100 * Z.pos m, 2 ^ (- e))%Z.

(** round-half-even of [n / d] *)
Definition round_half_even (n d : Z) : Z :=
  let q := (n / d)%Z in
  let r := (n mod d)%Z in
  match (2 * r ?= d)%Z with
  | Lt => q
  | Gt => (q + 1)%Z
  | Eq => if Z.even q then q else (q + 1)%Z
  end.

Definition digit (n : Z) : ascii := ascii_of_nat (48 + Z.to_nat n).

Fixpoint decimal_digits (fuel : nat) (n : Z) (acc : string) : string :=
  match fuel with
  | O => acc
  | S fuel' =>
      let acc' := String (digit (n mod 10)) acc in
      if (n <? 10)%Z then acc' else decimal_digits fuel' (n / 10) acc'
  end.

Definition string_of_Z (n : Z) : string :=
  decimal_digits (S (Z.to_nat (Z.log2 n))) n EmptyString.

(** [f"{x:.2f}"] *)
Definition format_2f (x : float) : string :=
  match Prim2SF x with
  | S754_nan => "nan"
  | S754_infinity s => if s then "-inf" else "inf"
  | S754_zero s => if s then "-0.00" else "0.00"
  | S754_finite s m e =>
      let '(n, d) := scaled100 m e in
      let h := round_half_even n d in
      (if s then "-" else "")
        ++ string_of_Z (h / 100) ++ "."
        ++ String (digit ((h / 10) mod 10)) (String (digit (h mod 10)) EmptyString)
  end.

End PyFloat.

(* ===================================================================== *)
(** ** Data model ([src/models/adk.py]) *)
(* ===================================================================== *)

(** Values of type [Any] that travel in events and in session state. *)
Inductive value : Type :=
| VNone
| VBool (b : bool)
| VInt (z : Z)
| VFloat (f : float)
| VStr (s : string)
| VList (l : list value)
| VDict (d : list (string * value)).

(** A [Dict[str, Any]] literal, in insertion order. *)
Definition pydict : Type := list (string * value).

(** [d.get(k)] on an insertion-ordered dictionary *)
Fixpoint dict_get (d : pydict) (k : string) : option value :=
  match d with
  | [] => None
  | (k', v) :: rest => if String.eqb k k' then Some v else dict_get rest k
  end.

(** [type(v).__name__] *)
Definition type_name (v : value) : string :=
  match v with
  | VNone => "NoneType"
  | VBool _ => "bool"
  | VInt _ => "int"
  | VFloat _ => "float"
  | VStr _ => "str"
  | VList _ => "list"
  | VDict _ => "dict"
  end.

(** A raised exception carries the text of [str(e)]. *)
Inductive exc (A : Type) : Type :=
| Ok (a : A)
| Raise (msg : string).
Arguments Ok {A} a.
Arguments Raise {A} msg.

(* ===================================================================== *)
(** ** Python numbers *)
(* ===================================================================== *)

Module PyNum.

(** A number as the oracle's reply can hold it: an [int] (a [bool] is one)
    or a [float]. *)
Inductive number : Type :=
| Int (z : Z)
| Float (f : float).

(** [float(z)]: the nearest binary64 value, ties to even. *)
Definition float_of_int (z : Z) : float :=
  SF2Prim (binary_normalize prec emax z 0 false).

(** [float(n)] *)
Definition to_float (n : number) : float :=
  match n with
  | Int z => float_of_int z
  | Float f => f
  end.

(** What [f"{v:.2f}"] needs of [v]: a number, converted to a float for the
    formatting; the text of the exception raised otherwise. *)
Definition number_of (v : value) : exc number :=
  match v with
  | VNone => Raise "unsupported format string passed to NoneType.__format__"
  | VBool b => Ok (Int (if b then 1 else 0))
  | VInt z =>
      if (2 ^ 1024 - 2 ^ 970 <=? Z.abs z)%Z
      then Raise "int too large to convert to float"
      else Ok (Int z)
  | VFloat f => Ok (Float f)
  | VStr _ => Raise "Unknown format code 'f' for object of type 'str'"
  | VList _ => Raise "unsupported format string passed to list.__format__"
  | VDict _ => Raise "unsupported format string passed to dict.__format__"
  end.

(** [f"{n:.2f}"] *)
Definition format_2f (n : number) : string := PyFloat.format_2f (to_float n).

(** [z >= t] for an [int] and a [float]: the comparison is exact. *)
Definition int_ge_float (z : Z) (t : float) : bool :=
  match Prim2SF t with
  | S754_nan => false
  | S754_infinity s => s
  | S754_zero _ => (0 <=? z)%Z
  | S754_finite s m e =>
      let t_num := if s then Z.neg m else Z.pos m in
      if (0 <=? e)%Z then (t_num * 2 ^ e <=? z)%Z
      else (t_num <=? z * 2 ^ (- e))%Z
  end.

(** [n >= t] *)
Definition ge (n : number) (t : float) : bool :=
  match n with
  | Int z => int_ge_float z t
  | Float f => PyFloat.ge f t
  end.

End PyNum.

Record InvocationContext : Type := mkContext {
  query : string;
  request_id : string;
  session_id : option string;
  trace_id : string;
  session_state : gmap string value;
  metadata : pydict;
  extracted_context : pydict
}.

Inductive Event : Type :=
| DelegationEvent (target_agent : string) (confidence : float)
    (context : pydict) (rid tid : string)
| ClarificationEvent (message : string) (options : list string)
    (rid tid : string)
| GeneralResponseEvent (response : string) (rid tid : string)
| ToolInvocationEvent (tool_name : string) (inputs : pydict)
    (rid tid : string)
| ToolResultEvent (tool_name : string) (result : pydict)
    (error : option string) (rid tid : string)
| FinalResponseEvent (response agent_used : string)
    (tool_used : option string) (tool_results : option pydict)
    (rid tid : string)
| ErrorEvent (error_code error_message : string) (details : option pydict)
    (rid tid : string).

Module EventType.
Inductive t : Type :=
| DELEGATION | CLARIFICATION | GENERAL_RESPONSE | TOOL_INVOCATION
| TOOL_RESULT | FINAL_RESPONSE | ERROR.
End EventType.

Definition event_type (e : Event) : EventType.t :=
  match e with
  | DelegationEvent _ _ _ _ _ => EventType.DELEGATION
  | ClarificationEvent _ _ _ _ => EventType.CLARIFICATION
  | GeneralResponseEvent _ _ _ => EventType.GENERAL_RESPONSE
  | ToolInvocationEvent _ _ _ _ => EventType.TOOL_INVOCATION
  | ToolResultEvent _ _ _ _ _ => EventType.TOOL_RESULT
  | FinalResponseEvent _ _ _ _ _ _ => EventType.FINAL_RESPONSE
  | ErrorEvent _ _ _ _ _ => EventType.ERROR
  end.



Definition newline : string := String (ascii_of_nat 10) EmptyString.

(** The model validator of [DelegationEvent]: [confidence] is declared a
    [float] with [ge=0.0, le=1.0]; the number given is converted to a float
    (the argument here), and a value outside raises a validation error whose
    text is the validator's. *)
Definition make_DelegationEvent (target_agent : string) (confidence : float)
    (context : pydict) (rid tid : string) : exc Event :=
  if negb (PyFloat.ge confidence 0%float) then
    Raise ("1 validation error for DelegationEvent" ++ newline ++ "confidence"
           ++ newline ++ "  ensure this value is greater than or equal to 0.0"
           ++ " (type=value_error.number.not_ge; limit_value=0.0)")
  else if negb (PrimFloat.leb confidence 1%float) then
    Raise ("1 validation error for DelegationEvent" ++ newline ++ "confidence"
           ++ newline ++ "  ensure this value is less than or equal to 1.0"
           ++ " (type=value_error.number.not_le; limit_value=1.0)")
  else Ok (DelegationEvent target_agent confidence context rid tid).

(* ===================================================================== *)
(** ** Settings ([src/config/settings.py]) *)
(* ===================================================================== *)

Module settings.

Definition DEFAULT_CONFIDENCE_THRESHOLD : float := 0.7%float.
Definition HIGH_CONFIDENCE_THRESHOLD : float := 0.9%float.
Definition LOW_CONFIDENCE_THRESHOLD : float := 0.5%float.

Definition PHYSICS_CONSTANTS : list (string * pydict) :=
  [
    ("g",
      [("value", VFloat 9.81%float);
       ("unit", VStr "m/s²");
       ("description", VStr "Acceleration due to gravity on Earth")]);
    ("c",
      [("value", VInt 299792458%Z);
       ("unit", VStr "m/s");
       ("description", VStr "Speed of light in vacuum")]);
    ("G",
      [("value", VFloat 6.67430e-11%float);
       ("unit", VStr "m³/(kg·s²)");
       ("description", VStr "Gravitational constant")]);
    ("h",
      [("value", VFloat 6.62607015e-34%float);
       ("unit", VStr "J·s");
       ("description", VStr "Planck constant")]);
    ("e",
      [("value", VFloat 1.602176634e-19%float);
       ("unit", VStr "C");
       ("description", VStr "Elementary charge")]);
    ("me",
      [("value", VFloat 9.1093837015e-31%float);
       ("unit", VStr "kg");
       ("description", VStr "Electron mass")]);
    ("mp",
      [("value", VFloat 1.67262192369e-27%float);
       ("unit", VStr "kg");
       ("description", VStr "Proton mass")]);
    ("k",
      [("value", VFloat 1.380649e-23%float);
       ("unit", VStr "J/K");
       ("description", VStr "Boltzmann constant")]);
    ("NA",
      [("value", VFloat 6.02214076e23%float);
       ("unit", VStr "mol⁻¹");
       ("description", VStr "Avogadro constant")]);
    ("R",
      [("value", VFloat 8.31446261815324%float);
       ("unit", VStr "J/(mol·K)");
       ("description", VStr "Gas constant")]) ].

Definition PHYSICS_FORMULAS : list (string * pydict) :=
  [
    ("newton_second_law",
      [("formula", VStr "F = m·a");
       ("description", VStr "Newton's Second Law: Force equals mass times acceleration");
       ("variables", VDict [("F", VStr "Force (N)"); ("m", VStr "Mass (kg)"); ("a", VStr "Acceleration (m/s²)")])]);
    ("kinetic_energy",
      [("formula", VStr "KE = 0.5·m·v²");
       ("description", VStr "Kinetic Energy: The energy of motion");
       ("variables", VDict [("KE", VStr "Kinetic Energy (J)"); ("m", VStr "Mass (kg)"); ("v", VStr "Velocity (m/s)")])]);
    ("potential_energy_gravitational",
      [("formula", VStr "PE = m·g·h");
       ("description", VStr "Gravitational Potential Energy: Energy due to position in a gravitational field");
       ("variables", VDict [("PE", VStr "Potential Energy (J)"); ("m", VStr "Mass (kg)"); ("g", VStr "Gravitational acceleration (m/s²)"); ("h", VStr "Height (m)")])]);
    ("momentum",
      [("formula", VStr "p = m·v");
       ("description", VStr "Momentum: Product of mass and velocity");
       ("variables", VDict [("p", VStr "Momentum (kg·m/s)"); ("m", VStr "Mass (kg)"); ("v", VStr "Velocity (m/s)")])]);
    ("uniform_acceleration",
      [("formula", VStr "v = v₀ + a·t");
       ("description", VStr "Velocity with uniform acceleration");
       ("variables", VDict [("v", VStr "Final velocity (m/s)"); ("v₀", VStr "Initial velocity (m/s)"); ("a", VStr "Acceleration (m/s²)"); ("t", VStr "Time (s)")])]);
    ("uniform_acceleration_distance",
      [("formula", VStr "d = v₀·t + 0.5·a·t²");
       ("description", VStr "Distance with uniform acceleration");
       ("variables", VDict [("d", VStr "Distance (m)"); ("v₀", VStr "Initial velocity (m/s)"); ("a", VStr "Acceleration (m/s²)"); ("t", VStr "Time (s)")])]);
    ("work",
      [("formula", VStr "W = F·d·cos(θ)");
       ("description", VStr "Work done by a constant force");
       ("variables", VDict [("W", VStr "Work (J)"); ("F", VStr "Force (N)"); ("d", VStr "Distance (m)"); ("θ", VStr "Angle between force and displacement (rad)")])]);
    ("power",
      [("formula", VStr "P = W/t");
       ("description", VStr "Power: Rate of doing work");
       ("variables", VDict [("P", VStr "Power (W)"); ("W", VStr "Work (J)"); ("t", VStr "Time (s)")])]);
    ("ohms_law",
      [("formula", VStr "V = I·R");
       ("description", VStr "Ohm's Law: Relationship between voltage, current, and resistance");
       ("variables", VDict [("V", VStr "Voltage (V)"); ("I", VStr "Current (A)"); ("R", VStr "Resistance (Ω)")])]);
    ("universal_gravitation",
      [("formula", VStr "F = G·(m₁·m₂)/r²");
       ("description", VStr "Newton's Law of Universal Gravitation");
       ("variables", VDict [("F", VStr "Force (N)"); ("G", VStr "Gravitational constant (m³/(kg·s²))"); ("m₁", VStr "Mass 1 (kg)"); ("m₂", VStr "Mass 2 (kg)"); ("r", VStr "Distance between centers (m)")])]) ].

End settings.

(* ===================================================================== *)
(** ** Async generators *)
(* ===================================================================== *)

(** The body of an [async def ... yield] function, unfolded from its current
    suspension point.  [Yield out resume]: the generator hands [out] to its
    consumer ([None] for a bare [yield]) and is suspended; [resume v] is the
    rest of the body when the consumer resumes it with [v] ([None] when it is
    resumed by iteration, [Some v] when [v] is sent).  [Return]: the body
    ends.  [Raised msg]: an exception leaves the body. *)
Inductive Gen : Type :=
| Yield (out : option Event) (resume : option Event -> Gen)
| Return
| Raised (msg : string).

(** A generator that yields the given events and ignores what is sent. *)
Fixpoint emit (events : list Event) : Gen :=
  match events with
  | [] => Return
  | e :: rest => Yield (Some e) (fun _ => emit rest)
  end.

(* ===================================================================== *)
(** ** Tutor agent ([src/agents/tutor_agent.py]) *)
(* ===================================================================== *)

Module TutorAgent.

Definition name : string := "TutorAgent".

Definition high_confidence : float := settings.HIGH_CONFIDENCE_THRESHOLD.
Definition default_confidence : float := settings.DEFAULT_CONFIDENCE_THRESHOLD.
Definition low_confidence : float := settings.LOW_CONFIDENCE_THRESHOLD.

Definition available_agents : list string := ["MathAgent"; "PhysicsAgent"].

Definition math_keywords : list string :=
  [ "math"; "mathematics"; "algebra"; "calculus"; "geometry"; "trigonometry";
    "equation"; "solve"; "simplify"; "factor"; "expand"; "derivative"; "integral";
    "function"; "graph"; "polynomial"; "matrix"; "vector"; "logarithm"; "exponent";
    "sin"; "cos"; "tan"; "calculate"; "computation"; "arithmetic"; "number";
    "theorem"; "proof"; "formula"; "expression"; "variable"; "coefficient";
    "quadratic"; "linear"; "inequality"; "fraction"; "decimal"; "percentage" ].

Definition physics_keywords : list string :=
  [ "physics"; "mechanics"; "dynamics"; "kinematics"; "force"; "energy"; "momentum";
    "gravity"; "acceleration"; "velocity"; "displacement"; "motion"; "newton";
    "thermodynamics"; "heat"; "temperature"; "pressure"; "volume"; "gas";
    "electromagnetism"; "electric"; "magnetic"; "field"; "charge"; "current";
    "voltage"; "resistance"; "circuit"; "wave"; "optics"; "light"; "reflection";
    "refraction"; "quantum"; "relativity"; "nuclear"; "atom"; "particle";
    "conservation"; "friction"; "fluid"; "density"; "pressure"; "oscillation" ].

(** [sum(1 for keyword in keywords if keyword in query_lower)] *)
Definition keyword_count (keywords : list string) (query_lower : string) : nat :=
  length (List.filter (fun keyword => PyStr.contains keyword query_lower) keywords).

Definition math_count (q : string) : nat :=
  keyword_count math_keywords (PyStr.lower q).
Definition physics_count (q : string) : nat :=
  keyword_count physics_keywords (PyStr.lower q).

(** [min(0.7 + 0.1 * count, 0.95)] *)
Definition lexical_confidence (count : nat) : float :=
  PyFloat.min (0.7 + 0.1 * PyFloat.of_nat count)%float 0.95%float.

(** The triple returned by [_analyze_query_intent].  The confidence and the
    scores are what the reply of the oracle held under ["confidence"] and
    ["scores"]: any value. *)
Record Intent : Type := mkIntent {
  best_agent : string;
  intent_confidence : value;
  scores : value
}.

(** Outcome of a step together with the queries that were sent to the
    text-generation oracle while computing it. *)
Record traced (A : Type) : Type := mkTraced {
  oracle_calls : list (string * list string);
  outcome : A
}.
Arguments mkTraced {A} _ _.
Arguments oracle_calls {A} _.
Arguments outcome {A} _.

Definition clarification_message : string :=
  "I'm not sure which subject your question is about. Could you please clarify if you're asking about:".

Definition decline_response : string :=
  "I'm sorry, but I'm not able to determine which subject your question is about. "
  ++ "Currently, I can help with Mathematics and Physics questions. "
  ++ "Could you please rephrase your question to be more specific about the subject?".

Definition ambiguity_note (confidence : PyNum.number) : string :=
  "This query has elements of multiple subjects. Confidence: "
  ++ PyNum.format_2f confidence.

(** The loop over [scores.items()] that builds the clarification options. *)
Fixpoint clarification_options (s : list (string * value)) : list string :=
  match s with
  | [] => []
  | (agent, _) :: rest =>
      if String.eqb agent "MathAgent" then "Mathematics" :: clarification_options rest
      else if String.eqb agent "PhysicsAgent" then "Physics" :: clarification_options rest
      else clarification_options rest
  end.

(** Lines 140-207 of [run]: the decision is logged, which formats the
    confidence, and the confidence thresholds are applied.  The result is
    the event that is yielded, or the exception raised on the way. *)
Definition apply_confidence_thresholds (i : Intent) (rid tid : string) : exc Event :=
  match PyNum.number_of (intent_confidence i) with
  | Raise msg => Raise msg
  | Ok confidence =>
      if PyNum.ge confidence high_confidence then
        make_DelegationEvent (best_agent i) (PyNum.to_float confidence)
          [("scores", scores i)] rid tid
      else if PyNum.ge confidence default_confidence then
        make_DelegationEvent (best_agent i) (PyNum.to_float confidence)
          [("scores", scores i);
           ("ambiguity_note", VStr (ambiguity_note confidence))] rid tid
      else if PyNum.ge confidence low_confidence then
        match scores i with
        | VDict items =>
            Ok (ClarificationEvent clarification_message
                  (clarification_options items) rid tid)
        | other =>
            Raise ("'" ++ type_name other
                   ++ "' object has no attribute 'items'")
        end
      else
        Ok (GeneralResponseEvent decline_response rid tid)
  end.

Section WithOracle.

(** [GeminiClient.analyze_query_intent]: the reply of the text-generation
    oracle, already parsed, or the [GeminiAPIError] it raises. *)
Variable gemini_analyze_query_intent : string -> list string -> exc Intent.

Definition _analyze_query_intent (query : string) : traced (exc Intent) :=
  let query_lower := PyStr.lower query in
  let math_count := keyword_count math_keywords query_lower in
  let physics_count := keyword_count physics_keywords query_lower in
  if (0 <? math_count)%nat && (2 * physics_count <? math_count)%nat then
    let confidence := lexical_confidence math_count in
    mkTraced []
      (Ok (mkIntent "MathAgent" (VFloat confidence)
             (VDict [("MathAgent", VFloat confidence);
                     ("PhysicsAgent", VFloat (1 - confidence)%float)])))
  else if (0 <? physics_count)%nat && (2 * math_count <? physics_count)%nat then
    let confidence := lexical_confidence physics_count in
    mkTraced []
      (Ok (mkIntent "PhysicsAgent" (VFloat confidence)
             (VDict [("PhysicsAgent", VFloat confidence);
                     ("MathAgent", VFloat (1 - confidence)%float)])))
  else
    mkTraced [(query, available_agents)]
      (gemini_analyze_query_intent query available_agents).

(** [run]: the events the generator yields, in order, with the oracle
    calls made on the way. *)
Definition run_events (context : InvocationContext) : traced (list Event) :=
  let q := query context in
  let rid := request_id context in
  let tid := trace_id context in
  if PyStr.is_empty q || PyStr.is_empty (PyStr.strip q) then
    mkTraced []
      [ErrorEvent "EMPTY_QUERY" "Query cannot be empty" None rid tid]
  else
    let a := _analyze_query_intent q in
    let yielded :=
      match outcome a with
      | Raise msg => Raise msg
      | Ok i => apply_confidence_thresholds i rid tid
      end in
    mkTraced (oracle_calls a)
      match yielded with
      | Ok ev => [ev]
      | Raise msg =>
          [ErrorEvent "TUTOR_AGENT_ERROR" ("Error in Tutor Agent: " ++ msg)
             None rid tid]
      end.

Definition run (context : InvocationContext) : Gen :=
  emit (outcome (run_events context)).

End WithOracle.

End TutorAgent.

(* ===================================================================== *)
(** ** Math agent ([src/agents/math_agent.py]) *)
(* ===================================================================== *)

Module MathAgent.

Definition name : string := "MathAgent".

(** [str(e)] of the [AttributeError] raised by [x.event_type] when [x] is
    [None]. *)
Definition none_has_no_event_type : string :=
  "'NoneType' object has no attribute 'event_type'".

Section WithCapabilities.

(** The pattern search of [_extract_calculation_expression] and the
    substitutions of [_format_calculation_for_tool] are calls to the
    regular-expression library; [_generate_response] is a call to the
    text-generation oracle, which may raise. *)
Variable _extract_calculation_expression : string -> option string.
Variable _format_calculation_for_tool : string -> string.
Variable _generate_response : string -> option pydict -> exc string.

Definition _needs_calculation (query : string) : bool :=
  match _extract_calculation_expression query with
  | Some _ => true
  | None => false
  end.

(** The [except Exception] handler of [run]. *)
Definition on_error (rid tid msg : string) : Gen :=
  Yield (Some (ErrorEvent "MATH_AGENT_ERROR" ("Error in Math Agent: " ++ msg)
                 None rid tid))
        (fun _ => Return).

(** [response = await self._generate_response(...)] followed by the
    [yield FinalResponseEvent(...)] of the branch. *)
Definition respond (query : string) (calculation_result : option pydict)
    (tool_used : option string) (rid tid : string) : Gen :=
  match _generate_response query calculation_result with
  | Raise msg => on_error rid tid msg
  | Ok response =>
      Yield (Some (FinalResponseEvent response name tool_used
                     calculation_result rid tid))
            (fun _ => Return)
  end.

(** Python truthiness of [tool_result.error]. *)
Definition error_set (error : option string) : bool :=
  match error with
  | Some msg => negb (PyStr.is_empty msg)
  | None => false
  end.

(** The code after [tool_result = yield]. *)
Definition after_tool_result (query rid tid : string)
    (tool_result : option Event) : Gen :=
  match tool_result with
  | None => on_error rid tid none_has_no_event_type
  | Some (ToolResultEvent _ result error _ _) =>
      if error_set error then respond query None None rid tid
      else respond query (Some result) (Some "CalculatorTool") rid tid
  | Some _ => respond query None None rid tid
  end.

Definition run (context : InvocationContext) : Gen :=
  let q := query context in
  let rid := request_id context in
  let tid := trace_id context in
  if _needs_calculation q then
    match _extract_calculation_expression q with
    | None => on_error rid tid "expected string or bytes-like object, got 'NoneType'"
    | Some expression =>
        let formatted_expression := _format_calculation_for_tool expression in
        (* yield ToolInvocationEvent(...): the value sent here is dropped *)
        Yield (Some (ToolInvocationEvent "CalculatorTool"
                       [("expression", VStr formatted_expression)] rid tid))
          (fun _ =>
             (* tool_result = yield *)
             Yield None (after_tool_result q rid tid))
    end
  else respond q None None rid tid.

End WithCapabilities.

End MathAgent.

(* ===================================================================== *)
(** ** Session service ([src/utils/adk.py], class [SessionService]) *)
(* ===================================================================== *)

Module SessionService.

(** [self.sessions] *)
Abbreviation sessions := (gmap string (gmap string value)).

Definition empty : sessions := ∅.

(** [self.sessions.get(session_id, {})] *)
Definition get_session_state (s : sessions) (session_id : string)
    : gmap string value :=
  default ∅ (s !! session_id).

(** [if session_id not in self.sessions: self.sessions[session_id] = {}]
    then [self.sessions[session_id].update(updates)]: the keys of [updates]
    overwrite. *)
Definition update_session_state (s : sessions) (session_id : string)
    (updates : gmap string value) : sessions :=
  let s1 := match s !! session_id with
            | None => <[session_id := ∅]> s
            | Some _ => s
            end in
  <[session_id := updates ∪ default ∅ (s1 !! session_id)]> s1.

(** [if session_id in self.sessions: del self.sessions[session_id]] *)
Definition clear_session (s : sessions) (session_id : string) : sessions :=
  match s !! session_id with
  | Some _ => delete session_id s
  | None => s
  end.

End SessionService.

(* ===================================================================== *)
(** ** Runner ([src/utils/adk.py], class [Runner]) *)
(* ===================================================================== *)

Module Runner.

(** An agent is its [run] method; a tool is its [execute] method, which
    returns a result or raises. *)
Abbreviation agent := (InvocationContext -> Gen).
Abbreviation tool := (pydict -> exc pydict).

Record t : Type := mkRunner {
  agents : gmap string agent;
  tools : gmap string tool;
  has_session_service : bool;
  runner_request_id : string;
  runner_trace_id : string
}.

(** The events a generator has yielded so far.  [complete] is false when
    the delegation depth allowed to the model was used up before the
    generator ended; the events listed are then a prefix. *)
Record trace : Type := mkTrace {
  events : list Event;
  complete : bool
}.

Definition then_trace (a b : trace) : trace :=
  if complete a then mkTrace (events a ++ events b) (complete b) else a.

Definition one (e : Event) : trace := mkTrace [e] true.

Definition execution_error (r : t) (msg : string) : Event :=
  ErrorEvent "AGENT_EXECUTION_ERROR" ("Agent execution failed: " ++ msg) None
    (runner_request_id r) (runner_trace_id r).

(** The body of [async for event in agent.run(context)]: the agent is
    resumed by iteration, that is with [None]. *)
Fixpoint drive (run_agent : string -> InvocationContext -> trace)
    (r : t) (context : InvocationContext) (g : Gen) : trace :=
  match g with
  | Return => mkTrace [] true
  | Raised msg => one (execution_error r msg)
  | Yield None _ =>
      (* [event.event_type] on [None] raises inside the outer [try] *)
      one (execution_error r MathAgent.none_has_no_event_type)
  | Yield (Some event) resume =>
      match event with
      | DelegationEvent target_agent _ delegation_context _ _ =>
          let new_context :=
            mkContext (query context) (request_id context)
              (session_id context) (trace_id context)
              (session_state context) (metadata context)
              delegation_context in
          then_trace (run_agent target_agent new_context)
                     (drive run_agent r context (resume None))
      | ToolInvocationEvent tool_name inputs _ _ =>
          let produced :=
            match tools r !! tool_name with
            | None =>
                ErrorEvent "TOOL_NOT_FOUND" ("Tool not found: " ++ tool_name)
                  None (runner_request_id r) (runner_trace_id r)
            | Some execute =>
                match execute inputs with
                | Ok result =>
                    ToolResultEvent tool_name result None
                      (runner_request_id r) (runner_trace_id r)
                | Raise msg =>
                    ToolResultEvent tool_name [] (Some msg)
                      (runner_request_id r) (runner_trace_id r)
                end
            end in
          then_trace (one produced) (drive run_agent r context (resume None))
      | _ =>
          then_trace (one event) (drive run_agent r context (resume None))
      end
  end.

(** [run_agent]; [depth] bounds the nesting of delegations. *)
Fixpoint run_agent (depth : nat) (r : t) (agent_name : string)
    (context : InvocationContext) : trace :=
  match depth with
  | O => mkTrace [] false
  | S depth' =>
      match agents r !! agent_name with
      | None =>
          one (ErrorEvent "AGENT_NOT_FOUND" ("Agent not found: " ++ agent_name)
                 None (runner_request_id r) (runner_trace_id r))
      | Some run => drive (run_agent depth' r) r context (run context)
      end
  end.

(** What the loop of [process_query] finds in the events of the run. *)
Inductive found : Type :=
| FoundFinal (response agent_used : string) (tool_used : option string)
    (tool_results : option pydict)
| FoundError (error_code error_message : string)
| Exhausted.

Fixpoint scan (es : list Event) : found :=
  match es with
  | [] => Exhausted
  | FinalResponseEvent response agent_used tool_used tool_results _ _ :: _ =>
      FoundFinal response agent_used tool_used tool_results
  | ErrorEvent error_code error_message _ _ _ :: _ =>
      FoundError error_code error_message
  | _ :: rest => scan rest
  end.

Record response : Type := mkResponse {
  answer : string;
  agent_used : string;
  tool_used : option string;
  tool_results : option pydict
}.

(** Truthiness of the [session_id] argument. *)
Definition session_key (r : t) (session_id : option string) : option string :=
  match session_id with
  | Some id => if has_session_service r && negb (PyStr.is_empty id)
               then Some id else None
  | None => None
  end.

Definition remember (s : gmap string (gmap string value)) (key : option string)
    (query : string) (final_response : value) (agent_used : string)
    : gmap string (gmap string value) :=
  match key with
  | Some id =>
      SessionService.update_session_state s id
        (<["last_query" := VStr query]>
           (<["last_response" := final_response]>
              (<["last_agent_used" := VStr agent_used]> ∅)))
  | None => s
  end.

(** The invocation context that [process_query] creates: the session state
    it has read, and the request and trace ids of the runner. *)
Definition initial_context (r : t) (s : gmap string (gmap string value))
    (query : string) (session_id : option string) : InvocationContext :=
  let session_state :=
    match session_key r session_id with
    | Some id => SessionService.get_session_state s id
    | None => ∅
    end in
  mkContext query (runner_request_id r) session_id (runner_trace_id r)
    session_state [] [].

(** [process_query]: the value returned or the exception raised, and the
    session store afterwards.  [None]: the delegation depth allowed to the
    model was used up before a final response or an error was seen. *)
Definition process_query (depth : nat) (r : t) (s : gmap string (gmap string value))
    (query : string) (session_id : option string)
    : option (exc response * gmap string (gmap string value)) :=
  let key := session_key r session_id in
  let context := initial_context r s query session_id in
  let tr := run_agent depth r "TutorAgent" context in
  match scan (events tr) with
  | FoundError error_code error_message =>
      Some (Raise (error_code ++ ": " ++ error_message), s)
  | FoundFinal final_response agent_used tool_used tool_results =>
      let s' := remember s key query (VStr final_response) agent_used in
      if PyStr.is_empty final_response
      then Some (Raise "No final response was generated", s')
      else Some (Ok (mkResponse final_response agent_used tool_used tool_results), s')
  | Exhausted =>
      if complete tr
      then Some (Raise "No final response was generated",
                 remember s key query VNone "TutorAgent")
      else None
  end.

End Runner.

(* ===================================================================== *)
(** ** Exceptions raised by tools ([src/utils/errors.py]) *)
(* ===================================================================== *)

(** The exceptions that leave a tool: the application's [ToolError], the
    [re.error] of the regular-expression library, and any other exception.
    Each carries the text of [str(e)]. *)
Inductive exception : Type :=
| ToolError (message : string) (details : option pydict)
| ReError (msg : string)
| OtherError (msg : string).

Inductive outcome (A : Type) : Type :=
| Returns (a : A)
| Raises (e : exception).
Arguments Returns {A} a.
Arguments Raises {A} e.

Definition str_of_exception (e : exception) : string :=
  match e with
  | ToolError message _ => message
  | ReError msg => msg
  | OtherError msg => msg
  end.

(** A tool as the runner sees it: what [execute] returns, or [str(e)]. *)
Definition as_tool (execute : pydict -> outcome pydict) : pydict -> exc pydict :=
  fun inputs =>
    match execute inputs with
    | Returns result => Ok result
    | Raises e => Raise (str_of_exception e)
    end.

(* ===================================================================== *)
(** ** Regular expressions: the fragment used by the calculator *)
(* ===================================================================== *)

Module Re.

(** One-character matchers. *)
Inductive atom : Type :=
| Lit (c : ascii)
| Digit                                   (* \d *)
| Class (ranges : list (ascii * ascii)).  (* [a-zA-Z] *)

Inductive item : Type :=
| AtBegin                 (* ^ *)
| AtEnd                   (* $ *)
| One (a : atom)
| Plus (a : atom)         (* a+ *)
| Star (a : atom).        (* a* *)

(** The result of compiling a pattern: the items, the [re.error] that
    compilation raises, or a pattern outside the fragment modelled here
    (groups that are closed, alternation, repeated quantifiers, other
    escapes). *)
Inductive compiled : Type :=
| Compiled (items : list item)
| CompileError (msg : string)
| OutsideFragment.

Definition at_position (msg : string) (pos : nat) : string :=
  msg ++ " at position " ++ PyFloat.string_of_Z (Z.of_nat pos).

(** [a-zA-Z]: pairs [x-y] up to the closing bracket. *)
Fixpoint parse_class (s : string) (acc : list (ascii * ascii))
    : option (list (ascii * ascii) * string * nat) :=
  match s with
  | String "]" rest => Some (rev acc, rest, 1)
  | String lo (String "-" (String hi rest)) =>
      match parse_class rest ((lo, hi) :: acc) with
      | Some (ranges, rest', n) => Some (ranges, rest', 3 + n)
      | None => None
      end
  | _ => None
  end.

(** The parser, on the rest [s] of the pattern at offset [pos], with the
    items read so far in reverse order.  [skip] is the number of characters
    of [s] that an escape or a class has already consumed. *)
Fixpoint parse (s : string) (pos : nat) (skip : nat) (acc : list item)
    : compiled :=
  match s with
  | EmptyString => Compiled (rev acc)
  | String c rest =>
      match skip with
      | S skip' => parse rest (S pos) skip' acc
      | O =>
          if Ascii.eqb c "^" then parse rest (S pos) 0 (AtBegin :: acc)
          else if Ascii.eqb c "$" then parse rest (S pos) 0 (AtEnd :: acc)
          else if Ascii.eqb c "+" || Ascii.eqb c "*" then
            match acc with
            | [] | AtBegin :: _ | AtEnd :: _ =>
                CompileError (at_position "nothing to repeat" pos)
            | One a :: acc' =>
                parse rest (S pos) 0
                  ((if Ascii.eqb c "+" then Plus a else Star a) :: acc')
            | Plus _ :: _ | Star _ :: _ => OutsideFragment
            end
          else if Ascii.eqb c "(" then
            if PyStr.contains ")" rest then OutsideFragment
            else CompileError
                   (at_position "missing ), unterminated subpattern" pos)
          else if Ascii.eqb c ")" then
            CompileError (at_position "unbalanced parenthesis" pos)
          else if Ascii.eqb c "\" then
            match rest with
            | String "d" _ => parse rest (S pos) 1 (One Digit :: acc)
            | String "." _ => parse rest (S pos) 1 (One (Lit ".") :: acc)
            | _ => OutsideFragment
            end
          else if Ascii.eqb c "[" then
            match parse_class rest [] with
            | Some (ranges, _, n) => parse rest (S pos) n (One (Class ranges) :: acc)
            | None => OutsideFragment
            end
          else if Ascii.eqb c "." || Ascii.eqb c "?" || Ascii.eqb c "{"
                  || Ascii.eqb c "|" || negb (PyStr.byte c <? 0x80)%N
               then OutsideFragment
          else parse rest (S pos) 0 (One (Lit c) :: acc)
      end
  end.

(** [re.compile(pattern)] *)
Definition compile (pattern : string) : compiled := parse pattern 0 0 [].

Definition in_range (cp : N) (r : ascii * ascii) : bool :=
  (PyStr.byte (fst r) <=? cp)%N && (cp <=? PyStr.byte (snd r))%N.

(** The characters are code points; [\d] is the class of the decimal
    digits, as it is for a [str] pattern. *)
Definition sat (a : atom) (cp : N) : bool :=
  match a with
  | Lit d => N.eqb cp (PyStr.byte d)
  | Digit => PyStr.is_decimal cp
  | Class ranges => existsb (in_range cp) ranges
  end.

(** [$] holds at the end of the string and before a final newline. *)
Definition at_end (s : list N) : bool :=
  match s with
  | [] => true
  | [c] => N.eqb c 10
  | _ => false
  end.

(** Does the sequence of items match a prefix of [s]?  [start] tells
    whether [s] is the whole subject. *)
Fixpoint matches (items : list item) (s : list N) (start : bool) : bool :=
  match items with
  | [] => true
  | AtBegin :: r => start && matches r s start
  | AtEnd :: r => at_end s && matches r s start
  | One a :: r =>
      match s with
      | c :: t => sat a c && matches r t false
      | [] => false
      end
  | Plus a :: r =>
      (fix more (s : list N) : bool :=
         match s with
         | c :: t => sat a c && (more t || matches r t false)
         | [] => false
         end) s
  | Star a :: r =>
      matches r s start
      || (fix more (s : list N) : bool :=
            match s with
            | c :: t => sat a c && (more t || matches r t false)
            | [] => false
            end) s
  end.

(** [bool(re.match(pattern, subject))] for a subject given by its code
    points, or the exception of [re.compile]. *)
Definition match_ (pattern : string) (subject : list N) : outcome bool :=
  match compile pattern with
  | Compiled items => Returns (matches items subject true)
  | CompileError msg => Raises (ReError msg)
  | OutsideFragment => Raises (OtherError "pattern outside the modelled fragment")
  end.

End Re.

(* ===================================================================== *)
(** ** Calculator tool ([src/tools/calculator.py]) *)
(* ===================================================================== *)

Module CalculatorTool.

Definition name : string := "CalculatorTool".

(** The keys of [self.allowed_symbols], in insertion order. *)
Definition allowed_symbols : list string :=
  [ "+"; "-"; "*"; "/"; "**"; "^";
    "sqrt"; "exp"; "log"; "sin"; "cos"; "tan"; "asin"; "acos"; "atan";
    "pi"; "e";
    "("; ")";
    "\d+"; "\d+\.\d+"; "[a-zA-Z]" ].

Definition is_operator (c : ascii) : bool :=
  Ascii.eqb c "+" || Ascii.eqb c "-" || Ascii.eqb c "*" || Ascii.eqb c "/"
  || Ascii.eqb c "^" || Ascii.eqb c "(" || Ascii.eqb c ")".

(** A character of the expression is an operator, an ASCII letter. *)
Definition operator_char (c : N * string) : bool :=
  (fst c <? 0x80)%N && is_operator (ascii_of_N (fst c)).

Definition letter_char (c : N * string) : bool :=
  (fst c <? 0x80)%N && PyStr.is_alpha (ascii_of_N (fst c)).

Definition digit_char (c : N * string) : bool := PyStr.is_decimal (fst c).

Definition dot_char (c : N * string) : bool := (fst c =? 0x2E)%N.

(** The scanner of
    [re.findall(r'[+\-*/^()]|\d+\.\d+|\d+|[a-zA-Z]+', expression)]: what
    has been read of the token in progress.  A token is held as its
    characters. *)
Inductive scanning : Type :=
| Idle
| InInt (digits : list (N * string))               (* \d+ so far *)
| InDot (digits : list (N * string)) (dot : N * string)  (* \d+ and a dot *)
| InFrac (digits : list (N * string)) (dot : N * string)
    (fraction : list (N * string))                  (* \d+\.\d+ so far *)
| InWord (letters : list (N * string)).             (* [a-zA-Z]+ so far *)

Definition snoc (l : list (N * string)) (c : N * string) : list (N * string) :=
  (l ++ [c])%list.

Definition flush (st : scanning) : list (list (N * string)) :=
  match st with
  | Idle => []
  | InInt ds => [ds]
  | InDot ds _ => [ds]
  | InFrac ds dot fs => [(ds ++ dot :: fs)%list]
  | InWord ws => [ws]
  end.

Fixpoint scan (st : scanning) (l : list (N * string))
    : list (list (N * string)) :=
  match l with
  | [] => flush st
  | c :: t =>
      (* a token starts at [c], or [c] is skipped *)
      let fresh :=
        if operator_char c then [c] :: scan Idle t
        else if digit_char c then scan (InInt [c]) t
        else if letter_char c then scan (InWord [c]) t
        else scan Idle t in
      match st with
      | Idle => fresh
      | InInt ds =>
          if digit_char c then scan (InInt (snoc ds c)) t
          else if dot_char c then scan (InDot ds c) t
          else ds :: fresh
      | InDot ds dot =>
          if digit_char c then scan (InFrac ds dot [c]) t
          else ds :: fresh
      | InFrac ds dot fs =>
          if digit_char c then scan (InFrac ds dot (snoc fs c)) t
          else (ds ++ dot :: fs)%list :: fresh
      | InWord ws =>
          if letter_char c then scan (InWord (snoc ws c)) t
          else ws :: fresh
      end
  end.

Definition tokens (expression : string) : list (list (N * string)) :=
  scan Idle (PyStr.chars expression).

Definition codes (token : list (N * string)) : list N := map fst token.

(** [re.match(r'^\d+$', token) or re.match(r'^\d+\.\d+$', token)] *)
Definition is_number (token : list (N * string)) : outcome bool :=
  match Re.match_ "^\d+$" (codes token) with
  | Returns true => Returns true
  | Returns false => Re.match_ "^\d+\.\d+$" (codes token)
  | Raises e => Raises e
  end.

(** The loop over [self.allowed_symbols.keys()] for one token. *)
Fixpoint is_allowed (patterns : list string) (token : list (N * string))
    : outcome bool :=
  match patterns with
  | [] => Returns false
  | pattern :: rest =>
      match Re.match_ ("^" ++ pattern ++ "$") (codes token) with
      | Returns true => Returns true
      | Returns false => is_allowed rest token
      | Raises e => Raises e
      end
  end.

(** The loop over the tokens: the first disallowed token, if any. *)
Fixpoint first_disallowed (toks : list (list (N * string)))
    : outcome (option string) :=
  match toks with
  | [] => Returns None
  | token :: rest =>
      match is_number token with
      | Raises e => Raises e
      | Returns true => first_disallowed rest
      | Returns false =>
          match is_allowed allowed_symbols token with
          | Raises e => Raises e
          | Returns true => first_disallowed rest
          | Returns false => Returns (Some (PyStr.text token))
          end
      end
  end.

(** [re.search(r'/\s*0(?![.\d])', expression)], on the code points *)
Fixpoint zero_follows (s : list N) : bool :=
  match s with
  | c :: t =>
      if (c =? 0x30)%N then
        match t with
        | [] => true
        | d :: _ => negb ((d =? 0x2E)%N || PyStr.is_decimal d)
        end
      else PyStr.isspace c && zero_follows t
  | [] => false
  end.

Fixpoint divides_by_zero (s : list N) : bool :=
  match s with
  | c :: t => ((c =? 0x2F)%N && zero_follows t) || divides_by_zero t
  | [] => false
  end.

Definition divides_by_literal_zero (expression : string) : bool :=
  divides_by_zero (map fst (PyStr.chars expression)).

(** [_validate_expression]: the pair [(is_valid, error_message)], or the
    exception raised on the way. *)
Definition _validate_expression (expression : string)
    : outcome (bool * option string) :=
  if PyStr.is_empty expression || PyStr.is_empty (PyStr.strip expression) then
    Returns (false, Some "Expression cannot be empty")
  else
    match first_disallowed (tokens expression) with
    | Raises e => Raises e
    | Returns (Some token) =>
        Returns (false, Some ("Disallowed symbol or function: " ++ token))
    | Returns None =>
        if negb (PyStr.count_char "(" expression
                 =? PyStr.count_char ")" expression)%nat then
          Returns (false, Some "Unbalanced parentheses")
        else if divides_by_literal_zero expression then
          Returns (false, Some "Division by zero")
        else Returns (true, None)
    end.

(** [expression.replace('^', '**')] *)
Fixpoint replace_caret (s : string) : string :=
  match s with
  | EmptyString => EmptyString
  | String c t =>
      if Ascii.eqb c "^" then String "*" (String "*" (replace_caret t))
      else String c (replace_caret t)
  end.

Definition _preprocess_expression (expression : string) : string :=
  PyStr.strip (replace_caret expression).

Section WithEvaluator.

(** [float(sympy.sympify(e).evalf())]: the value, or the exception of the
    symbolic evaluator; and [_generate_steps], prose built with it. *)
Variable evaluate : string -> exc float.
Variable _generate_steps : string -> float -> list string.

(** [execute] on the value of [inputs.get('expression', '')] *)
Definition execute_expression (expression : string) : outcome pydict :=
  match _validate_expression expression with
  | Raises e => Raises e
  | Returns (false, error_message) =>
      Raises (ToolError
                ("Invalid expression: "
                 ++ match error_message with Some m => m | None => "None" end)
                (Some [("expression", VStr expression)]))
  | Returns (true, _) =>
      match evaluate (_preprocess_expression expression) with
      | Ok result =>
          Returns [("result", VFloat result);
                   ("steps", VList (map VStr (_generate_steps expression result)))]
      | Raise msg =>
          Raises (ToolError ("Calculation failed: " ++ msg)
                    (Some [("expression", VStr expression)]))
      end
  end.

Definition execute (inputs : pydict) : outcome pydict :=
  match dict_get inputs "expression" with
  | None => execute_expression ""
  | Some (VStr expression) => execute_expression expression
  | Some _ => Raises (OtherError "the expression is not a string")
  end.

End WithEvaluator.

End CalculatorTool.

(* ===================================================================== *)
(** ** Lookup tool ([src/tools/lookup.py]) *)
(* ===================================================================== *)

Module LookupTool.

Definition name : string := "LookupTool".

Definition constants : list (string * pydict) := settings.PHYSICS_CONSTANTS.
Definition formulas : list (string * pydict) := settings.PHYSICS_FORMULAS.

(** [collection.keys()] *)
Definition keys (collection : list (string * pydict)) : list string :=
  map fst collection.

(** [key in collection] *)
Definition has_key (collection : list (string * pydict)) (key : string) : bool :=
  existsb (String.eqb key) (keys collection).

(** [collection[key]] for a key that is present *)
Fixpoint item (collection : list (string * pydict)) (key : string) : pydict :=
  match collection with
  | [] => []
  | (k, v) :: rest => if String.eqb key k then v else item rest key
  end.

(** [len(a) / len(b)] *)
Definition length_ratio (a b : string) : float :=
  (PyFloat.of_nat (PyStr.len a) / PyFloat.of_nat (PyStr.len b))%float.

(** One turn of the partial-match loop: the best match and its score
    before and after the key [k]. *)
Definition partial_step (key_lower : string) (best : option string * float)
    (k : string) : option string * float :=
  let k_lower := PyStr.lower k in
  if PyStr.contains key_lower k_lower then
    let score := length_ratio key_lower k_lower in
    if PyFloat.gt score (snd best) then (Some k, score) else best
  else if PyStr.contains k_lower key_lower then
    let score := length_ratio k_lower key_lower in
    if PyFloat.gt score (snd best) then (Some k, score) else best
  else best.

(** The partial-match loop: [best_match] and [best_score] at its end. *)
Definition partial_best (key_lower : string)
    (collection : list (string * pydict)) : option string * float :=
  fold_left (partial_step key_lower) (keys collection) (None, 0%float).

(** Truthiness of [best_match]. *)
Definition truthy (m : option string) : bool :=
  match m with
  | Some k => negb (PyStr.is_empty k)
  | None => false
  end.

Definition _fuzzy_match (key : string) (collection : list (string * pydict))
    : option string * float :=
  if has_key collection key then (Some key, 1%float)
  else
    let key_lower := PyStr.lower key in
    match find (fun k => String.eqb (PyStr.lower k) key_lower) (keys collection) with
    | Some k => (Some k, 0.9%float)
    | None =>
        let best := partial_best key_lower collection in
        if truthy (fst best) && PyFloat.gt (snd best) 0.5%float then best
        else (None, 0%float)
    end.

(** [result.get(field)] *)
Definition get_field (result : pydict) (field : string) : value :=
  match dict_get result field with
  | Some v => v
  | None => VNone
  end.

(** [execute] on the values of [inputs.get('key', '')] and
    [inputs.get('type', 'constant')] *)
Definition execute_lookup (key lookup_type : string) : outcome pydict :=
  if PyStr.is_empty key then
    Raises (ToolError "Missing key for lookup" None)
  else if negb (String.eqb lookup_type "constant" || String.eqb lookup_type "formula") then
    Raises (ToolError ("Invalid lookup type: " ++ lookup_type
                       ++ ". Must be 'constant' or 'formula'.") None)
  else
    let collection :=
      if String.eqb lookup_type "constant" then constants else formulas in
    let '(matched_key, confidence) := _fuzzy_match key collection in
    match matched_key with
    | Some matched =>
        if PyStr.is_empty matched then
          Raises (ToolError ("No match found for " ++ lookup_type ++ ": " ++ key)
                    (Some [("key", VStr key); ("type", VStr lookup_type)]))
        else
          let result := item collection matched in
          let tool_result :=
            if String.eqb lookup_type "constant" then
              [("key", VStr matched);
               ("type", VStr "constant");
               ("value", get_field result "value");
               ("unit", get_field result "unit");
               ("description", get_field result "description")]
            else
              [("key", VStr matched);
               ("type", VStr "formula");
               ("formula", get_field result "formula");
               ("description", get_field result "description");
               ("variables", get_field result "variables")] in
          if PyFloat.lt confidence 1%float then
            Returns (tool_result ++ [("match_confidence", VFloat confidence);
                                     ("original_query", VStr key)])%list
          else Returns tool_result
    | None =>
        Raises (ToolError ("No match found for " ++ lookup_type ++ ": " ++ key)
                  (Some [("key", VStr key); ("type", VStr lookup_type)]))
    end.

Definition execute (inputs : pydict) : outcome pydict :=
  match dict_get inputs "key", dict_get inputs "type" with
  | Some (VStr key), Some (VStr lookup_type) => execute_lookup key lookup_type
  | Some (VStr key), None => execute_lookup key "constant"
  | None, Some (VStr lookup_type) => execute_lookup "" lookup_type
  | None, None => execute_lookup "" "constant"
  | _, _ => Raises (OtherError "the key or the type is not a string")
  end.

End LookupTool.

(* ===================================================================== *)
(** ** Gemini client ([src/utils/gemini.py], class [GeminiClient]) *)
(* ===================================================================== *)

Module GeminiClient.

(** What a call does besides returning: the messages sent to the API, with
    the number of the attempt, and the calls of [time.sleep]. *)
Inductive effect : Type :=
| SendMessage (attempt : nat)
| Sleep (seconds : float).

(** The exceptions that leave the client: its own [GeminiAPIError], and an
    exception raised outside a [try] or inside a handler. *)
Inductive error : Type :=
| GeminiAPIError (message : string)
| Uncaught (msg : string).

Definition str_of_error (e : error) : string :=
  match e with
  | GeminiAPIError message => message
  | Uncaught msg => msg
  end.

Inductive answer (A : Type) : Type :=
| Returned (a : A)
| Failed (e : error).
Arguments Returned {A} a.
Arguments Failed {A} e.

(** [2 ** attempt] as a float *)
Fixpoint pow2 (attempt : nat) : float :=
  match attempt with
  | O => 1%float
  | S n => (2 * pow2 n)%float
  end.

(** [retry_delay * (2 ** attempt)]: the integer power is converted to a
    float, which raises [OverflowError] from [2 ** 1024] on. *)
Definition backoff (retry_delay : float) (attempt : nat) : exc float :=
  if (1023 <? attempt)%nat then Raise "int too large to convert to float"
  else Ok (retry_delay * pow2 attempt)%float.

Definition dquote : string := String (ascii_of_nat 34) EmptyString.

Definition intent_system_instruction : string :=
  String.concat newline
    [ EmptyString;
      "        You are an expert query classifier for an educational tutoring system.";
      "        Your task is to analyze the user's query and determine which specialized agent would be best suited to handle it.";
      "        You must assign confidence scores to each available agent based on how well the query matches their domain expertise.";
      "        " ].

Definition intent_prompt (query : string) : string :=
  String.concat newline
    [ EmptyString;
      "        Analyze the following query and determine which specialized agent would be best suited to handle it.";
      "        ";
      "        Query: " ++ dquote ++ query ++ dquote;
      "        ";
      "        Available agents:";
      "        - MathAgent: Handles mathematical questions, calculations, algebra, calculus, geometry, etc.";
      "        - PhysicsAgent: Handles physics questions, physical laws, mechanics, thermodynamics, electromagnetism, etc.";
      "        ";
      "        For each agent, assign a confidence score between 0.0 and 1.0 that represents how well the query matches their domain expertise.";
      "        The sum of all confidence scores should not exceed 1.0.";
      "        ";
      "        Provide your analysis in the following JSON format:";
      "        {";
      "            " ++ dquote ++ "best_agent" ++ dquote ++ ": " ++ dquote ++ "AgentName" ++ dquote ++ ",";
      "            " ++ dquote ++ "confidence" ++ dquote ++ ": 0.X,";
      "            " ++ dquote ++ "reasoning" ++ dquote ++ ": " ++ dquote ++ "Brief explanation of your decision" ++ dquote ++ ",";
      "            " ++ dquote ++ "scores" ++ dquote ++ ": {";
      "                " ++ dquote ++ "MathAgent" ++ dquote ++ ": 0.X,";
      "                " ++ dquote ++ "PhysicsAgent" ++ dquote ++ ": 0.X";
      "            }";
      "        }";
      "        ";
      "        Only respond with the JSON object, no other text.";
      "        " ].

(** [s.replace('\n', '')] *)
Fixpoint remove_newlines (s : string) : string :=
  match s with
  | EmptyString => EmptyString
  | String c t =>
      if Ascii.eqb c (ascii_of_nat 10) then remove_newlines t
      else String c (remove_newlines t)
  end.

(** The suffix of [s] that starts at its first opening brace. *)
Fixpoint from_first_brace (s : string) : option string :=
  match s with
  | EmptyString => None
  | String c t => if Ascii.eqb c "{" then Some s else from_first_brace t
  end.

(** The longest prefix of [s] that ends with a closing brace. *)
Fixpoint upto_last_brace (s : string) : option string :=
  match s with
  | EmptyString => None
  | String c t =>
      match upto_last_brace t with
      | Some p => Some (String c p)
      | None => if Ascii.eqb c "}" then Some (String c EmptyString) else None
      end
  end.

(** [re.search(r'({.*})', s, re.DOTALL)] and its [group(1)]: from the first
    opening brace that a closing brace follows to the last closing brace. *)
Definition json_match (s : string) : option string :=
  match from_first_brace s with
  | Some (String c t) =>
      match upto_last_brace t with
      | Some p => Some (String c p)
      | None => None
      end
  | _ => None
  end.

(** [type(v).__name__] *)
Definition type_name (v : value) : string :=
  match v with
  | VNone => "NoneType"
  | VBool _ => "bool"
  | VInt _ => "int"
  | VFloat _ => "float"
  | VStr _ => "str"
  | VList _ => "list"
  | VDict _ => "dict"
  end.

(** [bool(v)] *)
Definition truthy (v : value) : bool :=
  match v with
  | VNone => false
  | VBool b => b
  | VInt z => negb (z =? 0)%Z
  | VFloat f => negb (PrimFloat.eqb f 0%float)
  | VStr s => negb (PyStr.is_empty s)
  | VList l => match l with [] => false | _ => true end
  | VDict d => match d with [] => false | _ => true end
  end.

(** [v in names] for a list of strings *)
Definition is_in (v : value) (names : list string) : bool :=
  match v with
  | VStr s => existsb (String.eqb s) names
  | _ => false
  end.

(** The exception that [f"{confidence:.2f}"] raises, if any: the format
    code applies to numbers, and an integer is converted to a float. *)
Definition format_2f_error (confidence : value) : option string :=
  match confidence with
  | VNone => Some "unsupported format string passed to NoneType.__format__"
  | VBool _ => None
  | VInt z =>
      if (2 ^ 1024 - 2 ^ 970 <=? Z.abs z)%Z
      then Some "int too large to convert to float"
      else None
  | VFloat _ => None
  | VStr _ => Some "Unknown format code 'f' for object of type 'str'"
  | VList _ => Some "unsupported format string passed to list.__format__"
  | VDict _ => Some "unsupported format string passed to dict.__format__"
  end.

Section WithAPI.

(** [self.genai_model.start_chat(history=[], system_instruction=...)];
    [await chat.send_message_async(prompt)] followed by [response.text] at
    the given attempt: the text, or [str(e)] of the exception; and
    [time.sleep]. *)
Variable start_chat : option string -> exc unit.
Variable send_message : option string -> string -> nat -> exc string.
Variable sleep : float -> exc unit.

(** [json.loads], and the builtin [str] on a parsed value. *)
Variable json_loads : string -> exc value.
Variable str : value -> string.

(** The loop [for attempt in range(retry_count + 1)] from [attempt] on, with
    [remaining] turns to go.  Falling off its end returns [None]. *)
Fixpoint attempts (system_instruction : option string) (prompt : string)
    (retry_count : Z) (retry_delay : float) (remaining attempt : nat)
    : answer (option string) * list effect :=
  match remaining with
  | O => (Returned None, [])
  | S remaining' =>
      match send_message system_instruction prompt attempt with
      | Ok text => (Returned (Some text), [SendMessage attempt])
      | Raise msg =>
          if (Z.of_nat attempt =? retry_count)%Z then
            (Failed (GeminiAPIError ("Failed to generate text: " ++ msg)),
             [SendMessage attempt])
          else
            match backoff retry_delay attempt with
            | Raise m => (Failed (Uncaught m), [SendMessage attempt])
            | Ok seconds =>
                match sleep seconds with
                | Raise m =>
                    (Failed (Uncaught m), [SendMessage attempt; Sleep seconds])
                | Ok _ =>
                    let '(r, effects) :=
                      attempts system_instruction prompt retry_count retry_delay
                        remaining' (S attempt) in
                    (r, SendMessage attempt :: Sleep seconds :: effects)
                end
            end
      end
  end.

Definition generate_text (prompt : string) (system_instruction : option string)
    (retry_count : Z) (retry_delay : float)
    : answer (option string) * list effect :=
  match start_chat system_instruction with
  | Raise m => (Failed (Uncaught m), [])
  | Ok _ =>
      attempts system_instruction prompt retry_count retry_delay
        (Z.to_nat (retry_count + 1)) 0
  end.

(** The [except Exception] handler of [analyze_query_intent]. *)
Definition intent_failure {A : Type} (msg : string) : answer A :=
  Failed (GeminiAPIError ("Failed to analyze query intent: " ++ msg)).

(** The body of the [try] of [analyze_query_intent] after the reply has
    arrived. *)
Definition read_intent (response_text : option string)
    (available_agents : list string) : answer (string * value * value) :=
  match response_text with
  | None => intent_failure "'NoneType' object has no attribute 'replace'"
  | Some text =>
      match json_match (remove_newlines text) with
      | None => intent_failure "Failed to extract JSON from Gemini response"
      | Some json_str =>
          match json_loads json_str with
          | Raise msg => intent_failure msg
          | Ok (VDict analysis) =>
              let best_agent :=
                match dict_get analysis "best_agent" with
                | Some v => v
                | None => VNone
                end in
              let confidence :=
                match dict_get analysis "confidence" with
                | Some v => v
                | None => VFloat 0%float
                end in
              let scores :=
                match dict_get analysis "scores" with
                | Some v => v
                | None => VDict []
                end in
              match best_agent with
              | VStr agent_name =>
                  if negb (truthy best_agent)
                     || negb (is_in best_agent available_agents) then
                    intent_failure ("Invalid agent name: " ++ str best_agent)
                  else
                    match format_2f_error confidence with
                    | Some msg => intent_failure msg
                    | None => Returned (agent_name, confidence, scores)
                    end
              | _ => intent_failure ("Invalid agent name: " ++ str best_agent)
              end
          | Ok other =>
              intent_failure
                ("'" ++ type_name other ++ "' object has no attribute 'get'")
          end
      end
  end.

Definition analyze_query_intent (query : string) (available_agents : list string)
    : answer (string * value * value) * list effect :=
  let '(r, effects) :=
    generate_text (intent_prompt query) (Some intent_system_instruction)
      3 1%float in
  match r with
  | Failed e => (intent_failure (str_of_error e), effects)
  | Returned response_text => (read_intent response_text available_agents, effects)
  end.

End WithAPI.

End GeminiClient.


(* ===================================================================== *)
(** ** Physics agent ([src/agents/physics_agent.py]) *)
(* ===================================================================== *)

Module PhysicsAgent.

Definition name : string := "PhysicsAgent".

Definition constant_patterns : list string :=
  [ "value\s+of\s+([a-zA-Z0-9\s]+)";
    "what\s+is\s+([a-zA-Z0-9\s]+)";
    "constant\s+([a-zA-Z0-9\s]+)";
    "acceleration\s+due\s+to\s+gravity";
    "speed\s+of\s+light";
    "gravitational\s+constant";
    "planck\'s\s+constant";
    "elementary\s+charge";
    "electron\s+mass";
    "proton\s+mass";
    "boltzmann\s+constant";
    "avogadro\'s\s+number";
    "gas\s+constant" ].

Definition formula_patterns : list string :=
  [ "formula\s+for\s+([a-zA-Z0-9\s]+)";
    "equation\s+for\s+([a-zA-Z0-9\s]+)";
    "newton\'s\s+second\s+law";
    "kinetic\s+energy";
    "potential\s+energy";
    "momentum";
    "uniform\s+acceleration";
    "distance\s+with\s+acceleration";
    "work";
    "power";
    "ohm\'s\s+law";
    "universal\s+gravitation" ].

Definition calculation_patterns : list string :=
  [ "calculate\s+([a-zA-Z0-9\s]+)";
    "compute\s+([a-zA-Z0-9\s]+)";
    "find\s+([a-zA-Z0-9\s]+)";
    "determine\s+([a-zA-Z0-9\s]+)";
    "what\s+is\s+the\s+([a-zA-Z0-9\s]+)";
    "\d+\s*[\+\-\*\/\^]\s*\d+" ].

(** A match object: [group(0)] and [groups()]. *)
Record Match : Type := mkMatch {
  group0 : string;
  groups : list string
}.

(** [match.group(1)] of a match that has groups *)
Definition group1 (m : Match) : string :=
  match groups m with
  | g :: _ => g
  | [] => EmptyString
  end.

Section WithCapabilities.

(** [re.search(pattern, subject)] and the truth of
    [re.match(pattern, subject)]: calls to the regular-expression library;
    the substitutions of [_format_calculation_for_tool] are such calls too,
    and [_generate_response] is a call to the text-generation oracle, which
    may raise. *)
Variable re_search : string -> string -> option Match.
Variable re_match : string -> string -> bool.
Variable _format_calculation_for_tool : string -> string.
Variable _generate_response :
  string -> option pydict -> option pydict -> option pydict -> exc string.

(** Truthiness of [re.search(pattern, subject)] *)
Definition found (pattern subject : string) : bool :=
  match re_search pattern subject with
  | Some _ => true
  | None => false
  end.

(** The loop over the general patterns: the stripped first group of the
    first pattern that matches with groups. *)
Fixpoint first_group (patterns : list string) (subject : string) : option string :=
  match patterns with
  | [] => None
  | pattern :: rest =>
      match re_search pattern subject with
      | Some m =>
          match groups m with
          | _ :: _ => Some (PyStr.strip (group1 m))
          | [] => first_group rest subject
          end
      | None => first_group rest subject
      end
  end.

Definition _extract_constant_key (query : string) : option string :=
  let query_lower := PyStr.lower query in
  if found "acceleration\s+due\s+to\s+gravity" query_lower then Some "g"
  else if found "speed\s+of\s+light" query_lower then Some "c"
  else if found "gravitational\s+constant" query_lower then Some "G"
  else if found "planck\'s\s+constant" query_lower then Some "h"
  else if found "elementary\s+charge" query_lower then Some "e"
  else if found "electron\s+mass" query_lower then Some "me"
  else if found "proton\s+mass" query_lower then Some "mp"
  else if found "boltzmann\s+constant" query_lower then Some "k"
  else if found "avogadro\'s\s+number" query_lower
          || found "avogadro\s+constant" query_lower then Some "NA"
  else if found "gas\s+constant" query_lower then Some "R"
  else first_group constant_patterns query_lower.

Definition _extract_formula_key (query : string) : option string :=
  let query_lower := PyStr.lower query in
  if found "newton\'s\s+second\s+law" query_lower then Some "newton_second_law"
  else if found "kinetic\s+energy" query_lower then Some "kinetic_energy"
  else if found "potential\s+energy" query_lower
          || found "gravitational\s+potential\s+energy" query_lower
       then Some "potential_energy_gravitational"
  else if found "momentum" query_lower then Some "momentum"
  else if found "uniform\s+acceleration" query_lower
          && negb (found "distance" query_lower)
       then Some "uniform_acceleration"
  else if found "distance\s+with\s+acceleration" query_lower
          || found "distance\s+under\s+acceleration" query_lower
       then Some "uniform_acceleration_distance"
  else if found "work" query_lower && negb (found "power" query_lower)
       then Some "work"
  else if found "power" query_lower then Some "power"
  else if found "ohm\'s\s+law" query_lower then Some "ohms_law"
  else if found "universal\s+gravitation" query_lower
          || found "gravitational\s+force" query_lower
       then Some "universal_gravitation"
  else first_group formula_patterns query_lower.

(** The loop over [calculation_patterns]: the first pattern that matches
    decides, by its first group if it has groups and by the whole match
    otherwise. *)
Fixpoint first_expression (patterns : list string) (subject : string)
    : option string :=
  match patterns with
  | [] => None
  | pattern :: rest =>
      match re_search pattern subject with
      | Some m =>
          match groups m with
          | _ :: _ => Some (PyStr.strip (group1 m))
          | [] => Some (PyStr.strip (group0 m))
          end
      | None => first_expression rest subject
      end
  end.

Definition _extract_calculation_expression (query : string) : option string :=
  match first_expression calculation_patterns (PyStr.lower query) with
  | Some expression => Some expression
  | None =>
      if re_match "^[\d\s\+\-\*\/\^\(\)\.]+$" (PyStr.strip query)
      then Some (PyStr.strip query)
      else None
  end.

Definition _needs_constant_lookup (query : string) : bool :=
  match _extract_constant_key query with Some _ => true | None => false end.

Definition _needs_formula_lookup (query : string) : bool :=
  match _extract_formula_key query with Some _ => true | None => false end.

Definition _needs_calculation (query : string) : bool :=
  match _extract_calculation_expression query with
  | Some _ => true
  | None => false
  end.

(** The [except Exception] handler of [run]. *)
Definition on_error (rid tid msg : string) : Gen :=
  Yield (Some (ErrorEvent "PHYSICS_AGENT_ERROR" ("Error in Physics Agent: " ++ msg)
                 None rid tid))
        (fun _ => Return).

(** What the code after [tool_result = yield] keeps of the value sent: the
    result of a tool that reports no error, nothing for an error or for an
    event of another type; [None] has no [event_type]. *)
Definition received (tool_result : option Event) : exc (option pydict) :=
  match tool_result with
  | None => Raise MathAgent.none_has_no_event_type
  | Some (ToolResultEvent _ result error _ _) =>
      if MathAgent.error_set error then Ok None else Ok (Some result)
  | Some _ => Ok None
  end.

(** [yield ToolInvocationEvent(...)] followed by [tool_result = yield]. *)
Definition invoke (tool_name : string) (inputs : pydict) (rid tid : string)
    (rest : option pydict -> Gen) : Gen :=
  Yield (Some (ToolInvocationEvent tool_name inputs rid tid))
    (fun _ =>
       Yield None
         (fun tool_result =>
            match received tool_result with
            | Raise msg => on_error rid tid msg
            | Ok kept => rest kept
            end)).

(** [tools_used.append((tool_name, tool_result.result))] when a result was
    kept *)
Definition used (tools_used : list (string * pydict)) (tool_name : string)
    (kept : option pydict) : list (string * pydict) :=
  match kept with
  | Some result => (tools_used ++ [(tool_name, result)])%list
  | None => tools_used
  end.

Definition optional (result : option pydict) : value :=
  match result with
  | Some d => VDict d
  | None => VNone
  end.

(** The end of [run]: the response is generated, and [tool_used] and
    [tool_results] are read off [tools_used]. *)
Definition respond (query rid tid : string)
    (constant_result formula_result calculation_result : option pydict)
    (tools_used : list (string * pydict)) : Gen :=
  match _generate_response query constant_result formula_result
          calculation_result with
  | Raise msg => on_error rid tid msg
  | Ok response =>
      let '(tool_used, tool_results) :=
        match tools_used with
        | [] => (None, None)
        | [(tool, result)] => (Some tool, Some result)
        | _ =>
            (Some (String.concat ", " (map fst tools_used)),
             Some [("constant_result", optional constant_result);
                   ("formula_result", optional formula_result);
                   ("calculation_result", optional calculation_result)])
        end in
      Yield (Some (FinalResponseEvent response name tool_used tool_results
                     rid tid))
            (fun _ => Return)
  end.

Definition calculation_stage (query rid tid : string)
    (constant_result formula_result : option pydict)
    (tools_used : list (string * pydict)) : Gen :=
  if _needs_calculation query then
    match _extract_calculation_expression query with
    | None =>
        on_error rid tid "expected string or bytes-like object, got 'NoneType'"
    | Some expression =>
        let formatted_expression := _format_calculation_for_tool expression in
        invoke "CalculatorTool" [("expression", VStr formatted_expression)]
          rid tid
          (fun kept =>
             respond query rid tid constant_result formula_result kept
               (used tools_used "CalculatorTool" kept))
    end
  else respond query rid tid constant_result formula_result None tools_used.

Definition formula_stage (query rid tid : string)
    (constant_result : option pydict) (tools_used : list (string * pydict))
    : Gen :=
  if _needs_formula_lookup query then
    let formula_key :=
      match _extract_formula_key query with
      | Some key => VStr key
      | None => VNone
      end in
    invoke "LookupTool" [("key", formula_key); ("type", VStr "formula")] rid tid
      (fun kept =>
         calculation_stage query rid tid constant_result kept
           (used tools_used "LookupTool" kept))
  else calculation_stage query rid tid constant_result None tools_used.

Definition run (context : InvocationContext) : Gen :=
  let q := query context in
  let rid := request_id context in
  let tid := trace_id context in
  if _needs_constant_lookup q then
    let constant_key :=
      match _extract_constant_key q with
      | Some key => VStr key
      | None => VNone
      end in
    invoke "LookupTool" [("key", constant_key); ("type", VStr "constant")] rid tid
      (fun kept => formula_stage q rid tid kept (used [] "LookupTool" kept))
  else formula_stage q rid tid None [].

End WithCapabilities.

End PhysicsAgent.

(* ===================================================================== *)
(** ** Calculator tool: the steps ([src/tools/calculator.py],
       [_generate_steps]) *)
(* ===================================================================== *)

Module CalculatorSteps.

Section WithSympy.

(** The steps that the branch for basic arithmetic builds from the parsed
    expression, its [except] clause included; and [str] of a float. *)
Variable arithmetic_steps : string -> float -> list string.
Variable str_of_float : float -> string.

Definition _generate_steps (expression : string) (result : float) : list string :=
  if PyStr.contains "+" expression || PyStr.contains "-" expression
     || PyStr.contains "*" expression || PyStr.contains "/" expression
  then arithmetic_steps expression result
  else ["Calculate: " ++ expression; "Result: " ++ str_of_float result].

End WithSympy.

End CalculatorSteps.

(* ===================================================================== *)
(** ** Validation errors ([src/utils/errors.py],
       [format_validation_errors]) *)
(* ===================================================================== *)

Module Errors.

(** An element of the location of a Pydantic error: a field name or an
    index. *)
Abbreviation loc_item := (string + Z)%type.

(** An error of [ValidationError.errors()]: its ["loc"] and its ["msg"],
    each if present. *)
Record validation_error : Type := mkValidationError {
  loc : option (list loc_item);
  msg : option string
}.

(** [loc[-1] if loc else "unknown"] on [error.get("loc", [])] *)
Definition field_of (error : validation_error) : loc_item :=
  match loc error with
  | Some l => List.last l (inl "unknown")
  | None => inl "unknown"
  end.

(** [error.get("msg", "Unknown validation error")] *)
Definition msg_of (error : validation_error) : string :=
  match msg error with
  | Some m => m
  | None => "Unknown validation error"
  end.

Definition format_validation_errors (errors : list validation_error)
    : gmap loc_item string :=
  fold_left (fun formatted_errors error =>
               <[field_of error := msg_of error]> formatted_errors)
            errors ∅.

End Errors.

(* ===================================================================== *)
(** ** Request model ([src/models/api.py], class [QueryRequest]) *)
(* ===================================================================== *)

Module QueryRequest.

(** The validator of [question]: the value, or the [ValueError] raised. *)
Definition validate_question (v : string) : exc string :=
  if PyStr.is_empty (PyStr.strip v)
  then Raise "Question cannot be empty or just whitespace"
  else Ok v.

End QueryRequest.

(* ===================================================================== *)
(** ** The runner of a request ([src/api/main.py]) *)
(* ===================================================================== *)

Module Api.

Section WithCapabilities.

(** What the agents and the calculator ask of the text-generation service,
    of the regular-expression library and of the symbolic evaluator. *)
Variable analyze_query_intent : string -> list string -> exc TutorAgent.Intent.
Variable math_extract_calculation_expression : string -> option string.
Variable math_format_calculation_for_tool : string -> string.
Variable math_generate_response : string -> option pydict -> exc string.
Variable re_search : string -> string -> option PhysicsAgent.Match.
Variable re_match : string -> string -> bool.
Variable physics_format_calculation_for_tool : string -> string.
Variable physics_generate_response :
  string -> option pydict -> option pydict -> option pydict -> exc string.
Variable evaluate : string -> exc float.
Variable _generate_steps : string -> float -> list string.

(** [get_runner]: the three agents and the two tools, the session service
    of the application, and the request and trace ids that the middleware
    has given the request (both are set, so the runner keeps them). *)
Definition get_runner (request_id trace_id : string) : Runner.t :=
  Runner.mkRunner
    (<["TutorAgent" := TutorAgent.run analyze_query_intent]>
       (<["MathAgent" :=
            MathAgent.run math_extract_calculation_expression
              math_format_calculation_for_tool math_generate_response]>
          (<["PhysicsAgent" :=
               PhysicsAgent.run re_search re_match
                 physics_format_calculation_for_tool
                 physics_generate_response]> ∅)))
    (<["CalculatorTool" :=
         as_tool (CalculatorTool.execute evaluate _generate_steps)]>
       (<["LookupTool" := as_tool LookupTool.execute]> ∅))
    true request_id trace_id.

End WithCapabilities.

End Api.
(* ===================================================================== *)
(** ** Vocabulary of the string properties *)
(* ===================================================================== *)

(** Every byte of [s] satisfies [p]; some byte of [s] satisfies [p]. *)
Fixpoint all_bytes (p : ascii -> bool) (s : string) : bool :=
  match s with
  | EmptyString => true
  | String b t => p b && all_bytes p t
  end.

Fixpoint some_byte (p : ascii -> bool) (s : string) : bool :=
  match s with
  | EmptyString => false
  | String b t => p b || some_byte p t
  end.

Definition is_ascii (b : ascii) : bool := (PyStr.byte b <? 0x80)%N.

(** A character as [chars] produces it: an ASCII character is one byte, its
    own code; any other is made of bytes outside ASCII. *)
Definition wf_char (c : N * string) : Prop :=
  (exists b, is_ascii b = true /\ c = (PyStr.byte b, String b EmptyString))
  \/ ((0x80 <= fst c)%N /\ snd c <> EmptyString
      /\ all_bytes (fun b => negb (is_ascii b)) (snd c) = true).

(** Three characters outside ASCII: the no-break space U+00A0, the Kelvin
    sign U+212A and the letter e with acute accent U+00E9. *)
Definition nbsp : string := PyStr.utf8 0xA0.
Definition kelvin_sign : string := PyStr.utf8 0x212A.
Definition e_acute : string := PyStr.utf8 0xE9.

(** A byte that white space can hold: an ASCII white space, or a byte
    outside ASCII. *)
Definition space_byte (b : ascii) : bool :=
  negb (is_ascii b) || PyStr.isspace (PyStr.byte b).

(** A code point that [str.lower] leaves as it is, whatever surrounds it. *)
Definition lower_fixes (cp : N) : bool :=
  ((cp <? 0x80)%N && negb ((65 <=? cp)%N && (cp <=? 90)%N))
  || (negb (cp <? 0x80)%N && negb (cp =? 0x3A3)%N && negb (cp =? 0x130)%N
      && match PyStr.apply_rules PyStr.lower_rules cp with
         | None => true
         | Some _ => false
         end).


(* ===================================================================== *)
(** ** The order of binary64 values *)
(* ===================================================================== *)

(** A float that is not a NaN is ranked by a triple of integers; the IEEE
    comparison is the lexicographic order of the ranks. *)
Definition rank (f : spec_float) : Z * Z * Z :=
  match f with
  | S754_nan => (0, 0, 0)%Z
  | S754_infinity true => (-2, 0, 0)%Z
  | S754_infinity false => (2, 0, 0)%Z
  | S754_zero _ => (0, 0, 0)%Z
  | S754_finite true m e => (-1, - e, - Z.pos m)%Z
  | S754_finite false m e => (1, e, Z.pos m)%Z
  end.

Definition is_nan (f : spec_float) : bool :=
  match f with S754_nan => true | _ => false end.

Definition lex_lt (a b : Z * Z * Z) : Prop :=
  let '(a1, a2, a3) := a in
  let '(b1, b2, b3) := b in
  (a1 < b1 \/ (a1 = b1 /\ (a2 < b2 \/ (a2 = b2 /\ a3 < b3))))%Z.

Definition lex_le (a b : Z * Z * Z) : Prop :=
  let '(a1, a2, a3) := a in
  let '(b1, b2, b3) := b in
  (a1 < b1 \/ (a1 = b1 /\ (a2 < b2 \/ (a2 = b2 /\ a3 <= b3))))%Z.

Definition frank (x : float) : Z * Z * Z := rank (Prim2SF x).
Definition fnan (x : float) : bool := is_nan (Prim2SF x).

(* ===================================================================== *)
(** ** Vocabulary of the routing properties *)
(* ===================================================================== *)





(** Stage 1 decides for the math agent, resp. the physics agent. *)
Definition lexical_math (q : string) : Prop :=
  (0 < TutorAgent.math_count q /\
   2 * TutorAgent.physics_count q < TutorAgent.math_count q)%nat.
Definition lexical_physics (q : string) : Prop :=
  (0 < TutorAgent.physics_count q /\
   2 * TutorAgent.math_count q < TutorAgent.physics_count q)%nat.

(** An oracle that always fails, and a context for a query, used to run the
    agents on concrete inputs. *)
Definition failing_oracle : string -> list string -> exc TutorAgent.Intent :=
  fun _ _ => Raise "Failed to analyze query intent: unavailable".

Definition context_of (q rid tid : string) : InvocationContext :=
  mkContext q rid None tid ∅ [] [].

(** The checks made on the stage-1 confidence of a keyword count: it is at
    least 0.7999999999999999 and at most 0.95, it reaches the default
    threshold, and it passes the validator of [DelegationEvent]. *)
Definition lexical_confidence_ok (n : nat) : bool :=
  let c := TutorAgent.lexical_confidence n in
  PrimFloat.leb 0.7999999999999999%float c
  && PrimFloat.leb c 0.95%float
  && PyFloat.ge c TutorAgent.default_confidence
  && PrimFloat.leb 0 c && PrimFloat.leb c 1.

(** The string starts with a byte that white space cannot hold. *)
Definition starts_nonspace (k : string) : bool :=
  match k with
  | EmptyString => false
  | String c _ => negb (space_byte c)
  end.

(* ===================================================================== *)
(** ** Vocabulary of the orchestration properties *)
(* ===================================================================== *)




(** Stand-ins for the capabilities of the math agent on concrete runs: the
    expression found in the query, the formatter, and an oracle that answers
    with a fixed text. *)
Definition extract_fixed (expression : option string) : string -> option string :=
  fun _ => expression.
Definition format_identity : string -> string := fun e => e.
Definition respond_fixed : string -> option pydict -> exc string :=
  fun _ _ => Ok "explanation".

Definition math_agent_fixed (expression : option string) : Runner.agent :=
  MathAgent.run (extract_fixed expression) format_identity respond_fixed.

(** Stand-ins for the symbolic evaluator on concrete runs: every expression
    that passes validation evaluates to the given number, without steps. *)
Definition evaluate_fixed (v : float) : string -> exc float := fun _ => Ok v.
Definition no_steps : string -> float -> list string := fun _ _ => [].

(** The calculator tool as it is registered with the runner. *)
Definition calculator_tool : Runner.tool :=
  as_tool (CalculatorTool.execute (evaluate_fixed 42%float) no_steps).

(** A runner with the Tutor agent alone (no specialist is registered). *)
Definition tutor_only_runner (rid tid : string) : Runner.t :=
  Runner.mkRunner
    (<["TutorAgent" := TutorAgent.run failing_oracle]> ∅)
    ∅ true rid tid.

(** A runner with the Tutor agent, the math agent (which finds the given
    expression in its query) and the calculator. *)
Definition tutoring_runner (expression : option string) (rid tid : string)
    : Runner.t :=
  Runner.mkRunner
    (<["TutorAgent" := TutorAgent.run failing_oracle]>
       (<["MathAgent" := math_agent_fixed expression]> ∅))
    (<["CalculatorTool" := calculator_tool]> ∅)
    true rid tid.

(* ===================================================================== *)
(** ** Vocabulary of the tool properties *)
(* ===================================================================== *)

(** The expression contains one of the characters [+ - * / ^ ( )]. *)
Fixpoint mentions_operator (s : string) : bool :=
  match s with
  | EmptyString => false
  | String c t => CalculatorTool.is_operator c || mentions_operator t
  end.

(** The message of the [re.error] raised while compiling ["^+$"]. *)
Definition nothing_to_repeat : string := "nothing to repeat at position 1".

(** The table a lookup type selects. *)
Definition collection_of (lookup_type : string) : list (string * pydict) :=
  if String.eqb lookup_type "constant" then LookupTool.constants
  else LookupTool.formulas.

(** The fields of a table entry that a result of that type carries. *)
Definition result_fields (lookup_type : string) : list string :=
  if String.eqb lookup_type "constant" then ["value"; "unit"; "description"]
  else ["formula"; "description"; "variables"].

(** The entry has all the fields that a result of the type carries. *)
Definition entry_complete (lookup_type : string) (entry : string * pydict) : bool :=
  forallb (fun field => match dict_get (snd entry) field with
                        | Some _ => true
                        | None => false
                        end)
          (result_fields lookup_type).

(** The best similarity score of the partial-match stage for a key. *)
Definition best_fuzzy_score (key lookup_type : string) : float :=
  snd (LookupTool.partial_best (PyStr.lower key) (collection_of lookup_type)).

(** Every key of the two tables, looked up in its table, scores above 0.5 in
    the partial-match stage (it contains itself), is not empty, and is
    returned as it is without annotation. *)
Definition key_checks (lookup_type k : string) : bool :=
  PyFloat.gt (snd (LookupTool.partial_best (PyStr.lower k) (collection_of lookup_type)))
             0.5%float
  && negb (PyStr.is_empty k)
  && match LookupTool.execute_lookup k lookup_type with
     | Returns result =>
         match dict_get result "key", dict_get result "match_confidence",
               dict_get result "original_query" with
         | Some (VStr k'), None, None => String.eqb k' k
         | _, _, _ => false
         end
     | Raises _ => false
     end
  && match LookupTool._fuzzy_match k (collection_of lookup_type) with
     | (Some k', c) => String.eqb k' k && PrimFloat.eqb c 1%float
     | (None, _) => false
     end.


(* ===================================================================== *)
(** ** Vocabulary of the further properties *)
(* ===================================================================== *)

(** The event is one that [run_agent] resolves itself. *)
Definition is_request (e : Event) : bool :=
  match e with
  | DelegationEvent _ _ _ _ _ | ToolInvocationEvent _ _ _ _ => true
  | _ => false
  end.

(** Stage 1 is inconclusive for the query. *)
Definition lexical_inconclusive (q : string) : Prop :=
  ~ lexical_math q /\ ~ lexical_physics q.

(** The mapping that [process_query] writes to the session. *)
Definition session_record (q : string) (last_response : value)
    (agent_used : string) : gmap string value :=
  <["last_query" := VStr q]>
    (<["last_response" := last_response]>
       (<["last_agent_used" := VStr agent_used]> ∅)).

(** An oracle that answers every query with the given intent. *)
Definition oracle_fixed (i : TutorAgent.Intent)
    : string -> list string -> exc TutorAgent.Intent :=
  fun _ _ => Ok i.

(** A runner with the given Tutor and math agents and the calculator. *)
Definition runner_with (tutor math : Runner.agent) (rid tid : string) : Runner.t :=
  Runner.mkRunner
    (<["TutorAgent" := tutor]> (<["MathAgent" := math]> ∅))
    (<["CalculatorTool" := calculator_tool]> ∅)
    true rid tid.

(** The stage-1 confidence of a keyword count and the context of the
    delegation it leads to: 0.95 and the scores alone for three keywords or
    more, a lower value and an ambiguity note for one or two. *)
Definition lexical_delegation_ok (n : nat) : bool :=
  let c := TutorAgent.lexical_confidence n in
  if (3 <=? n)%nat then
    PrimFloat.eqb c 0.95%float && PyFloat.ge c TutorAgent.high_confidence
  else
    PrimFloat.eqb c (if (n =? 1)%nat then 0.7999999999999999%float
                     else 0.8999999999999999%float)
    && negb (PyFloat.ge c TutorAgent.high_confidence)
    && PyFloat.ge c TutorAgent.default_confidence.

(** The string contains an ASCII letter. *)
Fixpoint mentions_letter (s : string) : bool :=
  match s with
  | EmptyString => false
  | String c t => PyStr.is_alpha c || mentions_letter t
  end.

(** A non-empty sequence of decimal digits. *)
Definition digits (l : list (N * string)) : bool :=
  match l with
  | [] => false
  | _ => forallb CalculatorTool.digit_char l
  end.

(** The scanner is inside a number, or between tokens. *)
Definition numeric_state (st : CalculatorTool.scanning) : bool :=
  match st with
  | CalculatorTool.Idle => true
  | CalculatorTool.InInt ds => digits ds
  | CalculatorTool.InDot ds dot => digits ds && CalculatorTool.dot_char dot
  | CalculatorTool.InFrac ds dot fs =>
      digits ds && CalculatorTool.dot_char dot && digits fs
  | CalculatorTool.InWord _ => false
  end.

(** The score that the partial-match loop gives the table key [k]: the
    ratio of the lengths when one lowered string contains the other. *)
Definition partial_score (key_lower k : string) : option float :=
  let k_lower := PyStr.lower k in
  if PyStr.contains key_lower k_lower then
    Some (LookupTool.length_ratio key_lower k_lower)
  else if PyStr.contains k_lower key_lower then
    Some (LookupTool.length_ratio k_lower key_lower)
  else None.

(** The effects of [n] failed attempts from attempt [first] on, each
    followed by its sleep of [retry_delay * 2 ** attempt] seconds. *)
Fixpoint retries (retry_delay : float) (first n : nat) : list GeminiClient.effect :=
  match n with
  | O => []
  | S n' =>
      GeminiClient.SendMessage first
      :: GeminiClient.Sleep (retry_delay * GeminiClient.pow2 first)%float
      :: retries retry_delay (S first) n'
  end.


(** The attempts made and the sleeps taken, in order. *)
Fixpoint sends (effects : list GeminiClient.effect) : list nat :=
  match effects with
  | [] => []
  | GeminiClient.SendMessage a :: rest => a :: sends rest
  | GeminiClient.Sleep _ :: rest => sends rest
  end.

Fixpoint sleeps (effects : list GeminiClient.effect) : list float :=
  match effects with
  | [] => []
  | GeminiClient.SendMessage _ :: rest => sleeps rest
  | GeminiClient.Sleep d :: rest => d :: sleeps rest
  end.

(** An API that fails at every attempt, and one that answers at attempt
    [a] after failing before. *)
Definition api_down : option string -> string -> nat -> exc string :=
  fun _ _ attempt => Raise ("unavailable " ++ PyFloat.string_of_Z (Z.of_nat attempt)).

Definition api_up_at (a : nat) (text : string)
    : option string -> string -> nat -> exc string :=
  fun _ _ attempt =>
    if (attempt =? a)%nat then Ok text else Raise "unavailable".

Definition chat_ok : option string -> exc unit := fun _ => Ok tt.
Definition sleep_ok : float -> exc unit := fun _ => Ok tt.

(** A value that [f"{v:.2f}"] can format: a number that converts to a
    float. *)
Definition formats_as_number (v : value) : Prop :=
  match v with
  | VBool _ | VFloat _ => True
  | VInt z => (Z.abs z < 2 ^ 1024 - 2 ^ 970)%Z
  | _ => False
  end.

(** A parser that knows one text and its value. *)
Definition json_of (text : string) (v : value) : string -> exc value :=
  fun s => if String.eqb s text then Ok v else Raise "Expecting value".

(** A reply of the API to the intent prompt: the JSON object
    [{"best_agent": "MathAgent", "confidence": 0.6, "scores": null}], and
    what [json.loads] makes of it. *)
Definition reply_without_scores : string :=
  "{" ++ GeminiClient.dquote ++ "best_agent" ++ GeminiClient.dquote ++ ": "
  ++ GeminiClient.dquote ++ "MathAgent" ++ GeminiClient.dquote ++ ", "
  ++ GeminiClient.dquote ++ "confidence" ++ GeminiClient.dquote ++ ": 0.6, "
  ++ GeminiClient.dquote ++ "scores" ++ GeminiClient.dquote ++ ": null}".

Definition parsed_without_scores : value :=
  VDict [("best_agent", VStr "MathAgent"); ("confidence", VFloat 0.6%float);
         ("scores", VNone)].

(** A parser that answers every text with the given value, and a rendering
    of values that is not looked at. *)
Definition json_fixed (v : value) : string -> exc value := fun _ => Ok v.
Definition str_fixed : value -> string := fun _ => "?".

(** A consumer that plays the protocol the agents are written for: it
    iterates over the events and answers each bare [yield] with the next of
    [answers], or with nothing when they have run out. *)
Fixpoint converse (g : Gen) (answers : list Event) : list Event :=
  match g with
  | Yield (Some e) resume => e :: converse (resume None) answers
  | Yield None resume =>
      match answers with
      | a :: rest => converse (resume (Some a)) rest
      | [] => converse (resume None) []
      end
  | Return => []
  | Raised _ => []
  end.

Section PhysicsRequests.

Variable re_search : string -> string -> option PhysicsAgent.Match.
Variable re_match : string -> string -> bool.
Variable format : string -> string.

(** The tool invocations that the physics agent has in store for a query:
    the constant, the formula and the calculation, each if the query asks
    for it. *)
Definition requests (q : string) : list (string * pydict) :=
  (match PhysicsAgent._extract_constant_key re_search q with
   | Some key => [("LookupTool", [("key", VStr key); ("type", VStr "constant")])]
   | None => []
   end
   ++ match PhysicsAgent._extract_formula_key re_search q with
      | Some key => [("LookupTool", [("key", VStr key); ("type", VStr "formula")])]
      | None => []
      end
   ++ match PhysicsAgent._extract_calculation_expression re_search re_match q with
      | Some expression =>
          [("CalculatorTool", [("expression", VStr (format expression))])]
      | None => []
      end)%list.

End PhysicsRequests.

Definition invocation (rid tid : string) (request : string * pydict) : Event :=
  ToolInvocationEvent (fst request) (snd request) rid tid.

(** The answer of a tool that succeeded. *)
Definition success (rid tid : string) (request : string * pydict)
    (result : pydict) : Event :=
  ToolResultEvent (fst request) result None rid tid.

(** [tool_used] of the final response for the tools that answered. *)
Definition tools_named (tools : list string) : option string :=
  match tools with
  | [] => None
  | [tool] => Some tool
  | _ => Some (String.concat ", " tools)
  end.

(** A pattern search that finds the given pattern alone, without groups;
    and stand-ins for the other capabilities of the physics agent. *)
Definition search_only (pattern : string)
    : string -> string -> option PhysicsAgent.Match :=
  fun p _ =>
    if String.eqb p pattern then Some (PhysicsAgent.mkMatch pattern []) else None.

Definition search_nothing : string -> string -> option PhysicsAgent.Match :=
  fun _ _ => None.

Definition match_never : string -> string -> bool := fun _ _ => false.

Definition physics_respond_fixed
    : string -> option pydict -> option pydict -> option pydict -> exc string :=
  fun _ _ _ _ => Ok "explanation".

Definition physics_agent_fixed
    (re_search : string -> string -> option PhysicsAgent.Match) : Runner.agent :=
  PhysicsAgent.run re_search match_never format_identity physics_respond_fixed.

(** A runner with the physics agent and the two tools. *)
Definition physics_runner
    (re_search : string -> string -> option PhysicsAgent.Match)
    (rid tid : string) : Runner.t :=
  Runner.mkRunner
    (<["PhysicsAgent" := physics_agent_fixed re_search]> ∅)
    (<["CalculatorTool" := calculator_tool]>
       (<["LookupTool" := as_tool LookupTool.execute]> ∅))
    true rid tid.

(** The value is not [None]. *)
Definition given (v : value) : bool :=
  match v with
  | VNone => false
  | _ => true
  end.

(** The successful answers to a list of requests. *)
Definition answers_to (rid tid : string) (reqs : list (string * pydict))
    (results : list pydict) : list Event :=
  map (fun p => success rid tid (fst p) (snd p)) (combine reqs results).

(** The last error of the list that is filed under [field]. *)
Definition last_error_for (field : Errors.loc_item)
    (errors : list Errors.validation_error) : option Errors.validation_error :=
  find (fun error => bool_decide (Errors.field_of error = field)) (rev errors).

Definition steps_fixed : string -> float -> list string :=
  fun _ _ => ["step"].
Definition str_of_float_fixed : float -> string := fun _ => "42.0".

(* ===================================================================== *)
(** * Properties *)
(* ===================================================================== *)

Lemma SFltb_rank (x y : spec_float) :
  SFltb x y = true <->
  is_nan x = false /\ is_nan y = false /\ lex_lt (rank x) (rank y).
Proof.
  unfold SFltb, SFcompare, lex_lt, rank.
  destruct x as [s1|s1| |s1 m1 e1], y as [s2|s2| |s2 m2 e2];
    try destruct s1; try destruct s2; simpl;
    try (split; [ (discriminate || (intros _; repeat split; lia))
                | (intros (? & ? & ?); (discriminate || reflexivity || lia)) ]).
  all: destruct (Z.compare_spec e1 e2); change (Pos.compare_cont Eq m1 m2) with (Pos.compare m1 m2);
    try destruct (Pos.compare_spec m1 m2); simpl;
    (split; [ (discriminate || (intros _; repeat split; lia))
            | (intros (? & ? & ?); (discriminate || reflexivity || lia)) ]).
Qed.

Lemma SFleb_rank (x y : spec_float) :
  SFleb x y = true <->
  is_nan x = false /\ is_nan y = false /\ lex_le (rank x) (rank y).
Proof.
  unfold SFleb, SFcompare, lex_le, rank.
  destruct x as [s1|s1| |s1 m1 e1], y as [s2|s2| |s2 m2 e2];
    try destruct s1; try destruct s2; simpl;
    try (split; [ (discriminate || (intros _; repeat split; lia))
                | (intros (? & ? & ?); (discriminate || reflexivity || lia)) ]).
  all: destruct (Z.compare_spec e1 e2); change (Pos.compare_cont Eq m1 m2) with (Pos.compare m1 m2);
    try destruct (Pos.compare_spec m1 m2); simpl;
    (split; [ (discriminate || (intros _; repeat split; lia))
            | (intros (? & ? & ?); (discriminate || reflexivity || lia)) ]).
Qed.

Lemma ltb_rank (x y : float) :
  PrimFloat.ltb x y = true <->
  fnan x = false /\ fnan y = false /\ lex_lt (frank x) (frank y).
Proof. rewrite ltb_spec. apply SFltb_rank. Qed.

Lemma leb_rank (x y : float) :
  PrimFloat.leb x y = true <->
  fnan x = false /\ fnan y = false /\ lex_le (frank x) (frank y).
Proof. rewrite leb_spec. apply SFleb_rank. Qed.

Lemma ltb_rank_false (x y : float) :
  PrimFloat.ltb x y = false <->
  ~ (fnan x = false /\ fnan y = false /\ lex_lt (frank x) (frank y)).
Proof. rewrite <- ltb_rank. destruct (PrimFloat.ltb x y); split; congruence. Qed.


(** A float between 0 and 1 is not a NaN. *)
Lemma unit_interval_not_nan (c : float) :
  PrimFloat.leb 0 c = true -> fnan c = false.
Proof. intros H. apply leb_rank in H. tauto. Qed.




(* ===================================================================== *)
(** ** Strings and their characters *)
(* ===================================================================== *)

Ltac decode_bounds :=
  repeat match goal with
         | H : _ && _ = true |- _ => apply andb_true_iff in H as [? ?]
         end;
  repeat match goal with
         | H : (_ <=? _)%N = true |- _ => apply N.leb_le in H
         | H : (_ <? _)%N = true |- _ => apply N.ltb_lt in H
         end;
  split; [lia|]; repeat split; apply N.ltb_ge; lia.

Lemma decode2_high (b0 b1 : ascii) (cp : N) :
  PyStr.decode2 b0 b1 = Some cp ->
  (0x80 <= cp)%N /\ is_ascii b0 = false /\ is_ascii b1 = false.
Proof.
  unfold PyStr.decode2, PyStr.continuation, is_ascii.
  destruct (_ && _) eqn:E; [|discriminate]. intros [= <-].
  decode_bounds.
Qed.

Lemma decode3_high (b0 b1 b2 : ascii) (cp : N) :
  PyStr.decode3 b0 b1 b2 = Some cp ->
  (0x80 <= cp)%N /\ is_ascii b0 = false /\ is_ascii b1 = false
  /\ is_ascii b2 = false.
Proof.
  unfold PyStr.decode3, PyStr.continuation, is_ascii.
  destruct (_ && _) eqn:E; [|discriminate]. cbv zeta.
  destruct (0x800 <=? _)%N eqn:Ecp; [|discriminate]. intros [= <-].
  decode_bounds.
Qed.

Lemma decode4_high (b0 b1 b2 b3 : ascii) (cp : N) :
  PyStr.decode4 b0 b1 b2 b3 = Some cp ->
  (0x80 <= cp)%N /\ is_ascii b0 = false /\ is_ascii b1 = false
  /\ is_ascii b2 = false /\ is_ascii b3 = false.
Proof.
  unfold PyStr.decode4, PyStr.continuation, is_ascii.
  destruct (_ && _) eqn:E; [|discriminate]. cbv zeta.
  destruct (_ && _) eqn:Ecp in |- *; [|discriminate]. intros [= <-].
  decode_bounds.
Qed.

(** The first character of a string that is not empty: it is well formed,
    its bytes are a prefix of the string, and the characters of the rest
    follow. *)
Lemma chars_cons (b0 : ascii) (t0 : string) :
  exists c rest,
    PyStr.chars (String b0 t0) = c :: PyStr.chars rest
    /\ String b0 t0 = snd c ++ rest
    /\ wf_char c
    /\ (String.length rest <= String.length t0)%nat.
Proof.
  assert (Hstray : is_ascii b0 = false ->
    exists c rest,
      PyStr.stray b0 :: PyStr.chars t0 = c :: PyStr.chars rest
      /\ String b0 t0 = snd c ++ rest /\ wf_char c
      /\ (String.length rest <= String.length t0)%nat).
  { intros Hb. exists (PyStr.stray b0), t0. repeat split; [|lia].
    right. unfold PyStr.stray. cbn [fst snd all_bytes].
    rewrite Hb. repeat split; [lia|discriminate]. }
  cbn [PyStr.chars].
  destruct (PyStr.byte b0 <? 0x80)%N eqn:Hb.
  { exists (PyStr.byte b0, String b0 EmptyString), t0.
    repeat split; [|lia]. left. exists b0. split; [exact Hb|reflexivity]. }
  destruct t0 as [|b1 t1]; [apply Hstray, Hb|].
  destruct (PyStr.decode2 b0 b1) as [cp|] eqn:E2.
  { destruct (decode2_high _ _ _ E2) as (Hcp & H0 & H1).
    eexists (cp, _), t1. repeat split; [|cbn; lia].
    right. cbn [fst snd all_bytes]. rewrite H0, H1.
    repeat split; [exact Hcp|discriminate]. }
  destruct t1 as [|b2 t2]; [apply Hstray, Hb|].
  destruct (PyStr.decode3 b0 b1 b2) as [cp|] eqn:E3.
  { destruct (decode3_high _ _ _ _ E3) as (Hcp & H0 & H1 & H2).
    eexists (cp, _), t2. repeat split; [|cbn; lia].
    right. cbn [fst snd all_bytes]. rewrite H0, H1, H2.
    repeat split; [exact Hcp|discriminate]. }
  destruct t2 as [|b3 t3]; [apply Hstray, Hb|].
  destruct (PyStr.decode4 b0 b1 b2 b3) as [cp|] eqn:E4.
  { destruct (decode4_high _ _ _ _ _ E4) as (Hcp & H0 & H1 & H2 & H3).
    eexists (cp, _), t3. repeat split; [|cbn; lia].
    right. cbn [fst snd all_bytes]. rewrite H0, H1, H2, H3.
    repeat split; [exact Hcp|discriminate]. }
  apply Hstray, Hb.
Qed.

(** Induction on a string, character by character. *)
Lemma chars_ind (P : string -> Prop) :
  P EmptyString ->
  (forall c rest,
     wf_char c -> PyStr.chars (snd c ++ rest) = c :: PyStr.chars rest ->
     P rest -> P (snd c ++ rest)) ->
  forall s, P s.
Proof.
  intros H0 Hstep s.
  assert (H : forall n s, (String.length s <= n)%nat -> P s).
  { clear s. induction n as [|n IH]; intros s Hn.
    - destruct s; [exact H0|cbn in Hn; lia].
    - destruct s as [|b0 t0]; [exact H0|].
      destruct (chars_cons b0 t0) as (c & rest & Hc & Hs & Hwf & Hlen).
      rewrite Hs. apply Hstep; [exact Hwf|rewrite <- Hs; exact Hc|].
      apply IH. cbn in Hn. lia. }
  apply (H (String.length s)). lia.
Qed.

Lemma chars_text (s : string) : PyStr.text (PyStr.chars s) = s.
Proof.
  induction s as [|c rest Hwf Hc IH] using chars_ind; [reflexivity|].
  rewrite Hc. cbn [PyStr.text]. rewrite IH. reflexivity.
Qed.

Lemma chars_nil (s : string) : PyStr.chars s = [] -> s = EmptyString.
Proof. intros H. rewrite <- (chars_text s), H. reflexivity. Qed.

Lemma wf_char_nonempty (c : N * string) : wf_char c -> snd c <> EmptyString.
Proof. intros [(b & _ & ->)|(_ & H & _)]; [discriminate|exact H]. Qed.

Lemma chars_wf (s : string) : Forall wf_char (PyStr.chars s).
Proof.
  induction s as [|c rest Hwf Hc IH] using chars_ind; [constructor|].
  rewrite Hc. constructor; assumption.
Qed.

Lemma text_empty (l : list (N * string)) :
  Forall wf_char l -> PyStr.is_empty (PyStr.text l) = true -> l = [].
Proof.
  intros Hl. destruct Hl as [|c l Hc _]; [reflexivity|].
  cbn [PyStr.text]. pose proof (wf_char_nonempty c Hc) as Hne.
  destruct (snd c); [contradiction|discriminate].
Qed.

Lemma all_bytes_app (p : ascii -> bool) (a b : string) :
  all_bytes p (a ++ b) = all_bytes p a && all_bytes p b.
Proof.
  induction a as [|c a IH]; [reflexivity|].
  simpl. rewrite IH. apply andb_assoc.
Qed.

Lemma some_byte_app (p : ascii -> bool) (a b : string) :
  some_byte p (a ++ b) = some_byte p a || some_byte p b.
Proof.
  induction a as [|c a IH]; [reflexivity|].
  simpl. rewrite IH. apply orb_assoc.
Qed.

(* --------------------------------------------------------------------- *)
(** *** White space *)

Lemma rstrip_chars_nil (l : list (N * string)) :
  match PyStr.rstrip_chars l with [] => true | _ => false end
  = forallb (fun c => PyStr.isspace (fst c)) l.
Proof.
  induction l as [|c l IH]; [reflexivity|].
  cbn [PyStr.rstrip_chars forallb]. rewrite <- IH.
  destruct (PyStr.rstrip_chars l); destruct (PyStr.isspace (fst c)); reflexivity.
Qed.

Lemma lstrip_chars_all_space (l : list (N * string)) :
  forallb (fun c => PyStr.isspace (fst c)) (PyStr.lstrip_chars l)
  = forallb (fun c => PyStr.isspace (fst c)) l.
Proof.
  induction l as [|c l IH]; [reflexivity|].
  cbn [PyStr.lstrip_chars forallb].
  destruct (PyStr.isspace (fst c)) eqn:Ec; [exact IH|].
  cbn [forallb]. rewrite Ec. reflexivity.
Qed.

Lemma lstrip_chars_wf (l : list (N * string)) :
  Forall wf_char l -> Forall wf_char (PyStr.lstrip_chars l).
Proof.
  induction 1 as [|c l Hc Hl IH]; [constructor|].
  cbn [PyStr.lstrip_chars]. destruct (PyStr.isspace (fst c)); [exact IH|].
  constructor; assumption.
Qed.

Lemma rstrip_chars_wf (l : list (N * string)) :
  Forall wf_char l -> Forall wf_char (PyStr.rstrip_chars l).
Proof.
  induction 1 as [|c l Hc Hl IH]; [constructor|].
  cbn [PyStr.rstrip_chars].
  destruct (PyStr.rstrip_chars l).
  - destruct (PyStr.isspace (fst c)); [constructor|].
    constructor; [exact Hc|constructor].
  - constructor; assumption.
Qed.

(** [s.strip()] is empty exactly when [s] is made of white space. *)
Lemma strip_empty_all_space (q : string) :
  PyStr.is_empty (PyStr.strip q) = PyStr.all_space q.
Proof.
  unfold PyStr.strip, PyStr.all_space.
  rewrite <- lstrip_chars_all_space, <- rstrip_chars_nil.
  pose proof (rstrip_chars_wf _ (lstrip_chars_wf _ (chars_wf q))) as Hwf.
  destruct (PyStr.rstrip_chars (PyStr.lstrip_chars (PyStr.chars q)))
    as [|c l] eqn:E; [reflexivity|].
  destruct (PyStr.is_empty (PyStr.text (c :: l))) eqn:Et; [|reflexivity].
  apply (text_empty _ Hwf) in Et. discriminate Et.
Qed.

(** The guard [not query or not query.strip()] holds exactly for the strings
    made of white space only (the empty string included). *)
Lemma blank_guard (q : string) :
  PyStr.is_empty q || PyStr.is_empty (PyStr.strip q) = PyStr.all_space q.
Proof.
  rewrite strip_empty_all_space. destruct q; reflexivity.
Qed.

(** A string of white space is made of space bytes. *)
Lemma all_space_bytes (q : string) :
  PyStr.all_space q = true -> all_bytes space_byte q = true.
Proof.
  unfold PyStr.all_space.
  induction q as [|c rest Hwf Hc IH] using chars_ind; [reflexivity|].
  rewrite Hc. cbn [forallb]. intros H. apply andb_true_iff in H as [Hsp Hrest].
  rewrite all_bytes_app, (IH Hrest), andb_true_r.
  destruct Hwf as [(b & Hb & ->)|(_ & _ & Hhigh)].
  - cbn [fst snd all_bytes] in *. unfold space_byte. rewrite Hsp.
    rewrite orb_true_r. reflexivity.
  - clear -Hhigh. induction (snd c) as [|b t IHt]; [reflexivity|].
    cbn [all_bytes] in *. apply andb_true_iff in Hhigh as [Hb Ht].
    unfold space_byte at 1. rewrite Hb, (IHt Ht). reflexivity.
Qed.

(** A byte of ASCII that is not white space makes a string not blank. *)
Lemma some_byte_not_blank (p : ascii -> bool) (s : string) :
  (forall b, p b = true -> space_byte b = false) ->
  some_byte p s = true -> PyStr.all_space s = false.
Proof.
  intros Hp Hs. destruct (PyStr.all_space s) eqn:E; [|reflexivity].
  apply all_space_bytes in E. exfalso. revert Hs E.
  induction s as [|b t IH]; [discriminate|].
  cbn [some_byte all_bytes]. intros Hs E.
  apply andb_true_iff in E as [Eb Et].
  destruct (p b) eqn:Epb; [rewrite (Hp b Epb) in Eb; discriminate Eb|].
  apply IH; assumption.
Qed.

(* --------------------------------------------------------------------- *)
(** *** Lower case *)

Lemma whitespace_lower_fixed (cp : N) :
  PyStr.isspace cp = true -> lower_fixes cp = true.
Proof.
  unfold PyStr.isspace. rewrite existsb_exists. intros (w & Hin & Heq).
  apply N.eqb_eq in Heq. subst w.
  assert (H : forallb lower_fixes PyStr.whitespace = true)
    by (vm_compute; reflexivity).
  rewrite forallb_forall in H. apply H, Hin.
Qed.

Lemma lower_char_fixed (preceded : bool) (rest : list (N * string))
    (c : N * string) :
  lower_fixes (fst c) = true -> PyStr.lower_char preceded rest c = snd c.
Proof.
  unfold lower_fixes, PyStr.lower_char. cbv zeta.
  destruct (fst c <? 0x80)%N; cbn [andb orb negb].
  - destruct (_ && _); [discriminate|reflexivity].
  - destruct (fst c =? 0x3A3)%N; [discriminate|].
    destruct (fst c =? 0x130)%N; [discriminate|].
    destruct (PyStr.apply_rules _ _); [discriminate|reflexivity].
Qed.

(** [lower] leaves a string of white space as it is. *)
Lemma lower_blank (q : string) :
  PyStr.all_space q = true -> PyStr.lower q = q.
Proof.
  unfold PyStr.all_space, PyStr.lower. intros H.
  rewrite <- (chars_text q) at 2.
  generalize false. induction (PyStr.chars q) as [|c l IH]; [reflexivity|].
  intros preceded. cbn [forallb] in H. apply andb_true_iff in H as [Hc Hl].
  cbn [PyStr.lower_chars PyStr.text].
  rewrite (lower_char_fixed _ _ _ (whitespace_lower_fixed _ Hc)), (IH Hl).
  reflexivity.
Qed.

Lemma utf8_nonempty (cp : N) : PyStr.utf8 cp <> EmptyString.
Proof.
  unfold PyStr.utf8. cbv zeta.
  repeat match goal with
         | |- context [if ?b then _ else _] => destruct b
         end; discriminate.
Qed.

Lemma lower_char_nonempty (preceded : bool) (rest : list (N * string))
    (c : N * string) :
  wf_char c -> PyStr.lower_char preceded rest c <> EmptyString.
Proof.
  intros Hwf. pose proof (wf_char_nonempty c Hwf) as Hne.
  unfold PyStr.lower_char. cbv zeta.
  repeat match goal with
         | |- context [if ?b then _ else _] => destruct b
         end;
    try apply utf8_nonempty; try exact Hne.
  - pose proof (utf8_nonempty 0x69) as H. destruct (PyStr.utf8 0x69);
      [contradiction|discriminate].
  - destruct (PyStr.apply_rules _ _); [apply utf8_nonempty|exact Hne].
Qed.

(** [lower] keeps a string empty or not. *)
Lemma lower_is_empty (s : string) :
  PyStr.is_empty (PyStr.lower s) = PyStr.is_empty s.
Proof.
  unfold PyStr.lower. pose proof (chars_wf s) as Hwf.
  destruct s as [|b0 t0]; [reflexivity|].
  destruct (chars_cons b0 t0) as (c & rest & Hc & _ & Hc' & _).
  rewrite Hc. cbn [PyStr.lower_chars PyStr.is_empty].
  pose proof (lower_char_nonempty false (PyStr.chars rest) c Hc') as Hne.
  destruct (PyStr.lower_char false (PyStr.chars rest) c);
    [contradiction|reflexivity].
Qed.

(* --------------------------------------------------------------------- *)
(** *** Bytes and characters of ASCII *)

(** A class of ASCII bytes is met in a string exactly when the class of the
    ASCII characters is met among its characters. *)
Lemma some_byte_chars (p : ascii -> bool) (pc : N * string -> bool) (s : string) :
  (forall b, p b = true -> is_ascii b = true) ->
  (forall b, is_ascii b = true -> pc (PyStr.byte b, String b EmptyString) = p b) ->
  (forall c, (0x80 <= fst c)%N -> pc c = false) ->
  some_byte p s = existsb pc (PyStr.chars s).
Proof.
  intros Hp Hlow Hhigh.
  induction s as [|c rest Hwf Hc IH] using chars_ind; [reflexivity|].
  rewrite Hc, some_byte_app, IH. cbn [existsb]. f_equal.
  destruct Hwf as [(b & Hb & ->)|(Hcp & _ & Hbytes)].
  - cbn [snd some_byte]. rewrite (Hlow b Hb). apply orb_false_r.
  - rewrite (Hhigh c Hcp). clear -Hbytes Hp.
    induction (snd c) as [|b t IHt]; [reflexivity|].
    cbn [all_bytes some_byte] in *. apply andb_true_iff in Hbytes as [Hb Ht].
    rewrite (IHt Ht), orb_false_r.
    destruct (p b) eqn:E; [|reflexivity].
    rewrite (Hp b E) in Hb. discriminate Hb.
Qed.

(** A code point of ASCII is the code of a byte. *)
Lemma ascii_code (cp : N) :
  (cp <? 0x80)%N = true -> cp = PyStr.byte (ascii_of_N cp).
Proof.
  intros H. apply N.ltb_lt in H. unfold PyStr.byte.
  symmetry. apply N_ascii_embedding. lia.
Qed.
(* ===================================================================== *)
(** ** Tutor agent: routing *)
(* ===================================================================== *)

(** C8. A query that is empty or made of white space only makes the Tutor
    agent yield the single event [Error EMPTY_QUERY], carrying the ids of the
    context; no oracle call is made, and the outcome does not depend on the
    oracle: routing has not started. *)
Theorem empty_query_short_circuits
    (oracle : string -> list string -> exc TutorAgent.Intent)
    (ctx : InvocationContext) :
  PyStr.all_space (query ctx) = true ->
  TutorAgent.run_events oracle ctx =
    TutorAgent.mkTraced []
      [ErrorEvent "EMPTY_QUERY" "Query cannot be empty" None
         (request_id ctx) (trace_id ctx)].
Proof.
  intros H. unfold TutorAgent.run_events.
  rewrite blank_guard, H. reflexivity.
Qed.

Lemma empty_query_short_circuits_witness :
  TutorAgent.run_events failing_oracle (context_of "  " "r1" "t1") =
    TutorAgent.mkTraced []
      [ErrorEvent "EMPTY_QUERY" "Query cannot be empty" None "r1" "t1"].
Proof.
  apply (empty_query_short_circuits failing_oracle (context_of "  " "r1" "t1")).
  reflexivity.
Defined.

Lemma stage1_math
    (oracle : string -> list string -> exc TutorAgent.Intent) (q : string) :
  lexical_math q ->
  TutorAgent._analyze_query_intent oracle q =
    TutorAgent.mkTraced []
      (Ok (TutorAgent.mkIntent "MathAgent"
             (VFloat (TutorAgent.lexical_confidence (TutorAgent.math_count q)))
             (VDict
                [("MathAgent",
                  VFloat (TutorAgent.lexical_confidence (TutorAgent.math_count q)));
                 ("PhysicsAgent",
                  VFloat (1 - TutorAgent.lexical_confidence
                                (TutorAgent.math_count q))%float)]))).
Proof.
  unfold lexical_math, TutorAgent.math_count, TutorAgent.physics_count,
    TutorAgent._analyze_query_intent.
  set (m := TutorAgent.keyword_count TutorAgent.math_keywords (PyStr.lower q)).
  set (p := TutorAgent.keyword_count TutorAgent.physics_keywords (PyStr.lower q)).
  intros [Hpos Hdbl]; cbv zeta.
  assert (E1 : (0 <? m)%nat = true) by (apply Nat.ltb_lt; lia).
  assert (E2 : (2 * p <? m)%nat = true) by (apply Nat.ltb_lt; lia).
  rewrite E1, E2. reflexivity.
Qed.

Lemma stage1_physics
    (oracle : string -> list string -> exc TutorAgent.Intent) (q : string) :
  lexical_physics q ->
  TutorAgent._analyze_query_intent oracle q =
    TutorAgent.mkTraced []
      (Ok (TutorAgent.mkIntent "PhysicsAgent"
             (VFloat (TutorAgent.lexical_confidence (TutorAgent.physics_count q)))
             (VDict
                [("PhysicsAgent",
                  VFloat (TutorAgent.lexical_confidence (TutorAgent.physics_count q)));
                 ("MathAgent",
                  VFloat (1 - TutorAgent.lexical_confidence
                                (TutorAgent.physics_count q))%float)]))).
Proof.
  unfold lexical_physics, TutorAgent.math_count, TutorAgent.physics_count,
    TutorAgent._analyze_query_intent.
  set (m := TutorAgent.keyword_count TutorAgent.math_keywords (PyStr.lower q)).
  set (p := TutorAgent.keyword_count TutorAgent.physics_keywords (PyStr.lower q)).
  intros [Hpos Hdbl]; cbv zeta.
  assert (E1 : (2 * p <? m)%nat = false) by (apply Nat.ltb_ge; lia).
  assert (E2 : (0 <? p)%nat = true) by (apply Nat.ltb_lt; lia).
  assert (E3 : (2 * m <? p)%nat = true) by (apply Nat.ltb_lt; lia).
  rewrite E1, E2, E3, andb_false_r. reflexivity.
Qed.



(** The count is a count of list entries: the physics list holds
    [pressure] twice, so the query [pressure] has the physics count 2 and
    the confidence [min(0.7 + 0.1 * 2, 0.95)]. *)
Lemma pressure_counts_twice :
  TutorAgent.physics_count "pressure" = 2%nat
  /\ TutorAgent.math_count "pressure" = 0%nat
  /\ TutorAgent._analyze_query_intent failing_oracle "pressure" =
       TutorAgent.mkTraced []
         (Ok (TutorAgent.mkIntent "PhysicsAgent" (VFloat 0.8999999999999999%float)
                (VDict [("PhysicsAgent", VFloat 0.8999999999999999%float);
                        ("MathAgent", VFloat 0.10000000000000009%float)]))).
Proof. repeat split; vm_compute; reflexivity. Qed.


Lemma bands_constants_not_nan :
  fnan 0.9%float = false /\ fnan 0.7%float = false /\ fnan 0.5%float = false.
Proof. repeat split; reflexivity. Qed.






(** A value in the unit interval passes the validator of [DelegationEvent]. *)
Lemma make_DelegationEvent_unit (a : string) (c : float) (d : pydict)
    (rid tid : string) :
  PrimFloat.leb 0 c = true -> PrimFloat.leb c 1 = true ->
  make_DelegationEvent a c d rid tid = Ok (DelegationEvent a c d rid tid).
Proof.
  intros H0 H1. unfold make_DelegationEvent, PyFloat.ge. rewrite H0, H1.
  reflexivity.
Qed.






(* --------------------------------------------------------------------- *)
(** *** The lexical path always delegates *)

Lemma keyword_count_le (ks : list string) (q : string) :
  (TutorAgent.keyword_count ks q <= length ks)%nat.
Proof. unfold TutorAgent.keyword_count. apply List.filter_length_le. Qed.

Lemma math_count_le (q : string) : (TutorAgent.math_count q <= 39)%nat.
Proof.
  unfold TutorAgent.math_count.
  exact (keyword_count_le TutorAgent.math_keywords (PyStr.lower q)).
Qed.

Lemma physics_count_le (q : string) : (TutorAgent.physics_count q <= 44)%nat.
Proof.
  unfold TutorAgent.physics_count.
  exact (keyword_count_le TutorAgent.physics_keywords (PyStr.lower q)).
Qed.

(** A keyword starts with a letter; it does not occur among the bytes of
    white space. *)
Lemma no_keyword_in_space_bytes (k q : string) :
  starts_nonspace k = true -> all_bytes space_byte q = true ->
  PyStr.contains k q = false.
Proof.
  intros Hk. induction q as [|c t IH]; simpl; intros Hq.
  - destruct k; [discriminate Hk|reflexivity].
  - apply andb_true_iff in Hq as [Hc Ht]. rewrite (IH Ht), orb_false_r.
    destruct k as [|k0 k']; [discriminate Hk|]. simpl in *.
    destruct (Ascii.eqb_spec k0 c) as [->|Hne].
    + rewrite Hc in Hk. discriminate Hk.
    + destruct (ascii_dec k0 c); [contradiction|reflexivity].
Qed.

Lemma blank_contains_no_keyword (k q : string) :
  starts_nonspace k = true -> PyStr.all_space q = true ->
  PyStr.contains k (PyStr.lower q) = false.
Proof.
  intros Hk Hq. rewrite (lower_blank q Hq).
  apply no_keyword_in_space_bytes; [exact Hk|].
  apply all_space_bytes. exact Hq.
Qed.

Lemma blank_keyword_count (ks : list string) (q : string) :
  forallb starts_nonspace ks = true -> PyStr.all_space q = true ->
  TutorAgent.keyword_count ks (PyStr.lower q) = 0%nat.
Proof.
  intros Hks Hq. unfold TutorAgent.keyword_count.
  induction ks as [|k ks IH]; simpl in *; [reflexivity|].
  apply andb_true_iff in Hks as [Hk Hks].
  rewrite (blank_contains_no_keyword k q Hk Hq). auto.
Qed.

Lemma blank_math_count (q : string) :
  PyStr.all_space q = true -> TutorAgent.math_count q = 0%nat.
Proof.
  intros Hq. unfold TutorAgent.math_count.
  apply blank_keyword_count; [vm_compute; reflexivity | exact Hq].
Qed.

Lemma blank_physics_count (q : string) :
  PyStr.all_space q = true -> TutorAgent.physics_count q = 0%nat.
Proof.
  intros Hq. unfold TutorAgent.physics_count.
  apply blank_keyword_count; [vm_compute; reflexivity | exact Hq].
Qed.

(** A query on which stage 1 decides is not blank. *)
Lemma lexical_not_blank (q : string) :
  lexical_math q \/ lexical_physics q -> PyStr.all_space q = false.
Proof.
  intros H. destruct (PyStr.all_space q) eqn:E; [exfalso|reflexivity].
  pose proof (blank_math_count q E) as Hm.
  pose proof (blank_physics_count q E) as Hp.
  unfold lexical_math, lexical_physics in H.
  rewrite Hm, Hp in H. lia.
Qed.

Lemma lexical_confidence_checked (n : nat) :
  (1 <= n <= 44)%nat -> lexical_confidence_ok n = true.
Proof.
  intros Hn.
  assert (H : forallb lexical_confidence_ok (seq 1 44) = true)
    by (vm_compute; reflexivity).
  rewrite forallb_forall in H. apply H. apply in_seq. lia.
Qed.

(** On a float confidence that reaches the default threshold and lies in
    the unit interval, the thresholds yield a delegation to the chosen
    agent. *)
Lemma thresholds_delegate (agent : string) (c : float) (s : value)
    (rid tid : string) :
  PyFloat.ge c TutorAgent.default_confidence = true ->
  PrimFloat.leb 0 c = true ->
  PrimFloat.leb c 1 = true ->
  exists d,
    TutorAgent.apply_confidence_thresholds
      (TutorAgent.mkIntent agent (VFloat c) s) rid tid =
      Ok (DelegationEvent agent c d rid tid).
Proof.
  intros Hd H0 H1. unfold TutorAgent.apply_confidence_thresholds.
  cbn [TutorAgent.intent_confidence TutorAgent.best_agent TutorAgent.scores
       PyNum.number_of PyNum.ge PyNum.to_float].
  destruct (PyFloat.ge _ TutorAgent.high_confidence).
  - eexists. apply make_DelegationEvent_unit; assumption.
  - rewrite Hd. eexists. apply make_DelegationEvent_unit; assumption.
Qed.

Lemma lexical_intent_delegates
    (oracle : string -> list string -> exc TutorAgent.Intent)
    (ctx : InvocationContext) (agent : string) (n : nat) (s : value) :
  PyStr.all_space (query ctx) = false ->
  (1 <= n <= 44)%nat ->
  TutorAgent._analyze_query_intent oracle (query ctx) =
    TutorAgent.mkTraced []
      (Ok (TutorAgent.mkIntent agent (VFloat (TutorAgent.lexical_confidence n)) s)) ->
  exists c d,
    TutorAgent.run_events oracle ctx =
      TutorAgent.mkTraced []
        [DelegationEvent agent c d (request_id ctx) (trace_id ctx)]
    /\ PrimFloat.leb 0.7999999999999999%float c = true
    /\ PrimFloat.leb c 0.95%float = true
    /\ PyFloat.ge c settings.DEFAULT_CONFIDENCE_THRESHOLD = true.
Proof.
  intros Hq Hn Ha.
  pose proof (lexical_confidence_checked n Hn) as Hok.
  unfold lexical_confidence_ok in Hok.
  repeat (apply andb_true_iff in Hok as [Hok ?]).
  destruct (thresholds_delegate agent (TutorAgent.lexical_confidence n) s
              (request_id ctx) (trace_id ctx)) as [d Hd]; try assumption.
  exists (TutorAgent.lexical_confidence n), d. split; [|auto].
  unfold TutorAgent.run_events.
  rewrite blank_guard, Hq, Ha.
  cbn [TutorAgent.outcome TutorAgent.oracle_calls].
  rewrite Hd. reflexivity.
Qed.

(** C10 (as amended). Whenever stage 1 decides the route, the Tutor agent
    yields exactly one event, a delegation to the winning agent, and asks the
    oracle nothing; the winning confidence is at least 0.7999999999999999 (the
    binary64 value of [0.7 + 0.1]), at most 0.95, and reaches the default
    threshold 0.7. *)
Theorem lexical_path_always_delegates
    (oracle : string -> list string -> exc TutorAgent.Intent)
    (ctx : InvocationContext) :
  lexical_math (query ctx) \/ lexical_physics (query ctx) ->
  exists agent c d,
    TutorAgent.run_events oracle ctx =
      TutorAgent.mkTraced []
        [DelegationEvent agent c d (request_id ctx) (trace_id ctx)]
    /\ PrimFloat.leb 0.7999999999999999%float c = true
    /\ PrimFloat.leb c 0.95%float = true
    /\ PyFloat.ge c settings.DEFAULT_CONFIDENCE_THRESHOLD = true
    /\ (lexical_math (query ctx) -> agent = "MathAgent")
    /\ (lexical_physics (query ctx) -> agent = "PhysicsAgent").
Proof.
  intros H. pose proof (lexical_not_blank _ H) as Hq.
  destruct H as [H|H].
  - assert (Hn : (1 <= TutorAgent.math_count (query ctx) <= 44)%nat).
    { pose proof (math_count_le (query ctx)) as L.
      unfold lexical_math in H. lia. }
    destruct (lexical_intent_delegates oracle ctx _ _ _ Hq Hn (stage1_math oracle _ H))
      as (c & d & Hrun & Hlo & Hhi & Hdef).
    exists "MathAgent", c, d.
    split; [exact Hrun|]. split; [exact Hlo|]. split; [exact Hhi|].
    split; [exact Hdef|]. split; [intros _; reflexivity|].
    intros H'. exfalso. unfold lexical_math in H. unfold lexical_physics in H'. lia.
  - assert (Hn : (1 <= TutorAgent.physics_count (query ctx) <= 44)%nat).
    { pose proof (physics_count_le (query ctx)) as L.
      unfold lexical_physics in H. lia. }
    destruct (lexical_intent_delegates oracle ctx _ _ _ Hq Hn (stage1_physics oracle _ H))
      as (c & d & Hrun & Hlo & Hhi & Hdef).
    exists "PhysicsAgent", c, d.
    split; [exact Hrun|]. split; [exact Hlo|]. split; [exact Hhi|].
    split; [exact Hdef|]. split; [|intros _; reflexivity].
    intros H'. exfalso. unfold lexical_physics in H. unfold lexical_math in H'. lia.
Qed.

Lemma lexical_path_always_delegates_witness :
  exists agent c d,
    TutorAgent.run_events failing_oracle (context_of "What is algebra?" "r1" "t1") =
      TutorAgent.mkTraced [] [DelegationEvent agent c d "r1" "t1"]
    /\ PrimFloat.leb 0.7999999999999999%float c = true
    /\ PrimFloat.leb c 0.95%float = true
    /\ PyFloat.ge c settings.DEFAULT_CONFIDENCE_THRESHOLD = true
    /\ (lexical_math "What is algebra?" -> agent = "MathAgent")
    /\ (lexical_physics "What is algebra?" -> agent = "PhysicsAgent").
Proof.
  apply (lexical_path_always_delegates failing_oracle
           (context_of "What is algebra?" "r1" "t1")).
  left. split; apply Nat.ltb_lt; reflexivity.
Defined.

(** C10, as stated, fails: on a query with one math keyword and no physics
    keyword stage 1 decides for the math agent with confidence
    0.7999999999999999, which is below 0.8. *)
Lemma lexical_confidence_below_080 :
  lexical_math "What is algebra?"
  /\ TutorAgent.outcome
       (TutorAgent._analyze_query_intent failing_oracle "What is algebra?")
     = Ok (TutorAgent.mkIntent "MathAgent" (VFloat 0.7999999999999999%float)
             (VDict [("MathAgent", VFloat 0.7999999999999999%float);
                     ("PhysicsAgent", VFloat 0.20000000000000007%float)]))
  /\ PyFloat.ge 0.7999999999999999%float 0.8%float = false
  /\ PyFloat.lt 0.7999999999999999%float 0.8%float = true.
Proof.
  split; [split; apply Nat.ltb_lt; reflexivity|].
  repeat split; reflexivity.
Qed.

(* ===================================================================== *)
(** ** Session service *)
(* ===================================================================== *)

Lemma get_after_update (s : gmap string (gmap string value)) (id : string)
    (updates : gmap string value) :
  SessionService.get_session_state
    (SessionService.update_session_state s id updates) id
  = updates ∪ SessionService.get_session_state s id.
Proof.
  unfold SessionService.get_session_state, SessionService.update_session_state.
  cbv zeta. rewrite lookup_insert_eq. simpl.
  destruct (s !! id) as [m|] eqn:E.
  - rewrite E. reflexivity.
  - rewrite lookup_insert_eq. reflexivity.
Qed.

Lemma get_after_update_other (s : gmap string (gmap string value)) (id id' : string)
    (updates : gmap string value) :
  id <> id' ->
  SessionService.get_session_state
    (SessionService.update_session_state s id updates) id'
  = SessionService.get_session_state s id'.
Proof.
  intros Hne.
  unfold SessionService.get_session_state, SessionService.update_session_state.
  cbv zeta. rewrite lookup_insert_ne by exact Hne.
  destruct (s !! id); [reflexivity|].
  rewrite lookup_insert_ne by exact Hne. reflexivity.
Qed.

(** C9. Updating a session with the empty mapping leaves what
    [get_session_state] returns unchanged, for the session updated and for
    every other session. *)
Theorem update_with_empty_is_identity
    (s : gmap string (gmap string value)) (id id' : string) :
  SessionService.get_session_state
    (SessionService.update_session_state s id ∅) id'
  = SessionService.get_session_state s id'.
Proof.
  destruct (decide (id = id')) as [<-|Hne].
  - rewrite get_after_update. apply (left_id_L ∅ (∪)).
  - apply get_after_update_other. exact Hne.
Qed.

(* ===================================================================== *)
(** ** Runner *)
(* ===================================================================== *)

Lemma run_agent_S (depth : nat) (r : Runner.t) (agent_name : string)
    (ctx : InvocationContext) :
  Runner.run_agent (S depth) r agent_name ctx =
    match Runner.agents r !! agent_name with
    | None =>
        Runner.one
          (ErrorEvent "AGENT_NOT_FOUND" ("Agent not found: " ++ agent_name) None
             (Runner.runner_request_id r) (Runner.runner_trace_id r))
    | Some run => Runner.drive (Runner.run_agent depth r) r ctx (run ctx)
    end.
Proof. reflexivity. Qed.

Lemma run_agent_unknown (depth : nat) (r : Runner.t) (agent_name : string)
    (ctx : InvocationContext) :
  Runner.agents r !! agent_name = None ->
  Runner.run_agent (S depth) r agent_name ctx =
    Runner.one
      (ErrorEvent "AGENT_NOT_FOUND" ("Agent not found: " ++ agent_name) None
         (Runner.runner_request_id r) (Runner.runner_trace_id r)).
Proof. intros H. rewrite run_agent_S, H. reflexivity. Qed.

Lemma scan_error_first (code msg : string) (d : option pydict)
    (rid tid : string) (rest : list Event) :
  Runner.scan (ErrorEvent code msg d rid tid :: rest) = Runner.FoundError code msg.
Proof. reflexivity. Qed.

(** C6. When the Tutor agent's first event is a delegation to a name that is
    not in the agent registry, running that name yields the single event
    [Error AGENT_NOT_FOUND] (nothing is raised), the run of the Tutor agent
    starts with that event, and [process_query] raises the wrapped error
    [AGENT_NOT_FOUND: Agent not found: <name>] and returns the session store
    it was given. *)
Theorem unknown_delegate_fails_without_touching_sessions
    (depth : nat) (r : Runner.t) (s : gmap string (gmap string value))
    (q : string) (session_id : option string)
    (tutor : Runner.agent) (target : string) :
  Runner.agents r !! "TutorAgent" = Some tutor ->
  (forall ctx, query ctx = q ->
     exists c d rid tid resume,
       tutor ctx = Yield (Some (DelegationEvent target c d rid tid)) resume) ->
  Runner.agents r !! target = None ->
  let not_found :=
    ErrorEvent "AGENT_NOT_FOUND" ("Agent not found: " ++ target) None
      (Runner.runner_request_id r) (Runner.runner_trace_id r) in
  (forall ctx, Runner.run_agent (S depth) r target ctx = Runner.one not_found)
  /\ (forall ctx, query ctx = q ->
        exists rest,
          Runner.events (Runner.run_agent (S (S depth)) r "TutorAgent" ctx)
          = not_found :: rest)
  /\ Runner.process_query (S (S depth)) r s q session_id
     = Some (Raise ("AGENT_NOT_FOUND: Agent not found: " ++ target), s).
Proof.
  intros Htutor Hfirst Htarget not_found.
  assert (Hrun : forall ctx, query ctx = q ->
            exists rest,
              Runner.events (Runner.run_agent (S (S depth)) r "TutorAgent" ctx)
              = not_found :: rest).
  { intros ctx Hq.
    rewrite run_agent_S.
    destruct (Hfirst ctx Hq) as (c & d & rid & tid & resume & Hyield).
    rewrite Htutor, Hyield.
    cbn [Runner.drive].
    rewrite (run_agent_unknown depth r target _ Htarget).
    unfold Runner.then_trace, Runner.one. cbn [Runner.complete Runner.events].
    eexists. reflexivity. }
  split; [intros ctx; apply run_agent_unknown; exact Htarget|].
  split; [exact Hrun|].
  unfold Runner.process_query. cbv zeta.
  match goal with
  | |- context [Runner.run_agent _ _ _ ?ctx] =>
      destruct (Hrun ctx eq_refl) as [rest Hrest]
  end.
  rewrite Hrest. reflexivity.
Qed.

Lemma unknown_delegate_fails_without_touching_sessions_witness :
  let r := tutor_only_runner "r1" "t1" in
  let s : gmap string (gmap string value) :=
    <["s1" := <["last_query" := VStr "hello"]> ∅]> ∅ in
  let not_found :=
    ErrorEvent "AGENT_NOT_FOUND" "Agent not found: MathAgent" None "r1" "t1" in
  (forall ctx, Runner.run_agent 1 r "MathAgent" ctx = Runner.one not_found)
  /\ (forall ctx, query ctx = "What is algebra?" ->
        exists rest,
          Runner.events (Runner.run_agent 2 r "TutorAgent" ctx) = not_found :: rest)
  /\ Runner.process_query 2 r s "What is algebra?" (Some "s1")
     = Some (Raise "AGENT_NOT_FOUND: Agent not found: MathAgent", s).
Proof.
  intros r s.
  apply (unknown_delegate_fails_without_touching_sessions 0 r s
           "What is algebra?" (Some "s1") (TutorAgent.run failing_oracle) "MathAgent").
  - reflexivity.
  - intros [q rid sid tid st md ec] Hq. simpl in Hq. subst q.
    do 5 eexists. cbv. reflexivity.
  - reflexivity.
Defined.

(* --------------------------------------------------------------------- *)
(** *** Request and trace ids *)

Lemma then_trace_Forall (P : Event -> Prop) (a b : Runner.trace) :
  Forall P (Runner.events a) -> Forall P (Runner.events b) ->
  Forall P (Runner.events (Runner.then_trace a b)).
Proof.
  intros Ha Hb. unfold Runner.then_trace.
  destruct (Runner.complete a); simpl; [|exact Ha].
  apply Forall_app. split; assumption.
Qed.

Lemma one_Forall (P : Event -> Prop) (e : Event) :
  P e -> Forall P (Runner.events (Runner.one e)).
Proof. intros H. simpl. constructor; [exact H|constructor]. Qed.








(** A call on the runner of a request, with an oracle that is down and a
    math agent that finds the expression [2+2]: the tool result and the
    error that the runner builds carry the ids of the request. *)
Lemma request_run_example :
  let r :=
    Api.get_runner failing_oracle (extract_fixed (Some "2+2")) format_identity
      respond_fixed search_nothing match_never format_identity
      physics_respond_fixed (evaluate_fixed 42%float) no_steps "r1" "t1" in
  Runner.events
    (Runner.run_agent 3 r "TutorAgent"
       (Runner.initial_context r ∅ "calculate 2+2" None))
  = [ToolResultEvent "CalculatorTool" []
       (Some "nothing to repeat at position 1") "r1" "t1";
     ErrorEvent "AGENT_EXECUTION_ERROR"
       "Agent execution failed: 'NoneType' object has no attribute 'event_type'"
       None "r1" "t1"].
Proof. vm_compute. reflexivity. Qed.

(* --------------------------------------------------------------------- *)
(** *** Tool invocations *)

(** What the runner builds from the outcome of a tool. *)
Lemma drive_tool_invocation
    (rec : string -> InvocationContext -> Runner.trace) (r : Runner.t)
    (ctx : InvocationContext) (tool_name : string) (inputs : pydict)
    (rid tid : string) (resume : option Event -> Gen) (execute : Runner.tool) :
  Runner.tools r !! tool_name = Some execute ->
  Runner.drive rec r ctx
    (Yield (Some (ToolInvocationEvent tool_name inputs rid tid)) resume)
  = Runner.then_trace
      (Runner.one
         match execute inputs with
         | Ok result =>
             ToolResultEvent tool_name result None
               (Runner.runner_request_id r) (Runner.runner_trace_id r)
         | Raise msg =>
             ToolResultEvent tool_name [] (Some msg)
               (Runner.runner_request_id r) (Runner.runner_trace_id r)
         end)
      (Runner.drive rec r ctx (resume None)).
Proof. intros H. cbn [Runner.drive]. rewrite H. reflexivity. Qed.

(** C1 (the code departs from it). When the math agent asks for the
    calculator, the runner executes the tool but hands the result to its own
    consumer: the agent is resumed by iteration, so the value it receives at
    [tool_result = yield] is never the result.  The bare [yield] reaches the
    runner as the event [None], the run ends with [AGENT_EXECUTION_ERROR] and
    no final response is produced.  Had a successful result been sent to the
    agent, it would have answered with a final response that names the
    tool. *)
Theorem tool_result_is_not_sent_to_agent
    (depth : nat) (r : Runner.t) (ctx : InvocationContext)
    (extract : string -> option string) (format : string -> string)
    (generate : string -> option pydict -> exc string)
    (expression : string) (calculator : Runner.tool) :
  Runner.agents r !! "MathAgent" = Some (MathAgent.run extract format generate) ->
  extract (query ctx) = Some expression ->
  Runner.tools r !! "CalculatorTool" = Some calculator ->
  let outcome := calculator [("expression", VStr (format expression))] in
  let tool_result :=
    match outcome with
    | Ok result =>
        ToolResultEvent "CalculatorTool" result None
          (Runner.runner_request_id r) (Runner.runner_trace_id r)
    | Raise msg =>
        ToolResultEvent "CalculatorTool" [] (Some msg)
          (Runner.runner_request_id r) (Runner.runner_trace_id r)
    end in
  Runner.run_agent (S depth) r "MathAgent" ctx =
    Runner.mkTrace
      [tool_result;
       ErrorEvent "AGENT_EXECUTION_ERROR"
         "Agent execution failed: 'NoneType' object has no attribute 'event_type'"
         None (Runner.runner_request_id r) (Runner.runner_trace_id r)]
      true
  /\ Runner.scan (Runner.events (Runner.run_agent (S depth) r "MathAgent" ctx))
     = Runner.FoundError "AGENT_EXECUTION_ERROR"
         "Agent execution failed: 'NoneType' object has no attribute 'event_type'"
  /\ (forall result text,
        outcome = Ok result ->
        generate (query ctx) (Some result) = Ok text ->
        MathAgent.after_tool_result generate (query ctx)
          (request_id ctx) (trace_id ctx) (Some tool_result)
        = Yield (Some (FinalResponseEvent text "MathAgent" (Some "CalculatorTool")
                         (Some result) (request_id ctx) (trace_id ctx)))
                (fun _ => Return)).
Proof.
  intros Hagent Hextract Htool outcome tool_result.
  assert (Hrun : Runner.run_agent (S depth) r "MathAgent" ctx =
    Runner.mkTrace
      [tool_result;
       ErrorEvent "AGENT_EXECUTION_ERROR"
         "Agent execution failed: 'NoneType' object has no attribute 'event_type'"
         None (Runner.runner_request_id r) (Runner.runner_trace_id r)]
      true).
  { rewrite run_agent_S, Hagent.
    unfold MathAgent.run, MathAgent._needs_calculation. rewrite Hextract.
    rewrite (drive_tool_invocation _ _ _ _ _ _ _ _ _ Htool). reflexivity. }
  split; [exact Hrun|]. split.
  - rewrite Hrun. unfold tool_result. destruct outcome; reflexivity.
  - intros result text Hout Hgen. unfold tool_result. rewrite Hout.
    unfold MathAgent.after_tool_result, MathAgent.respond.
    cbn [MathAgent.error_set]. rewrite Hgen. reflexivity.
Qed.

Lemma tool_result_is_not_sent_to_agent_witness :
  let r := tutoring_runner (Some "42") "r1" "t1" in
  let result := [("result", VFloat 42%float); ("steps", VList [])] in
  let tool_result := ToolResultEvent "CalculatorTool" result None "r1" "t1" in
  Runner.run_agent 1 r "MathAgent" (context_of "calculate 42" "r1" "t1") =
    Runner.mkTrace
      [tool_result;
       ErrorEvent "AGENT_EXECUTION_ERROR"
         "Agent execution failed: 'NoneType' object has no attribute 'event_type'"
         None "r1" "t1"]
      true
  /\ MathAgent.after_tool_result respond_fixed "calculate 42" "r1" "t1"
       (Some tool_result)
     = Yield (Some (FinalResponseEvent "explanation" "MathAgent"
                      (Some "CalculatorTool") (Some result) "r1" "t1"))
             (fun _ => Return).
Proof.
  intros r result tool_result.
  destruct (tool_result_is_not_sent_to_agent 0 r
              (context_of "calculate 42" "r1" "t1")
              (extract_fixed (Some "42")) format_identity respond_fixed
              "42" calculator_tool eq_refl eq_refl eq_refl)
    as (Hrun & _ & Hcontract).
  split; [exact Hrun|].
  exact (Hcontract result "explanation" eq_refl eq_refl).
Defined.

(** The whole call on the query [calculate 2+2]: the Tutor agent delegates to
    the math agent, the calculator is executed (and fails in validation), the
    agent never sees the outcome, and [process_query] raises; the session
    store is not updated. *)
Lemma calculate_query_fails :
  let r := tutoring_runner (Some "2+2") "r1" "t1" in
  Runner.run_agent 2 r "TutorAgent" (context_of "calculate 2+2" "r1" "t1") =
    Runner.mkTrace
      [ToolResultEvent "CalculatorTool" []
         (Some "nothing to repeat at position 1") "r1" "t1";
       ErrorEvent "AGENT_EXECUTION_ERROR"
         "Agent execution failed: 'NoneType' object has no attribute 'event_type'"
         None "r1" "t1"]
      true
  /\ Runner.process_query 2 r ∅ "calculate 2+2" (Some "s1")
     = Some (Raise ("AGENT_EXECUTION_ERROR: Agent execution failed: "
                    ++ "'NoneType' object has no attribute 'event_type'"), ∅).
Proof. split; vm_compute; reflexivity. Qed.

(* ===================================================================== *)
(** ** Calculator tool *)
(* ===================================================================== *)

Lemma mentions_operator_bytes (s : string) :
  mentions_operator s = some_byte CalculatorTool.is_operator s.
Proof.
  induction s as [|c t IH]; [reflexivity|].
  cbn [mentions_operator some_byte]. rewrite IH. reflexivity.
Qed.

Lemma mentions_operator_chars (s : string) :
  mentions_operator s = existsb CalculatorTool.operator_char (PyStr.chars s).
Proof.
  rewrite mentions_operator_bytes. apply some_byte_chars.
  - intros b. destruct b as [[] [] [] [] [] [] [] []]; vm_compute; intros H;
      (reflexivity || discriminate H).
  - intros b Hb. unfold CalculatorTool.operator_char, is_ascii in *.
    cbn [fst]. rewrite Hb. unfold PyStr.byte. rewrite ascii_N_embedding.
    reflexivity.
  - intros c Hc. unfold CalculatorTool.operator_char.
    assert (E : (fst c <? 0x80)%N = false) by (apply N.ltb_ge; exact Hc).
    rewrite E. reflexivity.
Qed.

Lemma operator_byte_not_space (b : ascii) :
  CalculatorTool.is_operator b = true -> space_byte b = false.
Proof.
  destruct b as [[] [] [] [] [] [] [] []]; vm_compute; intros H;
    (reflexivity || discriminate H).
Qed.

Lemma operator_is_special (c : N * string) :
  CalculatorTool.operator_char c = true ->
  CalculatorTool.digit_char c = false /\ CalculatorTool.letter_char c = false
  /\ CalculatorTool.dot_char c = false /\ PyStr.isspace (fst c) = false
  /\ CalculatorTool.is_number [c] = Returns false.
Proof.
  destruct c as [cp bytes]. unfold CalculatorTool.operator_char. cbn [fst].
  intros H. apply andb_true_iff in H as [Hlow Hop].
  rewrite (ascii_code cp Hlow). clear Hlow. revert Hop.
  destruct (ascii_of_N cp) as [[] [] [] [] [] [] [] []]; vm_compute; intros H;
    (discriminate H || (repeat split; reflexivity)).
Qed.

(** Compiling the first key of the allow-list, ["+"], between [^] and [$]
    raises, whatever the token. *)
Lemma is_allowed_raises (token : list (N * string)) :
  CalculatorTool.is_allowed CalculatorTool.allowed_symbols token
  = Raises (ReError nothing_to_repeat).
Proof. reflexivity. Qed.

Lemma is_number_returns (token : list (N * string)) :
  exists b, CalculatorTool.is_number token = Returns b.
Proof.
  unfold CalculatorTool.is_number, Re.match_.
  change (Re.compile "^\d+$")
    with (Re.Compiled [Re.AtBegin; Re.Plus Re.Digit; Re.AtEnd]).
  change (Re.compile "^\d+\.\d+$")
    with (Re.Compiled [Re.AtBegin; Re.Plus Re.Digit; Re.One (Re.Lit ".");
                       Re.Plus Re.Digit; Re.AtEnd]).
  cbv iota beta.
  destruct (Re.matches [Re.AtBegin; Re.Plus Re.Digit; Re.AtEnd]
              (CalculatorTool.codes token) true);
    eexists; reflexivity.
Qed.

Lemma first_disallowed_raises (toks : list (list (N * string)))
    (tok : list (N * string)) :
  In tok toks -> CalculatorTool.is_number tok = Returns false ->
  CalculatorTool.first_disallowed toks = Raises (ReError nothing_to_repeat).
Proof.
  intros Hin Hnum. induction toks as [|t rest IH]; [destruct Hin|].
  cbn [CalculatorTool.first_disallowed].
  destruct (is_number_returns t) as [b Hb]. rewrite Hb.
  destruct b.
  - destruct Hin as [->|Hin]; [congruence|]. apply IH, Hin.
  - rewrite is_allowed_raises. reflexivity.
Qed.

Lemma scan_keeps_operators (l : list (N * string)) :
  existsb CalculatorTool.operator_char l = true ->
  forall st, exists c,
    CalculatorTool.operator_char c = true
    /\ In [c] (CalculatorTool.scan st l).
Proof.
  induction l as [|c t IH]; [discriminate|].
  cbn [existsb]. intros H st.
  destruct (CalculatorTool.operator_char c) eqn:Eop.
  - destruct (operator_is_special c Eop) as (Hd & Ha & Hdot & _ & _).
    exists c. split; [exact Eop|].
    cbn [CalculatorTool.scan]. rewrite Eop, Hd, Ha.
    destruct st; try rewrite Hdot; simpl; auto.
  - simpl in H.
    assert (Hany : forall st', exists c0,
              CalculatorTool.operator_char c0 = true
              /\ In [c0] (CalculatorTool.scan st' t))
      by (intros st'; apply IH, H).
    cbn [CalculatorTool.scan]. rewrite Eop.
    destruct st;
      repeat match goal with
             | |- context [if ?b then _ else _] => destruct b
             end;
      match goal with
      | |- context [_ :: CalculatorTool.scan ?st' t] =>
          destruct (Hany st') as (c0 & H1 & H2); exists c0; split;
          [exact H1 | right; exact H2]
      | |- context [CalculatorTool.scan ?st' t] => apply Hany
      end.
Qed.

Lemma operator_not_blank (s : string) :
  mentions_operator s = true -> PyStr.all_space s = false.
Proof.
  rewrite mentions_operator_bytes.
  apply (some_byte_not_blank CalculatorTool.is_operator).
  exact operator_byte_not_space.
Qed.

Lemma validation_raises (expression : string) :
  mentions_operator expression = true ->
  CalculatorTool._validate_expression expression
  = Raises (ReError nothing_to_repeat).
Proof.
  intros H. unfold CalculatorTool._validate_expression.
  rewrite blank_guard, (operator_not_blank _ H).
  rewrite mentions_operator_chars in H.
  destruct (scan_keeps_operators _ H CalculatorTool.Idle) as (c & Hop & Hin).
  destruct (operator_is_special c Hop) as (_ & _ & _ & _ & Hnum).
  unfold CalculatorTool.tokens.
  rewrite (first_disallowed_raises _ _ Hin Hnum). reflexivity.
Qed.

Lemma count_paren_zero (p : ascii) (s : string) :
  CalculatorTool.is_operator p = true ->
  mentions_operator s = false -> PyStr.count_char p s = 0%nat.
Proof.
  intros Hp. induction s as [|c t IH]; [reflexivity|].
  cbn [mentions_operator PyStr.count_char]. intros H.
  apply orb_false_iff in H as [Hc Ht]. rewrite (IH Ht).
  destruct (Ascii.eqb_spec p c) as [->|_]; [congruence|reflexivity].
Qed.

(** An expression whose parentheses do not balance contains a parenthesis. *)
Lemma unbalanced_mentions_operator (s : string) :
  PyStr.count_char "(" s <> PyStr.count_char ")" s ->
  mentions_operator s = true.
Proof.
  intros H. destruct (mentions_operator s) eqn:E; [reflexivity|].
  exfalso. apply H.
  rewrite (count_paren_zero "(" s eq_refl E), (count_paren_zero ")" s eq_refl E).
  reflexivity.
Qed.

(** C4 (the code departs from it). Validation looks every token that is not
    a number up in the allow-list by compiling each key as a regular
    expression; the first key is ["+"], and ["^+$"] does not compile.  So for
    every expression that contains an operator or a parenthesis, whatever the
    evaluator, [execute] raises [re.error] out of validation: it returns no
    result for an expression as plain as [2+2], and for an input with
    unbalanced parentheses the exception is not a [ToolError]. *)
Theorem calculator_raises_on_operators
    (evaluate : string -> exc float)
    (steps : string -> float -> list string) (expression : string) :
  (mentions_operator expression = true ->
     CalculatorTool.execute_expression evaluate steps expression
     = Raises (ReError nothing_to_repeat))
  /\ (PyStr.count_char "(" expression <> PyStr.count_char ")" expression ->
        CalculatorTool.execute_expression evaluate steps expression
        = Raises (ReError nothing_to_repeat)).
Proof.
  assert (H : mentions_operator expression = true ->
     CalculatorTool.execute_expression evaluate steps expression
     = Raises (ReError nothing_to_repeat)).
  { intros Hop. unfold CalculatorTool.execute_expression.
    rewrite (validation_raises _ Hop). reflexivity. }
  split; [exact H|].
  intros Hunb. apply H, unbalanced_mentions_operator, Hunb.
Qed.

Lemma calculator_raises_on_operators_witness :
  CalculatorTool.execute (evaluate_fixed 42%float) no_steps [("expression", VStr "2+2")]
  = Raises (ReError "nothing to repeat at position 1")
  /\ CalculatorTool.execute (evaluate_fixed 42%float) no_steps [("expression", VStr "(2+3")]
     = Raises (ReError "nothing to repeat at position 1").
Proof.
  split.
  - apply (proj1 (calculator_raises_on_operators (evaluate_fixed 42%float) no_steps "2+2")).
    reflexivity.
  - apply (proj2 (calculator_raises_on_operators (evaluate_fixed 42%float) no_steps "(2+3")).
    vm_compute. discriminate.
Defined.

(** Expressions made of numbers only are the ones that pass validation. *)
Lemma calculator_accepts_plain_numbers :
  CalculatorTool.execute (evaluate_fixed 42%float) no_steps [("expression", VStr "42")]
  = Returns [("result", VFloat 42%float); ("steps", VList [])].
Proof. vm_compute. reflexivity. Qed.
(* ===================================================================== *)
(** ** Lookup tool *)
(* ===================================================================== *)

Lemma lookup_type_cases (lookup_type : string) :
  lookup_type = "constant" \/ lookup_type = "formula" ->
  (String.eqb lookup_type "constant" || String.eqb lookup_type "formula") = true
  /\ (collection_of lookup_type = LookupTool.constants
      \/ collection_of lookup_type = LookupTool.formulas).
Proof. intros [->| ->]; split; auto. Qed.

Lemma table_keys_checked (lookup_type k : string) :
  lookup_type = "constant" \/ lookup_type = "formula" ->
  In k (LookupTool.keys (collection_of lookup_type)) ->
  key_checks lookup_type k = true.
Proof.
  intros Ht Hin.
  assert (Hall : forall t, t = "constant" \/ t = "formula" ->
            forallb (key_checks t) (LookupTool.keys (collection_of t)) = true)
    by (intros t [->| ->]; vm_compute; reflexivity).
  pose proof (Hall lookup_type Ht) as H.
  rewrite forallb_forall in H. apply H, Hin.
Qed.

Lemma has_key_In (collection : list (string * pydict)) (key : string) :
  LookupTool.has_key collection key = true <-> In key (LookupTool.keys collection).
Proof.
  unfold LookupTool.has_key. rewrite existsb_exists. split.
  - intros (k & Hin & Heq). apply String.eqb_eq in Heq. subst. exact Hin.
  - intros Hin. exists key. split; [exact Hin|apply String.eqb_refl].
Qed.

(** A key whose best partial score is not above 0.5 has neither an exact nor
    a case-insensitive match, so [_fuzzy_match] finds nothing. *)
Lemma fuzzy_match_below_threshold (key lookup_type : string) :
  lookup_type = "constant" \/ lookup_type = "formula" ->
  PyFloat.gt (best_fuzzy_score key lookup_type) 0.5%float = false ->
  LookupTool._fuzzy_match key (collection_of lookup_type) = (None, 0%float).
Proof.
  intros Ht Hlow. unfold best_fuzzy_score in Hlow.
  unfold LookupTool._fuzzy_match.
  destruct (LookupTool.has_key (collection_of lookup_type) key) eqn:Ehas.
  { exfalso. apply has_key_In in Ehas.
    pose proof (table_keys_checked lookup_type key Ht Ehas) as Hk.
    unfold key_checks in Hk.
    repeat (apply andb_true_iff in Hk as [Hk ?]). congruence. }
  destruct (find _ (LookupTool.keys (collection_of lookup_type))) as [k|] eqn:Efind.
  { exfalso. apply find_some in Efind as [Hin Heq].
    apply String.eqb_eq in Heq.
    pose proof (table_keys_checked lookup_type k Ht Hin) as Hk.
    unfold key_checks in Hk.
    repeat (apply andb_true_iff in Hk as [Hk ?]).
    rewrite Heq in Hk. congruence. }
  cbv zeta. rewrite Hlow, andb_false_r. reflexivity.
Qed.

(** C5. In either table, a key that is present is returned with confidence
    1.0 and the result carries neither [match_confidence] nor
    [original_query]; a key whose best partial-match score is not above 0.5
    makes [execute] raise a [ToolError], which for a key that is not empty is
    the one that reports that no match was found. *)
Theorem lookup_exact_and_below_threshold (key lookup_type : string) :
  lookup_type = "constant" \/ lookup_type = "formula" ->
  (LookupTool.has_key (collection_of lookup_type) key = true ->
     LookupTool._fuzzy_match key (collection_of lookup_type) = (Some key, 1%float)
     /\ exists result,
          LookupTool.execute_lookup key lookup_type = Returns result
          /\ dict_get result "key" = Some (VStr key)
          /\ dict_get result "match_confidence" = None
          /\ dict_get result "original_query" = None)
  /\ (PyFloat.gt (best_fuzzy_score key lookup_type) 0.5%float = false ->
        exists message details,
          LookupTool.execute_lookup key lookup_type = Raises (ToolError message details)
          /\ (key <> "" ->
                message = "No match found for " ++ lookup_type ++ ": " ++ key)).
Proof.
  intros Ht. split.
  - intros Hhas. split.
    + unfold LookupTool._fuzzy_match. rewrite Hhas. reflexivity.
    + pose proof (table_keys_checked lookup_type key Ht (proj1 (has_key_In _ _) Hhas)) as Hk.
      unfold key_checks in Hk.
      apply andb_true_iff in Hk as [Hk _].
      apply andb_true_iff in Hk as [_ Hk].
      destruct (LookupTool.execute_lookup key lookup_type) as [result|]; [|discriminate Hk].
      exists result. split; [reflexivity|].
      destruct (dict_get result "key") as [[| | | |k'| |]|]; try discriminate Hk.
      destruct (dict_get result "match_confidence"); [discriminate Hk|].
      destruct (dict_get result "original_query"); [discriminate Hk|].
      apply String.eqb_eq in Hk. subst k'. repeat split; reflexivity.
  - intros Hlow.
    pose proof (fuzzy_match_below_threshold key lookup_type Ht Hlow) as Hf.
    destruct (lookup_type_cases lookup_type Ht) as [Hvalid _].
    unfold LookupTool.execute_lookup.
    destruct key as [|c key'].
    + do 2 eexists. split; [reflexivity|]. intros H. contradiction H. reflexivity.
    + cbn [PyStr.is_empty]. rewrite Hvalid. cbn [negb].
      fold (collection_of lookup_type). rewrite Hf.
      do 2 eexists. split; [reflexivity|]. intros _. reflexivity.
Qed.

Lemma lookup_exact_and_below_threshold_witness :
  (LookupTool._fuzzy_match "g" LookupTool.constants = (Some "g", 1%float)
   /\ exists result,
        LookupTool.execute_lookup "g" "constant" = Returns result
        /\ dict_get result "key" = Some (VStr "g")
        /\ dict_get result "match_confidence" = None
        /\ dict_get result "original_query" = None)
  /\ exists message details,
       LookupTool.execute_lookup "ohms" "formula" = Raises (ToolError message details)
       /\ ("ohms" <> "" -> message = "No match found for formula: ohms").
Proof.
  split.
  - apply (proj1 (lookup_exact_and_below_threshold "g" "constant" (or_introl eq_refl))).
    reflexivity.
  - apply (proj2 (lookup_exact_and_below_threshold "ohms" "formula" (or_intror eq_refl))).
    reflexivity.
Defined.

(* ===================================================================== *)
(** * Further properties *)
(* ===================================================================== *)

(* ===================================================================== *)
(** ** Session service: reads after writes *)
(* ===================================================================== *)

Lemma update_is_insert (s : gmap string (gmap string value)) (id : string)
    (updates : gmap string value) :
  SessionService.update_session_state s id updates
  = <[id := updates ∪ SessionService.get_session_state s id]> s.
Proof.
  unfold SessionService.update_session_state, SessionService.get_session_state.
  cbv zeta. destruct (s !! id) as [m|] eqn:E.
  - rewrite E. reflexivity.
  - rewrite lookup_insert_eq. simpl. rewrite insert_insert_eq. reflexivity.
Qed.

(** X1. After an update, a key of the updates reads as the updated value, a
    key outside the updates reads as before, and every other session reads
    as before. *)
Theorem update_then_read
    (s : gmap string (gmap string value)) (id id' k : string)
    (updates : gmap string value) :
  let s' := SessionService.update_session_state s id updates in
  (forall v, updates !! k = Some v ->
     SessionService.get_session_state s' id !! k = Some v)
  /\ (updates !! k = None ->
        SessionService.get_session_state s' id !! k
        = SessionService.get_session_state s id !! k)
  /\ (id <> id' ->
        SessionService.get_session_state s' id'
        = SessionService.get_session_state s id').
Proof.
  intros s'. unfold s'. repeat split.
  - intros v Hv. rewrite get_after_update.
    apply lookup_union_Some_l. exact Hv.
  - intros Hk. rewrite get_after_update.
    apply lookup_union_r. exact Hk.
  - intros Hne. apply get_after_update_other. exact Hne.
Qed.

Lemma update_then_read_witness :
  let u : gmap string value := <["last_query" := VStr "q"]> ∅ in
  let s : gmap string (gmap string value) :=
    <["s1" := <["last_agent_used" := VStr "MathAgent"]> ∅]> ∅ in
  let s' := SessionService.update_session_state s "s1" u in
  SessionService.get_session_state s' "s1" !! "last_query" = Some (VStr "q")
  /\ SessionService.get_session_state s' "s1" !! "last_agent_used"
     = SessionService.get_session_state s "s1" !! "last_agent_used"
  /\ SessionService.get_session_state s' "s2"
     = SessionService.get_session_state s "s2".
Proof.
  intros u s s'.
  pose proof (update_then_read s "s1" "s2" "last_query" u) as (H1 & _ & H3).
  pose proof (update_then_read s "s1" "s2" "last_agent_used" u) as (_ & H2 & _).
  split; [apply H1; reflexivity|].
  split; [apply H2; reflexivity|].
  apply H3. discriminate.
Defined.

(** X2. Two updates of a session in a row amount to one update with the
    second mapping laid over the first. *)
Theorem updates_compose
    (s : gmap string (gmap string value)) (id : string)
    (u1 u2 : gmap string value) :
  SessionService.update_session_state
    (SessionService.update_session_state s id u1) id u2
  = SessionService.update_session_state s id (u2 ∪ u1).
Proof.
  rewrite (update_is_insert (SessionService.update_session_state s id u1)).
  rewrite get_after_update.
  rewrite !update_is_insert, insert_insert_eq.
  rewrite (assoc_L (∪)). reflexivity.
Qed.

(** X3. Clearing a session makes it read as the empty mapping, leaves every
    other session as it was, changes nothing when the session does not
    exist, and clearing twice is clearing once. *)
Theorem clear_session_forgets
    (s : gmap string (gmap string value)) (id id' : string) :
  SessionService.get_session_state (SessionService.clear_session s id) id = ∅
  /\ (id <> id' ->
        SessionService.get_session_state (SessionService.clear_session s id) id'
        = SessionService.get_session_state s id')
  /\ (s !! id = None -> SessionService.clear_session s id = s)
  /\ SessionService.clear_session (SessionService.clear_session s id) id
     = SessionService.clear_session s id.
Proof.
  unfold SessionService.clear_session, SessionService.get_session_state.
  destruct (s !! id) as [m|] eqn:E.
  - repeat split.
    + rewrite lookup_delete_eq. reflexivity.
    + intros Hne. rewrite lookup_delete_ne by exact Hne. reflexivity.
    + discriminate.
    + rewrite lookup_delete_eq. reflexivity.
  - repeat split.
    + rewrite E. reflexivity.
    + rewrite E. reflexivity.
Qed.

Lemma clear_session_forgets_witness :
  let s : gmap string (gmap string value) :=
    <["s1" := <["last_query" := VStr "q"]> ∅]> ∅ in
  SessionService.get_session_state (SessionService.clear_session s "s1") "s1" = ∅
  /\ SessionService.get_session_state (SessionService.clear_session s "s1") "s2"
     = SessionService.get_session_state s "s2"
  /\ SessionService.clear_session s "s2" = s.
Proof.
  intros s.
  pose proof (clear_session_forgets s "s1" "s2") as (H1 & H2 & _ & _).
  pose proof (clear_session_forgets s "s2" "s1") as (_ & _ & H3 & _).
  split; [exact H1|]. split; [apply H2; discriminate|].
  apply H3. reflexivity.
Defined.

(* ===================================================================== *)
(** ** Runner: what a run yields *)
(* ===================================================================== *)

Lemma then_trace_one (e : Event) (b : Runner.trace) :
  Runner.then_trace (Runner.one e) b
  = Runner.mkTrace (e :: Runner.events b) (Runner.complete b).
Proof. reflexivity. Qed.

Lemma drive_no_requests (rec : string -> InvocationContext -> Runner.trace)
    (r : Runner.t) (ctx : InvocationContext) (g : Gen) :
  (forall n c, Forall (fun e => is_request e = false) (Runner.events (rec n c))) ->
  Forall (fun e => is_request e = false)
    (Runner.events (Runner.drive rec r ctx g)).
Proof.
  intros Hrec. induction g as [out resume IH| |msg].
  - destruct out as [event|]; [|repeat constructor].
    destruct event; cbn [Runner.drive];
      try (apply then_trace_Forall; [apply one_Forall; reflexivity | apply IH]).
    + apply then_trace_Forall; [apply Hrec | apply IH].
    + apply then_trace_Forall; [|apply IH]. apply one_Forall.
      destruct (Runner.tools r !! tool_name) as [execute|];
        [destruct (execute inputs)|]; reflexivity.
  - constructor.
  - repeat constructor.
Qed.

(** X4. Whatever the agents and the tools, [run_agent] never hands a
    delegation or a tool invocation to its consumer: those events are
    resolved by the runner itself. *)
Theorem run_agent_resolves_requests
    (depth : nat) (r : Runner.t) (agent_name : string) (ctx : InvocationContext) :
  Forall (fun e => is_request e = false)
    (Runner.events (Runner.run_agent depth r agent_name ctx)).
Proof.
  revert agent_name ctx.
  induction depth as [|depth IH]; intros agent_name ctx; [constructor|].
  rewrite run_agent_S.
  destruct (Runner.agents r !! agent_name) as [run|].
  - apply drive_no_requests. exact IH.
  - repeat constructor.
Qed.

(** The loop of [run_agent] over a generator that yields events which are not
    requests hands them on unchanged. *)
Lemma drive_emit_plain (rec : string -> InvocationContext -> Runner.trace)
    (r : Runner.t) (ctx : InvocationContext) (es : list Event) :
  Forall (fun e => is_request e = false) es ->
  Runner.drive rec r ctx (emit es) = Runner.mkTrace es true.
Proof.
  induction 1 as [|e es He _ IH]; [reflexivity|].
  cbn [emit Runner.drive].
  destruct e; try discriminate He; rewrite IH; reflexivity.
Qed.

(* ===================================================================== *)
(** ** Tutor agent: the remaining paths *)
(* ===================================================================== *)

Lemma stage2
    (oracle : string -> list string -> exc TutorAgent.Intent) (q : string) :
  lexical_inconclusive q ->
  TutorAgent._analyze_query_intent oracle q =
    TutorAgent.mkTraced [(q, TutorAgent.available_agents)]
      (oracle q TutorAgent.available_agents).
Proof.
  unfold lexical_inconclusive, lexical_math, lexical_physics,
    TutorAgent.math_count, TutorAgent.physics_count,
    TutorAgent._analyze_query_intent.
  set (m := TutorAgent.keyword_count TutorAgent.math_keywords (PyStr.lower q)).
  set (p := TutorAgent.keyword_count TutorAgent.physics_keywords (PyStr.lower q)).
  intros [Hm Hp]; cbv zeta.
  assert (E1 : (0 <? m)%nat && (2 * p <? m)%nat = false).
  { apply andb_false_iff.
    destruct (Nat.ltb_spec 0 m); [|left; reflexivity].
    destruct (Nat.ltb_spec (2 * p) m); [|right; reflexivity].
    exfalso. apply Hm. split; assumption. }
  assert (E2 : (0 <? p)%nat && (2 * m <? p)%nat = false).
  { apply andb_false_iff.
    destruct (Nat.ltb_spec 0 p); [|left; reflexivity].
    destruct (Nat.ltb_spec (2 * m) p); [|right; reflexivity].
    exfalso. apply Hp. split; assumption. }
  rewrite E1, E2. reflexivity.
Qed.

Lemma run_events_routed
    (oracle : string -> list string -> exc TutorAgent.Intent)
    (ctx : InvocationContext) :
  PyStr.all_space (query ctx) = false ->
  TutorAgent.run_events oracle ctx =
    let a := TutorAgent._analyze_query_intent oracle (query ctx) in
    TutorAgent.mkTraced (TutorAgent.oracle_calls a)
      match
        match TutorAgent.outcome a with
        | Raise msg => Raise msg
        | Ok i =>
            TutorAgent.apply_confidence_thresholds i (request_id ctx) (trace_id ctx)
        end
      with
      | Ok ev => [ev]
      | Raise msg =>
          [ErrorEvent "TUTOR_AGENT_ERROR" ("Error in Tutor Agent: " ++ msg) None
             (request_id ctx) (trace_id ctx)]
      end.
Proof.
  intros Hq. unfold TutorAgent.run_events. rewrite blank_guard, Hq. reflexivity.
Qed.

(** X5. For every context and every oracle the Tutor agent yields exactly one
    event, and that event is a delegation, a clarification, a general
    response or an error. *)
Theorem tutor_yields_exactly_one_event
    (oracle : string -> list string -> exc TutorAgent.Intent)
    (ctx : InvocationContext) :
  exists e,
    TutorAgent.outcome (TutorAgent.run_events oracle ctx) = [e]
    /\ (event_type e = EventType.DELEGATION
        \/ event_type e = EventType.CLARIFICATION
        \/ event_type e = EventType.GENERAL_RESPONSE
        \/ event_type e = EventType.ERROR).
Proof.
  destruct (PyStr.all_space (query ctx)) eqn:Hq.
  - unfold TutorAgent.run_events. rewrite blank_guard, Hq.
    eexists. split; [reflexivity|]. auto.
  - rewrite (run_events_routed oracle ctx Hq). cbv zeta.
    cbn [TutorAgent.outcome].
    destruct (TutorAgent.outcome (TutorAgent._analyze_query_intent oracle (query ctx)))
      as [i|msg]; [|eexists; split; [reflexivity|auto]].
    unfold TutorAgent.apply_confidence_thresholds, make_DelegationEvent.
    destruct (PyNum.number_of (TutorAgent.intent_confidence i)) as [n|msg];
      [|eexists; split; [reflexivity|auto]].
    repeat match goal with
           | |- context [if ?b then _ else _] => destruct b
           end;
      try (eexists; split; [reflexivity|]; simpl; auto; fail).
    destruct (TutorAgent.scores i);
      (eexists; split; [reflexivity|]; simpl; auto).
Qed.

(** X6. The oracle is consulted exactly when the query is not blank and
    stage 1 is inconclusive; it is then consulted once, with the query as it
    was received and the two agent names. *)
Theorem oracle_consulted_once_when_inconclusive
    (oracle : string -> list string -> exc TutorAgent.Intent)
    (ctx : InvocationContext) :
  (PyStr.all_space (query ctx) = false -> lexical_inconclusive (query ctx) ->
     TutorAgent.oracle_calls (TutorAgent.run_events oracle ctx)
     = [(query ctx, ["MathAgent"; "PhysicsAgent"])])
  /\ (PyStr.all_space (query ctx) = true
      \/ lexical_math (query ctx) \/ lexical_physics (query ctx) ->
        TutorAgent.oracle_calls (TutorAgent.run_events oracle ctx) = []).
Proof.
  split.
  - intros Hq Hinc. rewrite (run_events_routed oracle ctx Hq). cbv zeta.
    rewrite (stage2 oracle _ Hinc). reflexivity.
  - intros [Hq|Hlex].
    + unfold TutorAgent.run_events. rewrite blank_guard, Hq. reflexivity.
    + rewrite (run_events_routed oracle ctx (lexical_not_blank _ Hlex)). cbv zeta.
      destruct Hlex as [H|H].
      * rewrite (stage1_math oracle _ H). reflexivity.
      * rewrite (stage1_physics oracle _ H). reflexivity.
Qed.

Lemma oracle_consulted_once_when_inconclusive_witness :
  TutorAgent.oracle_calls
    (TutorAgent.run_events failing_oracle (context_of "Hello there" "r1" "t1"))
  = [("Hello there", ["MathAgent"; "PhysicsAgent"])]
  /\ TutorAgent.oracle_calls
       (TutorAgent.run_events failing_oracle (context_of "What is algebra?" "r1" "t1"))
     = [].
Proof.
  split.
  - apply (proj1 (oracle_consulted_once_when_inconclusive failing_oracle
                    (context_of "Hello there" "r1" "t1"))).
    + reflexivity.
    + split; intros [H _]; apply Nat.ltb_lt in H; discriminate H.
  - apply (proj2 (oracle_consulted_once_when_inconclusive failing_oracle
                    (context_of "What is algebra?" "r1" "t1"))).
    right. left. split; apply Nat.ltb_lt; reflexivity.
Defined.

Lemma lexical_delegation_checked (n : nat) :
  (1 <= n <= 44)%nat -> lexical_delegation_ok n = true.
Proof.
  intros Hn.
  assert (H : forallb lexical_delegation_ok (seq 1 44) = true)
    by (vm_compute; reflexivity).
  rewrite forallb_forall in H. apply H. apply in_seq. lia.
Qed.

Lemma float_eqb_eq (a b : float) :
  PrimFloat.eqb a b = true -> fnan a = false -> Prim2SF b <> S754_zero true ->
  Prim2SF b <> S754_zero false -> a = b.
Proof.
  intros H Hn Hz1 Hz2. rewrite FloatAxioms.eqb_spec in H.
  rewrite <- (SF2Prim_Prim2SF a), <- (SF2Prim_Prim2SF b). f_equal.
  unfold SFeqb, SFcompare, fnan, is_nan in *.
  destruct (Prim2SF a) as [sa|sa| |sa ma ea], (Prim2SF b) as [sb|sb| |sb mb eb];
    try discriminate; try (destruct sb; congruence);
    try (destruct sa, sb; discriminate).
  - destruct sa, sb; try discriminate; reflexivity.
  - destruct sa, sb; try discriminate;
      destruct (Z.compare_spec ea eb); try discriminate; subst;
      change (Pos.compare_cont Eq ma mb) with (Pos.compare ma mb) in H;
      destruct (Pos.compare_spec ma mb); try discriminate; subst; reflexivity.
Qed.

(** The event of a lexical decision with the given winning count. *)
Lemma lexical_event
    (oracle : string -> list string -> exc TutorAgent.Intent)
    (ctx : InvocationContext) (agent : string) (n : nat) (s : value) :
  PyStr.all_space (query ctx) = false ->
  (1 <= n <= 44)%nat ->
  TutorAgent._analyze_query_intent oracle (query ctx) =
    TutorAgent.mkTraced []
      (Ok (TutorAgent.mkIntent agent (VFloat (TutorAgent.lexical_confidence n)) s)) ->
  TutorAgent.outcome (TutorAgent.run_events oracle ctx) =
    [DelegationEvent agent
       (if (3 <=? n)%nat then 0.95%float
        else if (n =? 1)%nat then 0.7999999999999999%float
             else 0.8999999999999999%float)
       (if (3 <=? n)%nat then [("scores", s)]
        else [("scores", s);
              ("ambiguity_note",
               VStr (if (n =? 1)%nat
                     then "This query has elements of multiple subjects. Confidence: 0.80"
                     else "This query has elements of multiple subjects. Confidence: 0.90"))])
       (request_id ctx) (trace_id ctx)].
Proof.
  intros Hq Hn Ha.
  pose proof (lexical_confidence_checked n Hn) as Hok.
  unfold lexical_confidence_ok in Hok.
  repeat (apply andb_true_iff in Hok as [Hok ?]).
  pose proof (lexical_delegation_checked n Hn) as Hd.
  unfold lexical_delegation_ok in Hd.
  rewrite (run_events_routed oracle ctx Hq). cbv zeta. rewrite Ha.
  cbn [TutorAgent.outcome TutorAgent.oracle_calls].
  unfold TutorAgent.apply_confidence_thresholds, TutorAgent.ambiguity_note,
    PyNum.format_2f.
  cbn [TutorAgent.intent_confidence TutorAgent.best_agent TutorAgent.scores
       PyNum.number_of PyNum.ge PyNum.to_float].
  assert (Hnn : fnan (TutorAgent.lexical_confidence n) = false)
    by (apply unit_interval_not_nan; assumption).
  destruct (3 <=? n)%nat.
  - apply andb_true_iff in Hd as [Heq Hhigh].
    apply float_eqb_eq in Heq; [|exact Hnn|discriminate|discriminate].
    rewrite Hhigh, make_DelegationEvent_unit by assumption.
    rewrite Heq. reflexivity.
  - apply andb_true_iff in Hd as [Hd Hdef].
    apply andb_true_iff in Hd as [Heq Hhigh].
    apply negb_true_iff in Hhigh.
    destruct (n =? 1)%nat;
      (apply float_eqb_eq in Heq; [|exact Hnn|discriminate|discriminate]);
      rewrite Hhigh, Hdef, make_DelegationEvent_unit by assumption;
      rewrite Heq; reflexivity.
Qed.

(** X7. On the lexical path the confidence takes three values only.  The
    count [n] of the winning agent is the number of entries of its keyword
    list that occur in the lower-cased query; an entry that is listed twice,
    as [pressure] is in the physics list, counts twice.  With a count of
    three or more the confidence is 0.95 and the delegation carries the
    scores alone; with a count of one it is 0.7999999999999999 and with a
    count of two 0.8999999999999999, both below the high threshold 0.9, and
    the delegation carries an ambiguity note. *)
Theorem lexical_delegation_by_count
    (oracle : string -> list string -> exc TutorAgent.Intent)
    (ctx : InvocationContext) (winner loser : string) (n : nat) :
  (lexical_math (query ctx) /\ n = TutorAgent.math_count (query ctx)
   /\ winner = "MathAgent" /\ loser = "PhysicsAgent")
  \/ (lexical_physics (query ctx) /\ n = TutorAgent.physics_count (query ctx)
      /\ winner = "PhysicsAgent" /\ loser = "MathAgent") ->
  let c := if (3 <=? n)%nat then 0.95%float
           else if (n =? 1)%nat then 0.7999999999999999%float
                else 0.8999999999999999%float in
  let s := VDict [(winner, VFloat (TutorAgent.lexical_confidence n));
                  (loser, VFloat (1 - TutorAgent.lexical_confidence n)%float)] in
  TutorAgent.outcome (TutorAgent.run_events oracle ctx) =
    [DelegationEvent winner c
       (if (3 <=? n)%nat then [("scores", s)]
        else [("scores", s);
              ("ambiguity_note",
               VStr (if (n =? 1)%nat
                     then "This query has elements of multiple subjects. Confidence: 0.80"
                     else "This query has elements of multiple subjects. Confidence: 0.90"))])
       (request_id ctx) (trace_id ctx)].
Proof.
  intros [(H & Hn & -> & ->)|(H & Hn & -> & ->)] c s.
  - assert (Hb : (1 <= n <= 44)%nat).
    { pose proof (math_count_le (query ctx)) as L.
      unfold lexical_math in H. lia. }
    pose proof (stage1_math oracle _ H) as Ha. rewrite <- Hn in Ha.
    exact (lexical_event oracle ctx "MathAgent" n _
             (lexical_not_blank _ (or_introl H)) Hb Ha).
  - assert (Hb : (1 <= n <= 44)%nat).
    { pose proof (physics_count_le (query ctx)) as L.
      unfold lexical_physics in H. lia. }
    pose proof (stage1_physics oracle _ H) as Ha. rewrite <- Hn in Ha.
    exact (lexical_event oracle ctx "PhysicsAgent" n _
             (lexical_not_blank _ (or_intror H)) Hb Ha).
Qed.

Lemma lexical_delegation_by_count_witness :
  TutorAgent.outcome
    (TutorAgent.run_events failing_oracle
       (context_of "Solve the equation" "r1" "t1"))
  = [DelegationEvent "MathAgent" 0.8999999999999999%float
       [("scores",
         VDict [("MathAgent", VFloat 0.8999999999999999%float);
                ("PhysicsAgent", VFloat (1 - 0.8999999999999999)%float)]);
        ("ambiguity_note",
         VStr "This query has elements of multiple subjects. Confidence: 0.90")]
       "r1" "t1"].
Proof.
  apply (lexical_delegation_by_count failing_oracle
           (context_of "Solve the equation" "r1" "t1")
           "MathAgent" "PhysicsAgent" 2).
  left. repeat split; apply Nat.ltb_lt; reflexivity.
Defined.

Lemma leb_trans (a b c : float) :
  PrimFloat.leb a b = true -> PrimFloat.leb b c = true -> PrimFloat.leb a c = true.
Proof.
  rewrite !leb_rank. unfold lex_le.
  destruct (frank a) as [[a1 a2] a3], (frank b) as [[b1 b2] b3],
           (frank c) as [[c1 c2] c3].
  intros (? & ? & ?) (? & ? & ?). repeat split; auto; lia.
Qed.

(** X8. A float confidence above 1 cannot be put into a [DelegationEvent],
    whose validator bounds it by 1: for a query that is not blank and an
    intent with such a confidence the Tutor agent yields
    [Error TUTOR_AGENT_ERROR] instead of a delegation. *)
Theorem overconfident_intent_is_an_error
    (oracle : string -> list string -> exc TutorAgent.Intent)
    (ctx : InvocationContext) (i : TutorAgent.Intent) (c : float) :
  PyStr.all_space (query ctx) = false ->
  TutorAgent.outcome (TutorAgent._analyze_query_intent oracle (query ctx)) = Ok i ->
  TutorAgent.intent_confidence i = VFloat c ->
  PyFloat.gt c 1%float = true ->
  exists msg,
    TutorAgent.outcome (TutorAgent.run_events oracle ctx) =
      [ErrorEvent "TUTOR_AGENT_ERROR" ("Error in Tutor Agent: " ++ msg) None
         (request_id ctx) (trace_id ctx)].
Proof.
  intros Hq Hi Hc Hgt.
  rewrite (run_events_routed oracle ctx Hq). cbv zeta.
  cbn [TutorAgent.outcome]. rewrite Hi.
  assert (H1 : PrimFloat.leb c 1 = false).
  { destruct (PrimFloat.leb c 1) eqn:E; [|reflexivity].
    unfold PyFloat.gt in Hgt. apply ltb_rank in Hgt. apply leb_rank in E.
    unfold lex_lt, lex_le in *.
    destruct (frank c) as [[c1 c2] c3], (frank 1) as [[o1 o2] o3].
    destruct Hgt as (_ & _ & Hgt), E as (_ & _ & E). lia. }
  assert (Hle : forall t, PrimFloat.leb t 1 = true -> PyFloat.ge c t = true).
  { intros t Ht. unfold PyFloat.ge, PyFloat.gt in *.
    apply ltb_rank in Hgt. apply leb_rank in Ht. apply leb_rank.
    unfold lex_lt, lex_le in *.
    destruct (frank c) as [[c1 c2] c3], (frank 1) as [[o1 o2] o3],
             (frank t) as [[t1 t2] t3].
    destruct Hgt as (? & ? & ?), Ht as (? & ? & ?). repeat split; auto; lia. }
  unfold TutorAgent.apply_confidence_thresholds. rewrite Hc.
  cbn [PyNum.number_of PyNum.ge PyNum.to_float].
  rewrite (Hle TutorAgent.high_confidence eq_refl).
  unfold make_DelegationEvent.
  rewrite (Hle 0%float eq_refl), H1. cbn [negb].
  eexists. reflexivity.
Qed.

Lemma overconfident_intent_is_an_error_witness :
  exists msg,
    TutorAgent.outcome
      (TutorAgent.run_events
         (oracle_fixed (TutorAgent.mkIntent "MathAgent" (VFloat 1.5%float) (VDict [])))
         (context_of "Hello there" "r1" "t1"))
    = [ErrorEvent "TUTOR_AGENT_ERROR" ("Error in Tutor Agent: " ++ msg) None "r1" "t1"].
Proof.
  apply (overconfident_intent_is_an_error
           (oracle_fixed (TutorAgent.mkIntent "MathAgent" (VFloat 1.5%float) (VDict [])))
           (context_of "Hello there" "r1" "t1")
           (TutorAgent.mkIntent "MathAgent" (VFloat 1.5%float) (VDict []))
           1.5%float);
    reflexivity.
Defined.
(* ===================================================================== *)
(** ** process_query from end to end *)
(* ===================================================================== *)

Lemma tutor_run_plain
    (oracle : string -> list string -> exc TutorAgent.Intent)
    (depth : nat) (r : Runner.t) (ctx : InvocationContext) (e : Event) :
  Runner.agents r !! "TutorAgent" = Some (TutorAgent.run oracle) ->
  TutorAgent.outcome (TutorAgent.run_events oracle ctx) = [e] ->
  is_request e = false ->
  Runner.run_agent (S depth) r "TutorAgent" ctx = Runner.mkTrace [e] true.
Proof.
  intros Hreg He Hplain. rewrite run_agent_S, Hreg.
  unfold TutorAgent.run. rewrite He.
  apply drive_emit_plain. constructor; [exact Hplain|constructor].
Qed.

Lemma process_query_unfold (depth : nat) (r : Runner.t)
    (s : gmap string (gmap string value)) (q : string)
    (session_id : option string) :
  Runner.process_query depth r s q session_id =
    let key := Runner.session_key r session_id in
    let ctx := Runner.initial_context r s q session_id in
    let tr := Runner.run_agent depth r "TutorAgent" ctx in
    match Runner.scan (Runner.events tr) with
    | Runner.FoundError error_code error_message =>
        Some (Raise (error_code ++ ": " ++ error_message), s)
    | Runner.FoundFinal final_response agent_used tool_used tool_results =>
        let s' := Runner.remember s key q (VStr final_response) agent_used in
        if PyStr.is_empty final_response
        then Some (Raise "No final response was generated", s')
        else Some (Ok (Runner.mkResponse final_response agent_used tool_used
                         tool_results), s')
    | Runner.Exhausted =>
        if Runner.complete tr
        then Some (Raise "No final response was generated",
                   Runner.remember s key q VNone "TutorAgent")
        else None
    end.
Proof. reflexivity. Qed.

(** X9. An empty or blank query makes [process_query] raise
    [EMPTY_QUERY: Query cannot be empty]; a failure of the oracle when
    stage 1 is inconclusive makes it raise the wrapped
    [TUTOR_AGENT_ERROR]; in both cases the session store is left as it
    was. *)
Theorem tutor_errors_fail_the_call
    (oracle : string -> list string -> exc TutorAgent.Intent)
    (depth : nat) (r : Runner.t) (s : gmap string (gmap string value))
    (q : string) (session_id : option string) :
  Runner.agents r !! "TutorAgent" = Some (TutorAgent.run oracle) ->
  (PyStr.all_space q = true ->
     Runner.process_query (S depth) r s q session_id
     = Some (Raise "EMPTY_QUERY: Query cannot be empty", s))
  /\ (forall msg,
        PyStr.all_space q = false -> lexical_inconclusive q ->
        oracle q TutorAgent.available_agents = Raise msg ->
        Runner.process_query (S depth) r s q session_id
        = Some (Raise ("TUTOR_AGENT_ERROR: Error in Tutor Agent: " ++ msg), s)).
Proof.
  intros Hreg. split.
  - intros Hq. rewrite process_query_unfold. cbv zeta.
    rewrite (tutor_run_plain oracle depth r _
               (ErrorEvent "EMPTY_QUERY" "Query cannot be empty" None
                  (Runner.runner_request_id r) (Runner.runner_trace_id r)) Hreg);
      [reflexivity| |reflexivity].
    unfold TutorAgent.run_events, Runner.initial_context. cbn [query].
    rewrite blank_guard, Hq. reflexivity.
  - intros msg Hq Hinc Horacle. rewrite process_query_unfold. cbv zeta.
    rewrite (tutor_run_plain oracle depth r _
               (ErrorEvent "TUTOR_AGENT_ERROR" ("Error in Tutor Agent: " ++ msg) None
                  (Runner.runner_request_id r) (Runner.runner_trace_id r)) Hreg);
      [reflexivity| |reflexivity].
    rewrite run_events_routed by exact Hq. cbv zeta.
    unfold Runner.initial_context. cbn [query].
    rewrite (stage2 oracle q Hinc), Horacle. reflexivity.
Qed.

Lemma tutor_errors_fail_the_call_witness :
  let s : gmap string (gmap string value) :=
    <["s1" := <["last_query" := VStr "earlier"]> ∅]> ∅ in
  Runner.process_query 1 (tutor_only_runner "r1" "t1") s "   " (Some "s1")
  = Some (Raise "EMPTY_QUERY: Query cannot be empty", s)
  /\ Runner.process_query 1 (tutor_only_runner "r1" "t1") s "Hello there" (Some "s1")
     = Some (Raise ("TUTOR_AGENT_ERROR: Error in Tutor Agent: "
                    ++ "Failed to analyze query intent: unavailable"), s).
Proof.
  intros s. split.
  - apply (proj1 (tutor_errors_fail_the_call failing_oracle 0
                    (tutor_only_runner "r1" "t1") s "   " (Some "s1") eq_refl)).
    reflexivity.
  - apply (proj2 (tutor_errors_fail_the_call failing_oracle 0
                    (tutor_only_runner "r1" "t1") s "Hello there" (Some "s1") eq_refl)).
    + reflexivity.
    + split; intros [H _]; apply Nat.ltb_lt in H; discriminate H.
    + reflexivity.
Defined.

Lemma int_ge_mono (z : Z) :
  PyNum.int_ge_float z TutorAgent.high_confidence = true ->
  PyNum.int_ge_float z TutorAgent.default_confidence = true.
Proof.
  unfold PyNum.int_ge_float.
  set (h := Prim2SF TutorAgent.high_confidence).
  set (d := Prim2SF TutorAgent.default_confidence).
  vm_compute in h, d. subst h d. cbv iota beta.
  change (0 <=? -53)%Z with false. cbv iota.
  rewrite !Z.leb_le. lia.
Qed.

Lemma below_default_below_high (n : PyNum.number) :
  PyNum.ge n TutorAgent.default_confidence = false ->
  PyNum.ge n TutorAgent.high_confidence = false.
Proof.
  intros H. destruct (PyNum.ge n TutorAgent.high_confidence) eqn:E; [|reflexivity].
  destruct n as [z|c]; cbn [PyNum.ge] in *.
  - rewrite (int_ge_mono z E) in H. discriminate H.
  - unfold PyFloat.ge in *.
    rewrite (leb_trans TutorAgent.default_confidence TutorAgent.high_confidence c
               eq_refl E) in H.
    discriminate H.
Qed.

(** X10. When the confidence is a number that does not reach the default
    threshold, the call fails and no answer of the Tutor agent reaches the
    caller.  Below the low threshold, and from the low threshold on when the
    scores are a mapping, the agent yields the decline message or a
    clarification, and [process_query] raises
    [No final response was generated]; yet it writes to the session: the
    record of the query with no response and the Tutor agent as the agent
    used.  From the low threshold on when the scores are not a mapping, the
    loop over [scores.items()] raises, [process_query] raises the wrapped
    [TUTOR_AGENT_ERROR] and the session store is left as it was. *)
Theorem low_confidence_fails_the_call
    (oracle : string -> list string -> exc TutorAgent.Intent)
    (depth : nat) (r : Runner.t) (s : gmap string (gmap string value))
    (q : string) (session_id : option string) (i : TutorAgent.Intent)
    (n : PyNum.number) :
  Runner.agents r !! "TutorAgent" = Some (TutorAgent.run oracle) ->
  PyStr.all_space q = false ->
  TutorAgent.outcome (TutorAgent._analyze_query_intent oracle q) = Ok i ->
  PyNum.number_of (TutorAgent.intent_confidence i) = Ok n ->
  PyNum.ge n TutorAgent.default_confidence = false ->
  let no_response :=
    Some (Raise "No final response was generated",
          match Runner.session_key r session_id with
          | Some id =>
              SessionService.update_session_state s id
                (session_record q VNone "TutorAgent")
          | None => s
          end) in
  Runner.process_query (S depth) r s q session_id
  = if PyNum.ge n TutorAgent.low_confidence then
      match TutorAgent.scores i with
      | VDict _ => no_response
      | other =>
          Some (Raise ("TUTOR_AGENT_ERROR: Error in Tutor Agent: '"
                       ++ type_name other
                       ++ "' object has no attribute 'items'"), s)
      end
    else no_response.
Proof.
  intros Hreg Hq Hi Hnum Hlow no_response.
  pose proof (below_default_below_high _ Hlow) as Hhigh.
  rewrite process_query_unfold. cbv zeta.
  set (ctx := Runner.initial_context r s q session_id).
  assert (Hrun : TutorAgent.outcome (TutorAgent.run_events oracle ctx) =
            match TutorAgent.apply_confidence_thresholds i
                    (request_id ctx) (trace_id ctx) with
            | Ok ev => [ev]
            | Raise msg =>
                [ErrorEvent "TUTOR_AGENT_ERROR" ("Error in Tutor Agent: " ++ msg)
                   None (request_id ctx) (trace_id ctx)]
            end).
  { rewrite run_events_routed by exact Hq. cbv zeta.
    cbn [TutorAgent.outcome]. change (query ctx) with q. rewrite Hi.
    reflexivity. }
  unfold TutorAgent.apply_confidence_thresholds in Hrun.
  rewrite Hnum, Hhigh, Hlow in Hrun.
  assert (Hplain : forall e,
            TutorAgent.outcome (TutorAgent.run_events oracle ctx) = [e] ->
            is_request e = false ->
            Runner.run_agent (S depth) r "TutorAgent" ctx = Runner.mkTrace [e] true)
    by (intros e; apply tutor_run_plain; exact Hreg).
  destruct (PyNum.ge n TutorAgent.low_confidence).
  - destruct (TutorAgent.scores i);
      rewrite (Hplain _ Hrun eq_refl); reflexivity.
  - rewrite (Hplain _ Hrun eq_refl). reflexivity.
Qed.

Lemma low_confidence_fails_the_call_witness :
  let asks := oracle_fixed (TutorAgent.mkIntent "MathAgent" (VFloat 0.6%float)
                              (VDict [("MathAgent", VFloat 0.6%float);
                                      ("PhysicsAgent", VFloat 0.4%float)])) in
  let fails := oracle_fixed (TutorAgent.mkIntent "MathAgent" (VFloat 0.6%float) VNone) in
  let runner oracle :=
    Runner.mkRunner (<["TutorAgent" := TutorAgent.run oracle]> ∅) ∅ true "r1" "t1" in
  Runner.process_query 1 (runner asks) ∅ "Hello there" (Some "s1")
  = Some (Raise "No final response was generated",
          SessionService.update_session_state ∅ "s1"
            (session_record "Hello there" VNone "TutorAgent"))
  /\ Runner.process_query 1 (runner fails) ∅ "Hello there" (Some "s1")
     = Some (Raise ("TUTOR_AGENT_ERROR: Error in Tutor Agent: "
                    ++ "'NoneType' object has no attribute 'items'"), ∅).
Proof.
  intros asks fails runner. split.
  - apply (low_confidence_fails_the_call asks 0 (runner asks) ∅ "Hello there"
             (Some "s1")
             (TutorAgent.mkIntent "MathAgent" (VFloat 0.6%float)
                (VDict [("MathAgent", VFloat 0.6%float);
                        ("PhysicsAgent", VFloat 0.4%float)]))
             (PyNum.Float 0.6%float));
      reflexivity.
  - apply (low_confidence_fails_the_call fails 0 (runner fails) ∅ "Hello there"
             (Some "s1")
             (TutorAgent.mkIntent "MathAgent" (VFloat 0.6%float) VNone)
             (PyNum.Float 0.6%float));
      reflexivity.
Defined.

(* ===================================================================== *)
(** ** Math agent under the runner *)
(* ===================================================================== *)

Lemma math_run_without_calculation
    (extract : string -> option string) (format : string -> string)
    (generate : string -> option pydict -> exc string)
    (depth : nat) (r : Runner.t) (ctx : InvocationContext) :
  Runner.agents r !! "MathAgent" = Some (MathAgent.run extract format generate) ->
  extract (query ctx) = None ->
  Runner.run_agent (S depth) r "MathAgent" ctx =
    Runner.mkTrace
      [match generate (query ctx) None with
       | Ok text =>
           FinalResponseEvent text "MathAgent" None None
             (request_id ctx) (trace_id ctx)
       | Raise msg =>
           ErrorEvent "MATH_AGENT_ERROR" ("Error in Math Agent: " ++ msg) None
             (request_id ctx) (trace_id ctx)
       end] true.
Proof.
  intros Hreg Hex. rewrite run_agent_S, Hreg.
  unfold MathAgent.run, MathAgent._needs_calculation. rewrite Hex.
  unfold MathAgent.respond, MathAgent.on_error.
  destruct (generate (query ctx) None); reflexivity.
Qed.

Lemma math_run_with_calculation
    (extract : string -> option string) (format : string -> string)
    (generate : string -> option pydict -> exc string)
    (depth : nat) (r : Runner.t) (ctx : InvocationContext) (expression : string) :
  Runner.agents r !! "MathAgent" = Some (MathAgent.run extract format generate) ->
  extract (query ctx) = Some expression ->
  exists first,
    Runner.run_agent (S depth) r "MathAgent" ctx =
      Runner.mkTrace
        [first;
         ErrorEvent "AGENT_EXECUTION_ERROR"
           "Agent execution failed: 'NoneType' object has no attribute 'event_type'"
           None (Runner.runner_request_id r) (Runner.runner_trace_id r)]
        true
    /\ (event_type first = EventType.TOOL_RESULT
        \/ event_type first = EventType.ERROR).
Proof.
  intros Hreg Hex. rewrite run_agent_S, Hreg.
  unfold MathAgent.run, MathAgent._needs_calculation. rewrite Hex.
  cbn [Runner.drive].
  destruct (Runner.tools r !! "CalculatorTool") as [execute|].
  - destruct (execute _); eexists; split; try reflexivity; left; reflexivity.
  - eexists; split; [reflexivity|right; reflexivity].
Qed.

(** X11. Run by the runner, the math agent produces a final response exactly
    when it finds no expression to calculate in the query and the oracle
    answers; the response then names no tool.  Whenever it finds an
    expression, the run ends with an error and without a final response,
    whether or not the calculator is registered and whatever it returns. *)
Theorem math_agent_answers_only_without_calculation
    (extract : string -> option string) (format : string -> string)
    (generate : string -> option pydict -> exc string)
    (depth : nat) (r : Runner.t) (ctx : InvocationContext) :
  Runner.agents r !! "MathAgent" = Some (MathAgent.run extract format generate) ->
  let found :=
    Runner.scan (Runner.events (Runner.run_agent (S depth) r "MathAgent" ctx)) in
  (forall text,
     extract (query ctx) = None -> generate (query ctx) None = Ok text ->
     found = Runner.FoundFinal text "MathAgent" None None)
  /\ (forall expression,
        extract (query ctx) = Some expression ->
        exists code msg, found = Runner.FoundError code msg)
  /\ (forall text agent tool results,
        found = Runner.FoundFinal text agent tool results ->
        extract (query ctx) = None /\ generate (query ctx) None = Ok text).
Proof.
  intros Hreg found. unfold found. split; [|split].
  - intros text Hex Hgen.
    rewrite (math_run_without_calculation _ _ _ _ _ _ Hreg Hex), Hgen. reflexivity.
  - intros expression Hex.
    destruct (math_run_with_calculation _ _ _ depth _ _ _ Hreg Hex)
      as (first & -> & [H|H]);
      destruct first; try discriminate H; cbn; eauto.
  - intros text agent tool results Hfound.
    destruct (extract (query ctx)) as [expression|] eqn:Hex.
    + exfalso.
      destruct (math_run_with_calculation _ _ _ depth _ _ _ Hreg Hex)
        as (first & Hrun & [Hf|Hf]);
        rewrite Hrun in Hfound; destruct first; discriminate.
    + split; [reflexivity|].
      rewrite (math_run_without_calculation _ _ _ _ _ _ Hreg Hex) in Hfound.
      destruct (generate (query ctx) None); [|discriminate Hfound].
      cbn in Hfound. congruence.
Qed.

Lemma math_agent_answers_only_without_calculation_witness :
  Runner.scan
    (Runner.events
       (Runner.run_agent 1 (tutoring_runner None "r1" "t1") "MathAgent"
          (context_of "Explain algebra" "r1" "t1")))
  = Runner.FoundFinal "explanation" "MathAgent" None None
  /\ exists code msg,
       Runner.scan
         (Runner.events
            (Runner.run_agent 1 (tutoring_runner (Some "2+2") "r1" "t1") "MathAgent"
               (context_of "calculate 2+2" "r1" "t1")))
       = Runner.FoundError code msg.
Proof.
  split.
  - apply (proj1 (math_agent_answers_only_without_calculation
                    (extract_fixed None) format_identity respond_fixed 0
                    (tutoring_runner None "r1" "t1")
                    (context_of "Explain algebra" "r1" "t1") eq_refl));
      reflexivity.
  - apply (proj1 (proj2 (math_agent_answers_only_without_calculation
                    (extract_fixed (Some "2+2")) format_identity respond_fixed 0
                    (tutoring_runner (Some "2+2") "r1" "t1")
                    (context_of "calculate 2+2" "r1" "t1") eq_refl)) "2+2").
    reflexivity.
Defined.

(* ===================================================================== *)
(** ** process_query: the successful call *)
(* ===================================================================== *)

Lemma delegation_is_followed
    (rec : string -> InvocationContext -> Runner.trace) (r : Runner.t)
    (ctx : InvocationContext) (target : string) (c : float) (d : pydict)
    (rid tid : string) :
  Runner.drive rec r ctx (emit [DelegationEvent target c d rid tid])
  = Runner.then_trace
      (rec target
         (mkContext (query ctx) (request_id ctx) (session_id ctx) (trace_id ctx)
            (session_state ctx) (metadata ctx) d))
      (Runner.mkTrace [] true).
Proof. reflexivity. Qed.

Lemma then_trace_done (a : Runner.trace) :
  Runner.complete a = true ->
  Runner.then_trace a (Runner.mkTrace [] true) = a.
Proof.
  intros H. unfold Runner.then_trace. rewrite H. destruct a as [es c].
  simpl in *. subst c. rewrite app_nil_r. reflexivity.
Qed.

(** X12. A math question without an expression to calculate, decided by
    stage 1, is answered: [process_query] returns the oracle's text with
    [MathAgent] as the agent used and no tool, and the session given by a
    non-empty id then holds the query, that text and the agent's name. *)
Theorem math_question_is_answered
    (oracle : string -> list string -> exc TutorAgent.Intent)
    (extract : string -> option string) (format : string -> string)
    (generate : string -> option pydict -> exc string)
    (depth : nat) (r : Runner.t) (s : gmap string (gmap string value))
    (q text : string) (session_id : option string) :
  Runner.agents r !! "TutorAgent" = Some (TutorAgent.run oracle) ->
  Runner.agents r !! "MathAgent" = Some (MathAgent.run extract format generate) ->
  lexical_math q ->
  extract q = None ->
  generate q None = Ok text ->
  text <> "" ->
  Runner.process_query (S (S depth)) r s q session_id
  = Some (Ok (Runner.mkResponse text "MathAgent" None None),
          match Runner.session_key r session_id with
          | Some id =>
              SessionService.update_session_state s id
                (session_record q (VStr text) "MathAgent")
          | None => s
          end).
Proof.
  intros Htutor Hmath Hlex Hex Hgen Htext.
  rewrite process_query_unfold. cbv zeta.
  set (ctx := Runner.initial_context r s q session_id).
  assert (Hn : (1 <= TutorAgent.math_count q <= 44)%nat).
  { pose proof (math_count_le q) as L. unfold lexical_math in Hlex. lia. }
  destruct (lexical_intent_delegates oracle ctx _ _ _
              (lexical_not_blank _ (or_introl Hlex)) Hn (stage1_math oracle _ Hlex))
    as (c & d & Hrun & _).
  rewrite run_agent_S, Htutor. unfold TutorAgent.run. rewrite Hrun.
  cbn [TutorAgent.outcome]. rewrite delegation_is_followed.
  subst ctx. unfold Runner.initial_context.
  cbn [query request_id trace_id session_state metadata].
  rewrite (math_run_without_calculation extract format generate depth r _ Hmath)
    by exact Hex.
  cbn [query]. rewrite Hgen.
  rewrite then_trace_done by reflexivity.
  cbn [Runner.events Runner.scan].
  destruct text as [|ch text']; [contradiction Htext; reflexivity|].
  reflexivity.
Qed.

Lemma math_question_is_answered_witness :
  Runner.process_query 2 (tutoring_runner None "r1" "t1") ∅
    "Explain algebra" (Some "s1")
  = Some (Ok (Runner.mkResponse "explanation" "MathAgent" None None),
          SessionService.update_session_state ∅ "s1"
            (session_record "Explain algebra" (VStr "explanation") "MathAgent")).
Proof.
  apply (math_question_is_answered failing_oracle (extract_fixed None)
           format_identity respond_fixed 0 (tutoring_runner None "r1" "t1") ∅
           "Explain algebra" "explanation" (Some "s1"));
    try reflexivity.
  - split; apply Nat.ltb_lt; reflexivity.
  - discriminate.
Defined.

(** X13. [process_query] writes to no session when it is given no session
    id or an empty one, or when the runner has no session service; given a
    session id it leaves every other session as it was. *)
Theorem process_query_touches_only_its_session
    (depth : nat) (r : Runner.t) (s s' : gmap string (gmap string value))
    (q : string) (session_id : option string) (result : exc Runner.response) :
  Runner.process_query depth r s q session_id = Some (result, s') ->
  (Runner.session_key r session_id = None -> s' = s)
  /\ (forall id id',
        session_id = Some id -> id <> id' ->
        SessionService.get_session_state s' id'
        = SessionService.get_session_state s id').
Proof.
  intros H. rewrite process_query_unfold in H. cbv zeta in H.
  assert (Hrem : forall resp agent,
            (Runner.session_key r session_id = None ->
               Runner.remember s (Runner.session_key r session_id) q resp agent = s)
            /\ (forall id id',
                  session_id = Some id -> id <> id' ->
                  SessionService.get_session_state
                    (Runner.remember s (Runner.session_key r session_id) q resp agent) id'
                  = SessionService.get_session_state s id')).
  { intros resp agent. split.
    - intros ->. reflexivity.
    - intros id id' -> Hne. unfold Runner.session_key, Runner.remember.
      destruct (Runner.has_session_service r && negb (PyStr.is_empty id));
        [|reflexivity].
      apply get_after_update_other. exact Hne. }
  destruct (Runner.scan _) as [resp agent tool res|code msg|].
  - destruct (PyStr.is_empty resp); inversion H; subst; apply Hrem.
  - inversion H; subst. split; reflexivity.
  - destruct (Runner.complete _); [|discriminate H].
    inversion H; subst; apply Hrem.
Qed.

Lemma process_query_touches_only_its_session_witness :
  let s : gmap string (gmap string value) :=
    <["s2" := <["last_query" := VStr "earlier"]> ∅]> ∅ in
  let s' := SessionService.update_session_state s "s1"
              (session_record "Explain algebra" (VStr "explanation") "MathAgent") in
  SessionService.get_session_state s' "s2" = SessionService.get_session_state s "s2".
Proof.
  intros s s'.
  refine (proj2 (process_query_touches_only_its_session 2
                   (tutoring_runner None "r1" "t1") s s' "Explain algebra"
                   (Some "s1") (Ok (Runner.mkResponse "explanation" "MathAgent" None None))
                   _) "s1" "s2" eq_refl _).
  - vm_compute. reflexivity.
  - discriminate.
Defined.

(* ===================================================================== *)
(** ** Calculator tool: what validation accepts *)
(* ===================================================================== *)

Lemma matches_plus_cons (a : Re.atom) (r : list Re.item) (c : N) (t : list N)
    (b : bool) :
  Re.matches (Re.Plus a :: r) (c :: t) b
  = Re.sat a c && (Re.matches (Re.Plus a :: r) t false || Re.matches r t false).
Proof. reflexivity. Qed.

Lemma matches_one_cons (a : Re.atom) (r : list Re.item) (c : N) (t : list N)
    (b : bool) :
  Re.matches (Re.One a :: r) (c :: t) b = Re.sat a c && Re.matches r t false.
Proof. reflexivity. Qed.

Lemma matches_plus_nil (a : Re.atom) (r : list Re.item) (b : bool) :
  Re.matches (Re.Plus a :: r) [] b = false.
Proof. reflexivity. Qed.

Lemma mentions_letter_bytes (s : string) :
  mentions_letter s = some_byte PyStr.is_alpha s.
Proof.
  induction s as [|c t IH]; [reflexivity|].
  cbn [mentions_letter some_byte]. rewrite IH. reflexivity.
Qed.

Lemma mentions_letter_chars (s : string) :
  mentions_letter s = existsb CalculatorTool.letter_char (PyStr.chars s).
Proof.
  rewrite mentions_letter_bytes. apply some_byte_chars.
  - intros b. destruct b as [[] [] [] [] [] [] [] []]; vm_compute; intros H;
      (reflexivity || discriminate H).
  - intros b Hb. unfold CalculatorTool.letter_char, is_ascii in *.
    cbn [fst]. rewrite Hb. unfold PyStr.byte. rewrite ascii_N_embedding.
    reflexivity.
  - intros c Hc. unfold CalculatorTool.letter_char.
    assert (E : (fst c <? 0x80)%N = false) by (apply N.ltb_ge; exact Hc).
    rewrite E. reflexivity.
Qed.

(** A decimal digit is no letter, no operator and no dot, and a letter is
    no digit, no operator, no dot and no newline. *)
Lemma digit_not_letter (c : N * string) :
  CalculatorTool.digit_char c = true ->
  CalculatorTool.letter_char c = false /\ CalculatorTool.operator_char c = false
  /\ CalculatorTool.dot_char c = false.
Proof.
  destruct c as [cp bytes].
  unfold CalculatorTool.digit_char, CalculatorTool.letter_char,
    CalculatorTool.operator_char, CalculatorTool.dot_char. cbn [fst].
  destruct (cp <? 0x80)%N eqn:E.
  - rewrite (ascii_code cp E). clear E.
    destruct (ascii_of_N cp) as [[] [] [] [] [] [] [] []]; vm_compute; intros H;
      (discriminate H || (repeat split; reflexivity)).
  - intros _. repeat split.
    destruct (N.eqb_spec cp 0x2E) as [->|_]; [discriminate E|reflexivity].
Qed.

Lemma letter_is_special (c : N * string) :
  CalculatorTool.letter_char c = true ->
  CalculatorTool.digit_char c = false /\ CalculatorTool.operator_char c = false
  /\ CalculatorTool.dot_char c = false /\ (fst c =? 10)%N = false.
Proof.
  destruct c as [cp bytes].
  unfold CalculatorTool.digit_char, CalculatorTool.letter_char,
    CalculatorTool.operator_char, CalculatorTool.dot_char. cbn [fst].
  intros H. apply andb_true_iff in H as [E H].
  rewrite (ascii_code cp E). clear E. revert H.
  destruct (ascii_of_N cp) as [[] [] [] [] [] [] [] []]; vm_compute; intros H;
    (discriminate H || (repeat split; reflexivity)).
Qed.

Lemma int_pattern_matches (ds : list (N * string)) (b : bool) :
  digits ds = true ->
  Re.matches [Re.Plus Re.Digit; Re.AtEnd] (CalculatorTool.codes ds) b = true.
Proof.
  revert b.
  induction ds as [|c t IH]; intros b H; [discriminate H|].
  cbn [digits forallb] in H. apply andb_true_iff in H as [Hc Ht].
  cbn [CalculatorTool.codes map]. rewrite matches_plus_cons. cbn [Re.sat].
  unfold CalculatorTool.digit_char in Hc. rewrite Hc.
  destruct t as [|c' t']; [reflexivity|].
  fold (CalculatorTool.codes (c' :: t')).
  rewrite (IH false); [reflexivity|]. exact Ht.
Qed.

Lemma frac_pattern_matches (ds fs : list (N * string)) (dot : N * string)
    (b : bool) :
  digits ds = true -> CalculatorTool.dot_char dot = true -> digits fs = true ->
  Re.matches [Re.Plus Re.Digit; Re.One (Re.Lit "."); Re.Plus Re.Digit; Re.AtEnd]
    (CalculatorTool.codes (ds ++ dot :: fs)) b = true.
Proof.
  intros Hds Hdot Hfs. revert b Hds.
  induction ds as [|c t IH]; intros b H; [discriminate H|].
  cbn [digits forallb] in H. apply andb_true_iff in H as [Hc Ht].
  change (CalculatorTool.codes ((c :: t) ++ dot :: fs))
    with (fst c :: CalculatorTool.codes (t ++ dot :: fs)).
  rewrite matches_plus_cons. cbn [Re.sat].
  unfold CalculatorTool.digit_char in Hc. rewrite Hc.
  destruct t as [|c' t'].
  - change (CalculatorTool.codes ([] ++ dot :: fs))
      with (fst dot :: CalculatorTool.codes fs).
    rewrite matches_one_cons, (int_pattern_matches fs false Hfs).
    cbn [Re.sat]. unfold CalculatorTool.dot_char in Hdot.
    change (PyStr.byte ".") with 0x2E%N. rewrite Hdot, orb_true_r. reflexivity.
  - rewrite (IH false); [reflexivity|exact Ht].
Qed.

Lemma is_number_unfold (token : list (N * string)) :
  CalculatorTool.is_number token =
    if Re.matches [Re.Plus Re.Digit; Re.AtEnd] (CalculatorTool.codes token) true
    then Returns true
    else Returns (Re.matches [Re.Plus Re.Digit; Re.One (Re.Lit "."); Re.Plus Re.Digit;
                              Re.AtEnd] (CalculatorTool.codes token) true).
Proof.
  unfold CalculatorTool.is_number, Re.match_.
  change (Re.compile "^\d+$")
    with (Re.Compiled [Re.AtBegin; Re.Plus Re.Digit; Re.AtEnd]).
  change (Re.compile "^\d+\.\d+$")
    with (Re.Compiled [Re.AtBegin; Re.Plus Re.Digit; Re.One (Re.Lit ".");
                       Re.Plus Re.Digit; Re.AtEnd]).
  reflexivity.
Qed.

Lemma digits_is_number (ds : list (N * string)) :
  digits ds = true -> CalculatorTool.is_number ds = Returns true.
Proof.
  intros H. rewrite is_number_unfold, (int_pattern_matches ds true H). reflexivity.
Qed.

Lemma decimal_is_number (ds fs : list (N * string)) (dot : N * string) :
  digits ds = true -> CalculatorTool.dot_char dot = true -> digits fs = true ->
  CalculatorTool.is_number (ds ++ dot :: fs) = Returns true.
Proof.
  intros H1 Hdot H2.
  rewrite is_number_unfold, (frac_pattern_matches ds fs dot true H1 Hdot H2).
  destruct (Re.matches _ _ _); reflexivity.
Qed.

Lemma digits_snoc (ds : list (N * string)) (c : N * string) :
  CalculatorTool.digit_char c = true -> (digits ds = true \/ ds = []) ->
  digits (CalculatorTool.snoc ds c) = true.
Proof.
  intros Hc H. unfold CalculatorTool.snoc.
  assert (Hall : forallb CalculatorTool.digit_char (ds ++ [c]) = true).
  { rewrite forallb_app. cbn [forallb]. rewrite Hc, andb_true_r.
    destruct H as [H| ->]; [|reflexivity].
    destruct ds; [discriminate H|exact H]. }
  destruct ds; exact Hall.
Qed.

(** On an expression without operators and letters every token is a
    number. *)
Lemma scan_numbers (l : list (N * string)) :
  existsb CalculatorTool.operator_char l = false ->
  existsb CalculatorTool.letter_char l = false ->
  forall st, numeric_state st = true ->
    Forall (fun tok => CalculatorTool.is_number tok = Returns true)
      (CalculatorTool.scan st l).
Proof.
  induction l as [|c t IH]; intros Hop Hlet st Hst.
  - destruct st; simpl in *; try discriminate Hst; repeat constructor.
    + apply digits_is_number, Hst.
    + apply andb_true_iff in Hst as [H1 _]. apply digits_is_number, H1.
    + apply andb_true_iff in Hst as [H1 H3].
      apply andb_true_iff in H1 as [H1 H2].
      apply decimal_is_number; assumption.
  - cbn [existsb] in Hop, Hlet.
    apply orb_false_iff in Hop as [Hopc Hop].
    apply orb_false_iff in Hlet as [Hletc Hlet].
    specialize (IH Hop Hlet).
    cbn [CalculatorTool.scan]. rewrite Hopc, Hletc.
    assert (Hone : forall d, CalculatorTool.digit_char d = true ->
              digits [d] = true)
      by (intros d Hd; simpl; rewrite Hd; reflexivity).
    destruct st; cbn [numeric_state] in Hst; try discriminate Hst.
    + destruct (CalculatorTool.digit_char c) eqn:Hd; apply IH;
        [apply Hone, Hd|reflexivity].
    + destruct (CalculatorTool.digit_char c) eqn:Hd.
      * apply IH. cbn [numeric_state]. apply digits_snoc; auto.
      * destruct (CalculatorTool.dot_char c) eqn:Hdot.
        -- apply IH. cbn [numeric_state]. rewrite Hst, Hdot. reflexivity.
        -- constructor; [apply digits_is_number, Hst|]. apply IH. reflexivity.
    + apply andb_true_iff in Hst as [H1 H2].
      destruct (CalculatorTool.digit_char c) eqn:Hd.
      * apply IH. cbn [numeric_state]. rewrite H1, H2. apply Hone, Hd.
      * constructor; [apply digits_is_number, H1|]. apply IH. reflexivity.
    + apply andb_true_iff in Hst as [H1 H3].
      apply andb_true_iff in H1 as [H1 H2].
      destruct (CalculatorTool.digit_char c) eqn:Hd.
      * apply IH. cbn [numeric_state]. rewrite H1, H2. apply digits_snoc; auto.
      * constructor; [apply decimal_is_number; assumption|]. apply IH. reflexivity.
Qed.

Lemma first_disallowed_numbers (toks : list (list (N * string))) :
  Forall (fun tok => CalculatorTool.is_number tok = Returns true) toks ->
  CalculatorTool.first_disallowed toks = Returns None.
Proof.
  induction 1 as [|tok toks H _ IH]; [reflexivity|].
  cbn [CalculatorTool.first_disallowed]. rewrite H. exact IH.
Qed.

Lemma no_slash_no_division (l : list (N * string)) :
  existsb CalculatorTool.operator_char l = false ->
  CalculatorTool.divides_by_zero (map fst l) = false.
Proof.
  induction l as [|c t IH]; [reflexivity|].
  cbn [existsb map CalculatorTool.divides_by_zero]. intros H.
  apply orb_false_iff in H as [Hc Ht]. rewrite (IH Ht), orb_false_r.
  destruct (N.eqb_spec (fst c) 0x2F) as [E|_]; [|reflexivity].
  unfold CalculatorTool.operator_char in Hc. rewrite E in Hc.
  discriminate Hc.
Qed.

Lemma no_operator_no_division (s : string) :
  mentions_operator s = false -> CalculatorTool.divides_by_literal_zero s = false.
Proof.
  rewrite mentions_operator_chars. apply no_slash_no_division.
Qed.

Lemma at_end_no_letter (tok : list (N * string)) :
  Re.at_end (CalculatorTool.codes tok) = true ->
  existsb CalculatorTool.letter_char tok = false.
Proof.
  destruct tok as [|c [|d t]]; simpl; try discriminate; [reflexivity|].
  intros H. destruct (CalculatorTool.letter_char c) eqn:Ha; [|reflexivity].
  destruct (letter_is_special c Ha) as (_ & _ & _ & Hnl). congruence.
Qed.

Lemma int_pattern_no_letter (tok : list (N * string)) (b : bool) :
  Re.matches [Re.Plus Re.Digit; Re.AtEnd] (CalculatorTool.codes tok) b = true ->
  existsb CalculatorTool.letter_char tok = false.
Proof.
  revert b. induction tok as [|c t IH]; intros b H; [reflexivity|].
  cbn [CalculatorTool.codes map] in H. fold (CalculatorTool.codes t) in H.
  rewrite matches_plus_cons in H. cbn [Re.sat] in H.
  apply andb_true_iff in H as [Hc H].
  cbn [existsb].
  rewrite (proj1 (digit_not_letter c Hc)). cbn [orb].
  apply orb_true_iff in H as [H|H]; [exact (IH false H)|].
  cbn [Re.matches] in H. apply andb_true_iff in H as [H _].
  apply at_end_no_letter, H.
Qed.

Lemma frac_pattern_no_letter (tok : list (N * string)) (b : bool) :
  Re.matches [Re.Plus Re.Digit; Re.One (Re.Lit "."); Re.Plus Re.Digit; Re.AtEnd]
    (CalculatorTool.codes tok) b
  = true ->
  existsb CalculatorTool.letter_char tok = false.
Proof.
  revert b. induction tok as [|c t IH]; intros b H; [reflexivity|].
  cbn [CalculatorTool.codes map] in H. fold (CalculatorTool.codes t) in H.
  rewrite matches_plus_cons in H. cbn [Re.sat] in H.
  apply andb_true_iff in H as [Hc H].
  cbn [existsb].
  rewrite (proj1 (digit_not_letter c Hc)). cbn [orb].
  apply orb_true_iff in H as [H|H]; [exact (IH false H)|].
  destruct t as [|d t']; [discriminate H|].
  cbn [CalculatorTool.codes map] in H. fold (CalculatorTool.codes t') in H.
  rewrite matches_one_cons in H. cbn [Re.sat] in H.
  apply andb_true_iff in H as [Hd H].
  cbn [existsb].
  assert (Hdl : CalculatorTool.letter_char d = false).
  { destruct (CalculatorTool.letter_char d) eqn:Ha; [|reflexivity].
    destruct (letter_is_special d Ha) as (_ & _ & Hdot & _).
    unfold CalculatorTool.dot_char in Hdot.
    change (PyStr.byte ".") with 0x2E%N in Hd. congruence. }
  rewrite Hdl. cbn [orb].
  exact (int_pattern_no_letter t' false H).
Qed.

(** A token with a letter in it is not a number. *)
Lemma word_is_not_number (token : list (N * string)) :
  existsb CalculatorTool.letter_char token = true ->
  CalculatorTool.is_number token = Returns false.
Proof.
  intros H. rewrite is_number_unfold.
  destruct (Re.matches [Re.Plus Re.Digit; Re.AtEnd] (CalculatorTool.codes token) true)
    eqn:E1.
  { apply int_pattern_no_letter in E1. congruence. }
  destruct (Re.matches [Re.Plus Re.Digit; Re.One (Re.Lit "."); Re.Plus Re.Digit;
                        Re.AtEnd] (CalculatorTool.codes token) true) eqn:E2.
  { apply frac_pattern_no_letter in E2. congruence. }
  reflexivity.
Qed.

Lemma letters_snoc (ws : list (N * string)) (c : N * string) :
  existsb CalculatorTool.letter_char (CalculatorTool.snoc ws c)
  = existsb CalculatorTool.letter_char ws || CalculatorTool.letter_char c.
Proof.
  unfold CalculatorTool.snoc. rewrite existsb_app. cbn [existsb].
  rewrite orb_false_r. reflexivity.
Qed.

Lemma scan_word (t ws : list (N * string)) :
  existsb CalculatorTool.letter_char ws = true ->
  exists tok, In tok (CalculatorTool.scan (CalculatorTool.InWord ws) t)
              /\ existsb CalculatorTool.letter_char tok = true.
Proof.
  revert ws. induction t as [|c t IH]; intros ws H.
  - exists ws. split; [left; reflexivity|exact H].
  - cbn [CalculatorTool.scan].
    destruct (CalculatorTool.letter_char c) eqn:Ha.
    + apply IH. rewrite letters_snoc, H. reflexivity.
    + exists ws. split; [left; reflexivity|exact H].
Qed.

(** A letter of the expression ends up in a token. *)
Lemma scan_keeps_letters (l : list (N * string)) :
  existsb CalculatorTool.letter_char l = true ->
  forall st, exists tok,
    In tok (CalculatorTool.scan st l)
    /\ existsb CalculatorTool.letter_char tok = true.
Proof.
  induction l as [|c t IH]; [discriminate|].
  cbn [existsb]. intros H st.
  destruct (CalculatorTool.letter_char c) eqn:Ha.
  - destruct (letter_is_special c Ha) as (Hd & Hop & Hdot & _).
    assert (Hone : existsb CalculatorTool.letter_char [c] = true)
      by (simpl; rewrite Ha; reflexivity).
    destruct (scan_word t [c] Hone) as (tok & Hin & Htok).
    cbn [CalculatorTool.scan]. rewrite Hop, Hd, Ha.
    destruct st; try rewrite Hdot.
    + exists tok. split; assumption.
    + exists tok. split; [right; exact Hin|exact Htok].
    + exists tok. split; [right; exact Hin|exact Htok].
    + exists tok. split; [right; exact Hin|exact Htok].
    + apply scan_word. rewrite letters_snoc, Ha. apply orb_true_r.
  - simpl in H.
    assert (Hany : forall st', exists tok,
              In tok (CalculatorTool.scan st' t)
              /\ existsb CalculatorTool.letter_char tok = true)
      by (intros st'; apply IH, H).
    cbn [CalculatorTool.scan]. rewrite Ha.
    destruct st;
      repeat match goal with
             | |- context [if ?b then _ else _] => destruct b
             end;
      match goal with
      | |- context [_ :: _ :: CalculatorTool.scan ?st' t] =>
          destruct (Hany st') as (tok & H1 & H2); exists tok; split;
          [right; right; exact H1 | exact H2]
      | |- context [_ :: CalculatorTool.scan ?st' t] =>
          destruct (Hany st') as (tok & H1 & H2); exists tok; split;
          [right; exact H1 | exact H2]
      | |- context [CalculatorTool.scan ?st' t] => apply Hany
      end.
Qed.

Lemma letter_byte_not_space (b : ascii) :
  PyStr.is_alpha b = true -> space_byte b = false.
Proof.
  destruct b as [[] [] [] [] [] [] [] []]; vm_compute; intros H;
    (reflexivity || discriminate H).
Qed.

Lemma letter_not_blank (s : string) :
  mentions_letter s = true -> PyStr.all_space s = false.
Proof.
  rewrite mentions_letter_bytes.
  apply (some_byte_not_blank PyStr.is_alpha). exact letter_byte_not_space.
Qed.

Lemma validation_raises_on_letters (expression : string) :
  mentions_letter expression = true ->
  CalculatorTool._validate_expression expression
  = Raises (ReError nothing_to_repeat).
Proof.
  intros H. unfold CalculatorTool._validate_expression.
  rewrite blank_guard, (letter_not_blank _ H).
  rewrite mentions_letter_chars in H.
  destruct (scan_keeps_letters _ H CalculatorTool.Idle) as (tok & Hin & Htok).
  unfold CalculatorTool.tokens.
  rewrite (first_disallowed_raises _ _ Hin (word_is_not_number _ Htok)).
  reflexivity.
Qed.

Lemma validation_accepts (expression : string) :
  PyStr.all_space expression = false ->
  mentions_operator expression = false -> mentions_letter expression = false ->
  CalculatorTool._validate_expression expression = Returns (true, None).
Proof.
  intros Hb Hop Hlet. unfold CalculatorTool._validate_expression.
  rewrite blank_guard, Hb. unfold CalculatorTool.tokens.
  pose proof Hop as Hopc. rewrite mentions_operator_chars in Hopc.
  pose proof Hlet as Hletc. rewrite mentions_letter_chars in Hletc.
  rewrite (first_disallowed_numbers _
             (scan_numbers _ Hopc Hletc CalculatorTool.Idle eq_refl)).
  rewrite (count_paren_zero "(" expression eq_refl Hop),
          (count_paren_zero ")" expression eq_refl Hop).
  rewrite (no_operator_no_division _ Hop). reflexivity.
Qed.

Lemma validation_cases (expression : string) :
  CalculatorTool._validate_expression expression =
    if PyStr.all_space expression then
      Returns (false, Some "Expression cannot be empty")
    else if mentions_operator expression || mentions_letter expression then
      Raises (ReError nothing_to_repeat)
    else Returns (true, None).
Proof.
  destruct (PyStr.all_space expression) eqn:Hb.
  { unfold CalculatorTool._validate_expression. rewrite blank_guard, Hb.
    reflexivity. }
  destruct (mentions_operator expression) eqn:Hop.
  { apply validation_raises, Hop. }
  destruct (mentions_letter expression) eqn:Hlet.
  { apply validation_raises_on_letters, Hlet. }
  apply validation_accepts; assumption.
Qed.

Lemma replace_caret_plain (s : string) :
  mentions_operator s = false -> CalculatorTool.replace_caret s = s.
Proof.
  induction s as [|c t IH]; [reflexivity|].
  cbn [mentions_operator CalculatorTool.replace_caret]. intros H.
  apply orb_false_iff in H as [Hc Ht]. rewrite (IH Ht).
  destruct (Ascii.eqb_spec c "^") as [->|_]; [discriminate Hc|reflexivity].
Qed.

(** X14. [_validate_expression] has three outcomes only: the message
    "Expression cannot be empty" for a blank expression, the [re.error] of
    the allow-list for an expression with an operator, a parenthesis or an
    ASCII letter, and acceptance for every other expression.  In
    particular the verdicts "Disallowed symbol or function", "Unbalanced
    parentheses" and "Division by zero" are never returned. *)
Theorem validation_has_three_outcomes (expression : string) :
  (CalculatorTool._validate_expression expression =
     if PyStr.all_space expression then
       Returns (false, Some "Expression cannot be empty")
     else if mentions_operator expression || mentions_letter expression then
       Raises (ReError nothing_to_repeat)
     else Returns (true, None))
  /\ (forall m, CalculatorTool._validate_expression expression
                = Returns (false, Some m) ->
                m = "Expression cannot be empty").
Proof.
  split; [apply validation_cases|].
  intros m. rewrite validation_cases.
  destruct (PyStr.all_space expression); [congruence|].
  destruct (mentions_operator expression || mentions_letter expression);
    discriminate.
Qed.

(** X15. The calculator returns a result only for an expression that is not
    blank and has no operator, no parenthesis and no letter; the evaluator
    then received the expression with its surrounding white space removed,
    and the result is the evaluator's value with the steps generated for
    it. *)
Theorem calculator_returns_only_for_plain_numbers
    (evaluate : string -> exc float)
    (steps : string -> float -> list string)
    (expression : string) (d : pydict) :
  CalculatorTool.execute_expression evaluate steps expression = Returns d ->
  PyStr.all_space expression = false
  /\ mentions_operator expression = false
  /\ mentions_letter expression = false
  /\ exists result,
       evaluate (PyStr.strip expression) = Ok result
       /\ d = [("result", VFloat result);
               ("steps", VList (map VStr (steps expression result)))].
Proof.
  unfold CalculatorTool.execute_expression. rewrite validation_cases.
  destruct (PyStr.all_space expression); [discriminate|].
  destruct (mentions_operator expression) eqn:Hop; [discriminate|].
  destruct (mentions_letter expression) eqn:Hlet; [discriminate|].
  cbn [orb]. unfold CalculatorTool._preprocess_expression.
  rewrite (replace_caret_plain _ Hop).
  destruct (evaluate (PyStr.strip expression)) as [r|msg] eqn:Ev;
    [|discriminate].
  intros H. injection H as <-.
  repeat split. exists r. split; reflexivity.
Qed.

Lemma calculator_returns_only_for_plain_numbers_witness :
  PyStr.all_space " 42 " = false
  /\ mentions_operator " 42 " = false
  /\ mentions_letter " 42 " = false
  /\ exists result,
       evaluate_fixed 42%float (PyStr.strip " 42 ") = Ok result
       /\ [("result", VFloat 42%float); ("steps", VList [])]
          = [("result", VFloat result);
             ("steps", VList (map VStr (no_steps " 42 " result)))].
Proof.
  apply (calculator_returns_only_for_plain_numbers (evaluate_fixed 42%float)
           no_steps " 42 "). reflexivity.
Defined.

(* ===================================================================== *)
(** ** Lookup tool: fuzzy matching *)
(* ===================================================================== *)

Lemma partial_step_score (key_lower : string) (best : option string * float)
    (k : string) :
  LookupTool.partial_step key_lower best k =
    match partial_score key_lower k with
    | Some s => if PyFloat.gt s (snd best) then (Some k, s) else best
    | None => best
    end.
Proof.
  unfold LookupTool.partial_step, partial_score. cbv zeta.
  destruct (PyStr.contains key_lower (PyStr.lower k)); [reflexivity|].
  destruct (PyStr.contains (PyStr.lower k) key_lower); reflexivity.
Qed.

Lemma gt_irrefl (s : float) : PyFloat.gt s s = false.
Proof.
  unfold PyFloat.gt. apply ltb_rank_false. unfold lex_lt.
  destruct (frank s) as [[a1 a2] a3]. intros (_ & _ & H). lia.
Qed.

(** What does not beat the old best score does not beat a better one. *)
Lemma gt_step (x s b : float) :
  PyFloat.gt s b = true -> PyFloat.gt x b = false -> PyFloat.gt x s = false.
Proof.
  unfold PyFloat.gt. rewrite ltb_rank, !ltb_rank_false. unfold lex_lt.
  destruct (frank x) as [[x1 x2] x3], (frank s) as [[s1 s2] s3],
           (frank b) as [[b1 b2] b3].
  intros (Hb & Hs & H1) H2 (_ & Hx & H3). apply H2.
  repeat split; auto; lia.
Qed.

(** The partial-match loop from any starting point: the result is the
    starting point or a key of the list with its own score, and no key of
    the list has a score that beats it. *)
Lemma partial_fold (key_lower : string) (ks : list string)
    (best : option string * float) :
  let r := fold_left (LookupTool.partial_step key_lower) ks best in
  (r = best
   \/ exists k, In k ks /\ fst r = Some k
                /\ partial_score key_lower k = Some (snd r))
  /\ (forall x, PyFloat.gt x (snd best) = false -> PyFloat.gt x (snd r) = false)
  /\ (forall k s, In k ks -> partial_score key_lower k = Some s ->
                  PyFloat.gt s (snd r) = false).
Proof.
  revert best. induction ks as [|k ks IH]; intros best; cbv zeta.
  - cbn [fold_left]. split; [left; reflexivity|]. split; [auto|].
    intros k s [].
  - cbn [fold_left].
    destruct (IH (LookupTool.partial_step key_lower best k))
      as (Hr & Hmono & Hmax).
    set (r := fold_left (LookupTool.partial_step key_lower) ks
                (LookupTool.partial_step key_lower best k)) in *.
    assert (Hstep :
      (LookupTool.partial_step key_lower best k = best
       \/ exists s, partial_score key_lower k = Some s
                    /\ PyFloat.gt s (snd best) = true
                    /\ LookupTool.partial_step key_lower best k = (Some k, s))
      /\ (forall s, partial_score key_lower k = Some s ->
            PyFloat.gt s (snd (LookupTool.partial_step key_lower best k)) = false)).
    { rewrite partial_step_score.
      destruct (partial_score key_lower k) as [s|]; [|split; [auto|discriminate]].
      destruct (PyFloat.gt s (snd best)) eqn:Hgt.
      - split; [right; exists s; auto|].
        intros s' [= <-]. apply gt_irrefl.
      - split; [auto|]. intros s' [= <-]. exact Hgt. }
    destruct Hstep as (Hstep & Hself).
    split; [|split].
    + destruct Hr as [Hr|(k' & Hin & Hk & Hs)].
      * destruct Hstep as [Hb|(s & Hs & _ & Hb)].
        -- left. rewrite Hr. exact Hb.
        -- right. exists k. rewrite Hr, Hb. cbn [fst snd].
           split; [left; reflexivity|]. split; [reflexivity|exact Hs].
      * right. exists k'. split; [right; exact Hin|]. split; assumption.
    + intros x Hx. apply Hmono.
      destruct Hstep as [Hb|(s & _ & Hgt & Hb)].
      * rewrite Hb. exact Hx.
      * rewrite Hb. cbn [snd]. apply (gt_step x s (snd best)); assumption.
    + intros k' s [<-|Hin] Hs.
      * apply Hmono, Hself, Hs.
      * apply (Hmax k' s Hin Hs).
Qed.

(** X16. Whatever the table, a key that [_fuzzy_match] returns is a key of
    the table, and it is returned in one of three ways: it is the query
    itself, with confidence 1.0; it equals the query when case is ignored,
    with confidence 0.9; or it is a partial match whose confidence is its
    own length ratio, above 0.5, that no other key of the table beats.
    When no key is returned the confidence is 0.0. *)
Theorem fuzzy_match_returns_a_best_table_key
    (key : string) (collection : list (string * pydict))
    (matched : option string) (confidence : float) :
  LookupTool._fuzzy_match key collection = (matched, confidence) ->
  match matched with
  | None => confidence = 0%float
  | Some k =>
      In k (LookupTool.keys collection)
      /\ ((k = key /\ confidence = 1%float)
          \/ (LookupTool.has_key collection key = false
              /\ PyStr.lower k = PyStr.lower key /\ confidence = 0.9%float)
          \/ (LookupTool.has_key collection key = false
              /\ partial_score (PyStr.lower key) k = Some confidence
              /\ PyFloat.gt confidence 0.5%float = true
              /\ forall k' s, In k' (LookupTool.keys collection) ->
                   partial_score (PyStr.lower key) k' = Some s ->
                   PyFloat.gt s confidence = false))
  end.
Proof.
  unfold LookupTool._fuzzy_match.
  destruct (LookupTool.has_key collection key) eqn:Ehas.
  { intros [= <- <-]. split; [apply has_key_In, Ehas|]. left. split; reflexivity. }
  destruct (find _ (LookupTool.keys collection)) as [k|] eqn:Efind.
  { intros [= <- <-]. apply find_some in Efind as [Hin Heq].
    apply String.eqb_eq in Heq.
    split; [exact Hin|]. right. left. repeat split; assumption. }
  cbv zeta. unfold LookupTool.partial_best.
  destruct (partial_fold (PyStr.lower key) (LookupTool.keys collection)
              (None, 0%float)) as (Hr & _ & Hmax).
  cbv zeta in Hr, Hmax.
  set (r := fold_left (LookupTool.partial_step (PyStr.lower key))
              (LookupTool.keys collection) (None, 0%float)) in *.
  destruct (LookupTool.truthy (fst r) && PyFloat.gt (snd r) 0.5%float) eqn:Eok.
  - apply andb_true_iff in Eok as [Htr Hgt].
    destruct Hr as [Hr|(k & Hin & Hk & Hs)].
    { rewrite Hr in Htr. discriminate Htr. }
    destruct r as [m c]. cbn [fst snd] in *. subst m.
    intros [= <- <-]. split; [exact Hin|]. right. right.
    repeat split; assumption.
  - intros [= <- <-]. reflexivity.
Qed.

Lemma fuzzy_match_returns_a_best_table_key_witness :
  In "ohms_law" (LookupTool.keys LookupTool.formulas)
  /\ (("ohms_law" = "Ohms_La" /\ 0.875%float = 1%float)
      \/ (LookupTool.has_key LookupTool.formulas "Ohms_La" = false
          /\ PyStr.lower "ohms_law" = PyStr.lower "Ohms_La"
          /\ 0.875%float = 0.9%float)
      \/ (LookupTool.has_key LookupTool.formulas "Ohms_La" = false
          /\ partial_score (PyStr.lower "Ohms_La") "ohms_law" = Some 0.875%float
          /\ PyFloat.gt 0.875%float 0.5%float = true
          /\ forall k' s, In k' (LookupTool.keys LookupTool.formulas) ->
               partial_score (PyStr.lower "Ohms_La") k' = Some s ->
               PyFloat.gt s 0.875%float = false)).
Proof.
  apply (fuzzy_match_returns_a_best_table_key "Ohms_La" LookupTool.formulas
           (Some "ohms_law") 0.875%float).
  vm_compute. reflexivity.
Defined.

(** [collection[key]] is the entry that the table holds under the key. *)
Lemma item_In (collection : list (string * pydict)) (key : string) :
  In key (LookupTool.keys collection) ->
  In (key, LookupTool.item collection key) collection.
Proof.
  induction collection as [|[k v] rest IH]; [intros []|].
  cbn [LookupTool.keys map fst In LookupTool.item].
  destruct (String.eqb_spec key k) as [->|Hne].
  - intros _. left. reflexivity.
  - intros [H|H]; [congruence|]. right. apply IH, H.
Qed.

Lemma table_entries_complete (lookup_type : string) (entry : string * pydict)
    (field : string) :
  lookup_type = "constant" \/ lookup_type = "formula" ->
  In entry (collection_of lookup_type) ->
  In field (result_fields lookup_type) ->
  exists v, dict_get (snd entry) field = Some v.
Proof.
  intros Ht Hin Hf.
  assert (Hall : forall t, t = "constant" \/ t = "formula" ->
            forallb (entry_complete t) (collection_of t) = true)
    by (intros t [->| ->]; vm_compute; reflexivity).
  pose proof (Hall lookup_type Ht) as H.
  rewrite forallb_forall in H. specialize (H entry Hin).
  unfold entry_complete in H. rewrite forallb_forall in H.
  specialize (H field Hf).
  destruct (dict_get (snd entry) field) as [v|]; [|discriminate H].
  exists v. reflexivity.
Qed.

(** X17. A key that is not in the table but equals one of its keys when case
    is ignored is answered with that table key's entry: the result names
    the table key and the type, each field of the result is the field of
    the entry that the table holds under that key, and the result is
    annotated with [match_confidence] 0.9 and with the query as
    [original_query]. *)
Theorem lookup_ignores_case (key lookup_type k : string) :
  lookup_type = "constant" \/ lookup_type = "formula" ->
  key <> "" ->
  LookupTool.has_key (collection_of lookup_type) key = false ->
  In k (LookupTool.keys (collection_of lookup_type)) ->
  PyStr.lower k = PyStr.lower key ->
  exists result matched entry,
    LookupTool.execute_lookup key lookup_type = Returns result
    /\ In (matched, entry) (collection_of lookup_type)
    /\ PyStr.lower matched = PyStr.lower key
    /\ dict_get result "key" = Some (VStr matched)
    /\ dict_get result "type" = Some (VStr lookup_type)
    /\ (forall field, In field (result_fields lookup_type) ->
          exists v, dict_get entry field = Some v
                    /\ dict_get result field = Some v)
    /\ dict_get result "match_confidence" = Some (VFloat 0.9%float)
    /\ dict_get result "original_query" = Some (VStr key).
Proof.
  intros Ht Hkey Hhas Hin Hlow.
  destruct (lookup_type_cases lookup_type Ht) as [Hvalid _].
  unfold LookupTool.execute_lookup.
  destruct key as [|c key']; [contradiction Hkey; reflexivity|].
  cbn [PyStr.is_empty]. rewrite Hvalid. cbn [negb].
  fold (collection_of lookup_type).
  unfold LookupTool._fuzzy_match. rewrite Hhas. cbv zeta.
  destruct (find (fun k0 => String.eqb (PyStr.lower k0) (PyStr.lower (String c key')))
              (LookupTool.keys (collection_of lookup_type))) as [m|] eqn:Efind.
  - apply find_some in Efind as [Hm Heq]. apply String.eqb_eq in Heq.
    assert (Hne : PyStr.is_empty m = false).
    { rewrite <- lower_is_empty, Heq, lower_is_empty. reflexivity. }
    rewrite Hne.
    change (PyFloat.lt 0.9%float 1%float) with true. cbv iota.
    pose proof (item_In _ _ Hm) as Hentry.
    set (entry := LookupTool.item (collection_of lookup_type) m) in *.
    assert (Hfields : forall field, In field (result_fields lookup_type) ->
              exists v, dict_get entry field = Some v
                        /\ LookupTool.get_field entry field = v).
    { intros field Hf.
      destruct (table_entries_complete lookup_type (m, entry) field Ht Hentry Hf)
        as [v Hv].
      exists v. split; [exact Hv|].
      unfold LookupTool.get_field. cbn [snd] in Hv. rewrite Hv. reflexivity. }
    eexists. exists m, entry. split; [reflexivity|].
    split; [exact Hentry|]. split; [exact Heq|].
    destruct Ht as [-> | ->]; cbn [String.eqb Ascii.eqb Bool.eqb].
    + split; [reflexivity|]. split; [reflexivity|].
      split; [|split; reflexivity].
      intros field Hf. destruct (Hfields field Hf) as (v & Hv & Hg).
      exists v. split; [exact Hv|].
      cbn in Hf. destruct Hf as [<-|[<-|[<-|[]]]]; rewrite <- Hg; reflexivity.
    + split; [reflexivity|]. split; [reflexivity|].
      split; [|split; reflexivity].
      intros field Hf. destruct (Hfields field Hf) as (v & Hv & Hg).
      exists v. split; [exact Hv|].
      cbn in Hf. destruct Hf as [<-|[<-|[<-|[]]]]; rewrite <- Hg; reflexivity.
  - pose proof (find_none _ _ Efind k Hin) as Hno. cbv beta in Hno.
    rewrite Hlow, String.eqb_refl in Hno. discriminate Hno.
Qed.

Lemma lookup_ignores_case_witness :
  exists result matched entry,
    LookupTool.execute_lookup "NEWTON_SECOND_LAW" "formula" = Returns result
    /\ In (matched, entry) (collection_of "formula")
    /\ PyStr.lower matched = PyStr.lower "NEWTON_SECOND_LAW"
    /\ dict_get result "key" = Some (VStr matched)
    /\ dict_get result "type" = Some (VStr "formula")
    /\ (forall field, In field (result_fields "formula") ->
          exists v, dict_get entry field = Some v
                    /\ dict_get result field = Some v)
    /\ dict_get result "match_confidence" = Some (VFloat 0.9%float)
    /\ dict_get result "original_query" = Some (VStr "NEWTON_SECOND_LAW").
Proof.
  apply (lookup_ignores_case "NEWTON_SECOND_LAW" "formula" "newton_second_law").
  - right. reflexivity.
  - discriminate.
  - vm_compute. reflexivity.
  - vm_compute. left. reflexivity.
  - vm_compute. reflexivity.
Defined.
(* ===================================================================== *)
(** ** Gemini client: retries *)
(* ===================================================================== *)

Section GeminiRetries.

Variable send_message : option string -> string -> nat -> exc string.
Variable sleep : float -> exc unit.
Variable system_instruction : option string.
Variable prompt : string.
Variable retry_count : Z.
Variable retry_delay : float.

Lemma attempts_S (remaining attempt : nat) :
  GeminiClient.attempts send_message sleep system_instruction prompt retry_count
    retry_delay (S remaining) attempt =
  match send_message system_instruction prompt attempt with
  | Ok text => (GeminiClient.Returned (Some text), [GeminiClient.SendMessage attempt])
  | Raise msg =>
      if (Z.of_nat attempt =? retry_count)%Z then
        (GeminiClient.Failed
           (GeminiClient.GeminiAPIError ("Failed to generate text: " ++ msg)),
         [GeminiClient.SendMessage attempt])
      else
        match GeminiClient.backoff retry_delay attempt with
        | Raise m =>
            (GeminiClient.Failed (GeminiClient.Uncaught m),
             [GeminiClient.SendMessage attempt])
        | Ok seconds =>
            match sleep seconds with
            | Raise m =>
                (GeminiClient.Failed (GeminiClient.Uncaught m),
                 [GeminiClient.SendMessage attempt; GeminiClient.Sleep seconds])
            | Ok _ =>
                let '(r, effects) :=
                  GeminiClient.attempts send_message sleep system_instruction
                    prompt retry_count retry_delay remaining (S attempt) in
                (r, GeminiClient.SendMessage attempt
                    :: GeminiClient.Sleep seconds :: effects)
            end
        end
  end.
Proof. reflexivity. Qed.

(** After [a] failed attempts that were each slept on, the loop is at
    attempt [first + a] with the schedule of the retries behind it. *)
Lemma attempts_after_retries (a : nat) :
  forall first remaining,
    (Z.of_nat (first + a) <= retry_count)%Z ->
    (first + a <= 1024)%nat ->
    (forall i, (first <= i < first + a)%nat ->
       exists m, send_message system_instruction prompt i = Raise m) ->
    (forall i, (first <= i < first + a)%nat ->
       sleep (retry_delay * GeminiClient.pow2 i)%float = Ok tt) ->
    GeminiClient.attempts send_message sleep system_instruction prompt
      retry_count retry_delay (a + S remaining) first =
    let '(r, effects) :=
      GeminiClient.attempts send_message sleep system_instruction prompt
        retry_count retry_delay (S remaining) (first + a) in
    (r, (retries retry_delay first a ++ effects)%list).
Proof.
  induction a as [|a IH]; intros first remaining Hle Hmax Hfail Hsleep.
  - rewrite Nat.add_0_r. cbn [Nat.add retries app].
    destruct (GeminiClient.attempts _ _ _ _ _ _ _ _); reflexivity.
  - change (S a + S remaining)%nat with (S (a + S remaining)).
    rewrite attempts_S.
    destruct (Hfail first ltac:(lia)) as [m ->].
    destruct (Z.eqb_spec (Z.of_nat first) retry_count) as [E|_]; [lia|].
    unfold GeminiClient.backoff.
    destruct (Nat.ltb_spec 1023 first) as [E|_]; [lia|].
    rewrite (Hsleep first ltac:(lia)).
    rewrite (IH (S first) remaining); cycle 1.
    + rewrite <- Hle. f_equal. lia.
    + lia.
    + intros i Hi. apply Hfail. lia.
    + intros i Hi. apply Hsleep. lia.
    + replace (S first + a)%nat with (first + S a)%nat by lia.
      destruct (GeminiClient.attempts _ _ _ _ _ _ (S remaining) (first + S a)).
      reflexivity.
Qed.

(** While attempts remain up to [retry_count], the loop does not fall off
    its end. *)
Lemma attempts_never_none (remaining : nat) :
  forall attempt,
    (Z.of_nat (attempt + remaining) = retry_count + 1)%Z ->
    (0 < remaining)%nat ->
    fst (GeminiClient.attempts send_message sleep system_instruction prompt
           retry_count retry_delay remaining attempt)
    <> GeminiClient.Returned None.
Proof.
  induction remaining as [|remaining IH]; intros attempt Hsum Hpos; [lia|].
  rewrite attempts_S.
  destruct (send_message system_instruction prompt attempt); [discriminate|].
  destruct (Z.eqb_spec (Z.of_nat attempt) retry_count) as [E|E]; [discriminate|].
  destruct (GeminiClient.backoff retry_delay attempt); [|discriminate].
  destruct (sleep a); [|discriminate].
  specialize (IH (S attempt) ltac:(lia) ltac:(lia)).
  destruct (GeminiClient.attempts _ _ _ _ _ _ remaining (S attempt)).
  exact IH.
Qed.

(** The attempts are numbered consecutively, there are at most [remaining]
    of them, and every sleep lies between two attempts that the loop
    allows. *)
Lemma attempts_bounded (remaining : nat) :
  forall attempt,
    (Z.of_nat (attempt + remaining) = retry_count + 1)%Z ->
    let effects :=
      snd (GeminiClient.attempts send_message sleep system_instruction prompt
             retry_count retry_delay remaining attempt) in
    sends effects = seq attempt (length (sends effects))
    /\ (length (sends effects) <= remaining)%nat
    /\ (length (sleeps effects) <= remaining - 1)%nat
    /\ (length (sleeps effects) <= length (sends effects))%nat.
Proof.
  induction remaining as [|remaining IH]; intros attempt Hsum; cbv zeta.
  - cbn. repeat split; lia.
  - rewrite attempts_S.
    destruct (send_message system_instruction prompt attempt);
      [cbn; repeat split; lia|].
    destruct (Z.eqb_spec (Z.of_nat attempt) retry_count) as [E|E];
      [cbn; repeat split; lia|].
    destruct (GeminiClient.backoff retry_delay attempt);
      [|cbn; repeat split; lia].
    destruct (sleep a); [|cbn; repeat split; lia].
    specialize (IH (S attempt) ltac:(lia)). cbv zeta in IH.
    destruct (GeminiClient.attempts _ _ _ _ _ _ remaining (S attempt))
      as [r effects].
    cbn [snd sends sleeps length] in *.
    destruct IH as (Hseq & Hs & Hz & Hzs).
    repeat split; try lia.
    cbn [seq]. f_equal. exact Hseq.
Qed.

End GeminiRetries.



(** X19. [generate_text] returns [None] exactly when [retry_count] is
    negative, and then it has sent nothing: with a [retry_count] of zero or
    more every call that starts its chat ends in a text or in an
    exception. *)
Theorem generate_text_none_iff_negative_retry_count
    (start_chat : option string -> exc unit)
    (send_message : option string -> string -> nat -> exc string)
    (sleep : float -> exc unit)
    (prompt : string) (system_instruction : option string)
    (retry_count : Z) (retry_delay : float) :
  start_chat system_instruction = Ok tt ->
  (fst (GeminiClient.generate_text start_chat send_message sleep prompt
          system_instruction retry_count retry_delay)
   = GeminiClient.Returned None
   <-> (retry_count < 0)%Z)
  /\ ((retry_count < 0)%Z ->
      GeminiClient.generate_text start_chat send_message sleep prompt
        system_instruction retry_count retry_delay
      = (GeminiClient.Returned None, [])).
Proof.
  intros Hchat. unfold GeminiClient.generate_text. rewrite Hchat.
  assert (Hneg : (retry_count < 0)%Z ->
            GeminiClient.attempts send_message sleep system_instruction prompt
              retry_count retry_delay (Z.to_nat (retry_count + 1)) 0
            = (GeminiClient.Returned None, [])).
  { intros H. replace (Z.to_nat (retry_count + 1)) with 0%nat by lia.
    reflexivity. }
  split; [|exact Hneg].
  split.
  - intros Hnone. destruct (Z.ltb_spec retry_count 0) as [H|H]; [exact H|].
    exfalso.
    apply (attempts_never_none send_message sleep system_instruction prompt
             retry_count retry_delay (Z.to_nat (retry_count + 1)) 0);
      [lia|lia|exact Hnone].
  - intros H. rewrite (Hneg H). reflexivity.
Qed.

Lemma generate_text_none_iff_negative_retry_count_witness :
  (fst (GeminiClient.generate_text chat_ok api_down sleep_ok "p" None (-1)
          1%float)
   = GeminiClient.Returned None
   <-> (-1 < 0)%Z)
  /\ ((-1 < 0)%Z ->
      GeminiClient.generate_text chat_ok api_down sleep_ok "p" None (-1) 1%float
      = (GeminiClient.Returned None, [])).
Proof.
  apply (generate_text_none_iff_negative_retry_count chat_ok api_down sleep_ok
           "p" None (-1) 1%float).
  reflexivity.
Defined.

(** X20. Whatever the API and [time.sleep] do, a call of [generate_text]
    sends attempts numbered 0, 1, 2, ... without a gap, at most
    [retry_count + 1] of them, and sleeps at most [retry_count] times and
    never more often than it has sent. *)
Theorem generate_text_is_bounded
    (start_chat : option string -> exc unit)
    (send_message : option string -> string -> nat -> exc string)
    (sleep : float -> exc unit)
    (prompt : string) (system_instruction : option string)
    (retry_count : Z) (retry_delay : float) :
  let effects :=
    snd (GeminiClient.generate_text start_chat send_message sleep prompt
           system_instruction retry_count retry_delay) in
  sends effects = seq 0 (length (sends effects))
  /\ (length (sends effects) <= Z.to_nat (retry_count + 1))%nat
  /\ (length (sleeps effects) <= Z.to_nat retry_count)%nat
  /\ (length (sleeps effects) <= length (sends effects))%nat.
Proof.
  cbv zeta. unfold GeminiClient.generate_text.
  destruct (start_chat system_instruction); [|cbn; repeat split; lia].
  destruct (Z.ltb_spec retry_count 0) as [Hneg|Hpos].
  - replace (Z.to_nat (retry_count + 1)) with 0%nat by lia.
    cbn. repeat split; lia.
  - pose proof (attempts_bounded send_message sleep system_instruction prompt
                  retry_count retry_delay (Z.to_nat (retry_count + 1)) 0
                  ltac:(lia)) as H.
    cbv zeta in H. destruct H as (H1 & H2 & H3 & H4).
    repeat split; try assumption. lia.
Qed.

(* ===================================================================== *)
(** ** Gemini client: intent analysis *)
(* ===================================================================== *)

Lemma format_2f_error_none (v : value) :
  GeminiClient.format_2f_error v = None -> formats_as_number v.
Proof.
  destruct v; cbn; try discriminate; auto.
  destruct (Z.leb_spec (2 ^ 1024 - 2 ^ 970) (Z.abs z)); [discriminate|].
  intros _. assumption.
Qed.

Lemma is_in_In (s : string) (names : list string) :
  GeminiClient.is_in (VStr s) names = true -> In s names.
Proof.
  cbn. rewrite existsb_exists. intros (n & Hin & Heq).
  apply String.eqb_eq in Heq. subst. exact Hin.
Qed.

(** A text that the retry loop returns is the reply of the API to the
    prompt at one of the attempts. *)
Lemma attempts_return_a_reply
    (send_message : option string -> string -> nat -> exc string)
    (sleep : float -> exc unit)
    (system_instruction : option string) (prompt : string)
    (retry_count : Z) (retry_delay : float) (remaining attempt : nat)
    (text : string) :
  fst (GeminiClient.attempts send_message sleep system_instruction prompt
         retry_count retry_delay remaining attempt)
  = GeminiClient.Returned (Some text) ->
  exists a, send_message system_instruction prompt a = Ok text.
Proof.
  revert attempt. induction remaining as [|remaining IH]; intros attempt.
  - cbn. discriminate.
  - cbn [GeminiClient.attempts].
    destruct (send_message system_instruction prompt attempt) as [reply|msg] eqn:E.
    + cbn. intros [= ->]. exists attempt. exact E.
    + destruct (Z.of_nat attempt =? retry_count)%Z; [cbn; discriminate|].
      destruct (GeminiClient.backoff retry_delay attempt); [|cbn; discriminate].
      destruct (sleep a); [|cbn; discriminate].
      specialize (IH (S attempt)).
      destruct (GeminiClient.attempts _ _ _ _ _ _ remaining (S attempt)) as [r effects].
      cbn [fst] in *. exact IH.
Qed.

Lemma generate_text_returns_a_reply
    (start_chat : option string -> exc unit)
    (send_message : option string -> string -> nat -> exc string)
    (sleep : float -> exc unit)
    (prompt : string) (system_instruction : option string)
    (retry_count : Z) (retry_delay : float) (text : string) :
  fst (GeminiClient.generate_text start_chat send_message sleep prompt
         system_instruction retry_count retry_delay)
  = GeminiClient.Returned (Some text) ->
  exists a, send_message system_instruction prompt a = Ok text.
Proof.
  unfold GeminiClient.generate_text.
  destruct (start_chat system_instruction); [|cbn; discriminate].
  apply attempts_return_a_reply.
Qed.

Lemma read_intent_checked
    (json_loads : string -> exc value) (str : value -> string)
    (response_text : option string) (available_agents : list string) :
  match GeminiClient.read_intent json_loads str response_text available_agents with
  | GeminiClient.Returned (agent, confidence, scores) =>
      In agent available_agents /\ agent <> ""
      /\ formats_as_number confidence
      /\ exists text json_str analysis,
           response_text = Some text
           /\ GeminiClient.json_match (GeminiClient.remove_newlines text)
              = Some json_str
           /\ json_loads json_str = Ok (VDict analysis)
           /\ dict_get analysis "best_agent" = Some (VStr agent)
           /\ confidence = match dict_get analysis "confidence" with
                           | Some v => v
                           | None => VFloat 0%float
                           end
           /\ scores = match dict_get analysis "scores" with
                       | Some v => v
                       | None => VDict []
                       end
  | GeminiClient.Failed e =>
      exists msg,
        e = GeminiClient.GeminiAPIError ("Failed to analyze query intent: " ++ msg)
  end.
Proof.
  unfold GeminiClient.read_intent, GeminiClient.intent_failure.
  destruct response_text as [text|]; [|eexists; reflexivity].
  destruct (GeminiClient.json_match _) as [json_str|] eqn:Ematch;
    [|eexists; reflexivity].
  destruct (json_loads json_str) as [analysis|msg] eqn:Eload;
    [|eexists; reflexivity].
  destruct analysis as [| | | | | |analysis]; try (eexists; reflexivity).
  cbv zeta.
  destruct (dict_get analysis "best_agent") as [best|] eqn:Ebest;
    [|eexists; reflexivity].
  destruct best as [| | | |agent| |]; try (eexists; reflexivity).
  destruct (GeminiClient.truthy (VStr agent)) eqn:Etruthy;
    [|eexists; reflexivity].
  destruct (GeminiClient.is_in (VStr agent) available_agents) eqn:Ein;
    [|eexists; reflexivity].
  cbn [negb orb].
  destruct (GeminiClient.format_2f_error _) as [msg|] eqn:Efmt;
    [eexists; reflexivity|].
  split; [apply is_in_In, Ein|].
  split; [intros ->; discriminate Etruthy|].
  split; [apply format_2f_error_none, Efmt|].
  exists text, json_str, analysis. repeat split; assumption.
Qed.

(** X21. What [analyze_query_intent] returns has passed its checks and was
    read from the reply of the API: [generate_text] returned a text, which
    is the reply of the API to the intent prompt for the query at one of
    the attempts; a JSON object was found between the first opening and the
    last closing brace of that text; the agent was read from it as
    [best_agent], is one of the agents offered and its name is not empty;
    the confidence and the scores are what the object holds under
    [confidence] and [scores] (0.0 and the empty mapping when it holds
    none), and the confidence is a number that converts to a float.
    Everything else, a failure of [generate_text] included, leaves as a
    [GeminiAPIError] whose message starts with
    "Failed to analyze query intent: ". *)
Theorem analyze_query_intent_is_checked
    (start_chat : option string -> exc unit)
    (send_message : option string -> string -> nat -> exc string)
    (sleep : float -> exc unit)
    (json_loads : string -> exc value) (str : value -> string)
    (query : string) (available_agents : list string) :
  match fst (GeminiClient.analyze_query_intent start_chat send_message sleep
               json_loads str query available_agents) with
  | GeminiClient.Returned (agent, confidence, scores) =>
      In agent available_agents /\ agent <> ""
      /\ formats_as_number confidence
      /\ exists text json_str analysis,
           fst (GeminiClient.generate_text start_chat send_message sleep
                  (GeminiClient.intent_prompt query)
                  (Some GeminiClient.intent_system_instruction) 3 1%float)
           = GeminiClient.Returned (Some text)
           /\ (exists attempt,
                 send_message (Some GeminiClient.intent_system_instruction)
                   (GeminiClient.intent_prompt query) attempt = Ok text)
           /\ GeminiClient.json_match (GeminiClient.remove_newlines text)
              = Some json_str
           /\ json_loads json_str = Ok (VDict analysis)
           /\ dict_get analysis "best_agent" = Some (VStr agent)
           /\ confidence = match dict_get analysis "confidence" with
                           | Some v => v
                           | None => VFloat 0%float
                           end
           /\ scores = match dict_get analysis "scores" with
                       | Some v => v
                       | None => VDict []
                       end
  | GeminiClient.Failed e =>
      exists msg,
        e = GeminiClient.GeminiAPIError ("Failed to analyze query intent: " ++ msg)
  end.
Proof.
  unfold GeminiClient.analyze_query_intent.
  pose proof (generate_text_returns_a_reply start_chat send_message sleep
                (GeminiClient.intent_prompt query)
                (Some GeminiClient.intent_system_instruction) 3 1%float) as Hreply.
  destruct (GeminiClient.generate_text _ _ _ _ _ _ _) as [r effects].
  destruct r as [response_text|e]; cbn [fst] in *.
  - pose proof (read_intent_checked json_loads str response_text available_agents)
      as H.
    destruct (GeminiClient.read_intent _ _ _ _) as [[[agent confidence] scores]|e];
      [|exact H].
    destruct H as (H1 & H2 & H3 & text & json_str & analysis
                   & -> & H4 & H5 & H6 & H7 & H8).
    split; [exact H1|]. split; [exact H2|]. split; [exact H3|].
    exists text, json_str, analysis.
    split; [reflexivity|]. split; [apply Hreply; reflexivity|].
    repeat split; assumption.
  - eexists. reflexivity.
Qed.

(** A reply of the API that holds no scores is returned as it is: the
    client checks the agent and the confidence only. *)
Lemma analyze_query_intent_example :
  fst (GeminiClient.analyze_query_intent chat_ok
         (api_up_at 0 reply_without_scores) sleep_ok
         (json_of reply_without_scores parsed_without_scores) str_fixed
         "Hello there" ["MathAgent"; "PhysicsAgent"])
  = GeminiClient.Returned ("MathAgent", VFloat 0.6%float, VNone).
Proof. vm_compute. reflexivity. Qed.

(** X22. [analyze_query_intent] calls [generate_text] with its defaults:
    when the API fails four times in a row, and the sleeps of 1, 2 and 4
    seconds return, it has sent four messages and slept three times, and it
    raises a [GeminiAPIError] that wraps the message of the fourth failure
    twice. *)
Theorem analyze_query_intent_gives_up_after_four_attempts
    (start_chat : option string -> exc unit)
    (send_message : option string -> string -> nat -> exc string)
    (sleep : float -> exc unit)
    (json_loads : string -> exc value) (str : value -> string)
    (query : string) (available_agents : list string) (last : string) :
  start_chat (Some GeminiClient.intent_system_instruction) = Ok tt ->
  (forall i, (i < 3)%nat ->
     exists m, send_message (Some GeminiClient.intent_system_instruction)
                 (GeminiClient.intent_prompt query) i = Raise m) ->
  send_message (Some GeminiClient.intent_system_instruction)
    (GeminiClient.intent_prompt query) 3 = Raise last ->
  sleep 1%float = Ok tt -> sleep 2%float = Ok tt -> sleep 4%float = Ok tt ->
  GeminiClient.analyze_query_intent start_chat send_message sleep json_loads str
    query available_agents
  = (GeminiClient.Failed
       (GeminiClient.GeminiAPIError
          ("Failed to analyze query intent: Failed to generate text: " ++ last)),
     [GeminiClient.SendMessage 0; GeminiClient.Sleep 1%float;
      GeminiClient.SendMessage 1; GeminiClient.Sleep 2%float;
      GeminiClient.SendMessage 2; GeminiClient.Sleep 4%float;
      GeminiClient.SendMessage 3]).
Proof.
  intros Hchat Hfail Hlast H1 H2 H4.
  unfold GeminiClient.analyze_query_intent, GeminiClient.generate_text.
  rewrite Hchat.
  change (Z.to_nat (3 + 1)) with (3 + 1)%nat.
  rewrite (attempts_after_retries send_message sleep
             (Some GeminiClient.intent_system_instruction)
             (GeminiClient.intent_prompt query) 3 1%float 3 0 0); cycle 1.
  - cbn. lia.
  - lia.
  - intros i Hi. apply Hfail. lia.
  - intros i Hi.
    destruct i as [|[|[|i]]]; [exact H1|exact H2|exact H4|lia].
  - cbn [Nat.add]. rewrite attempts_S, Hlast.
    change (Z.of_nat 3 =? 3)%Z with true. cbv iota. reflexivity.
Qed.

Lemma analyze_query_intent_gives_up_after_four_attempts_witness :
  GeminiClient.analyze_query_intent chat_ok api_down sleep_ok
    (json_fixed VNone) str_fixed "What is energy?" ["MathAgent"; "PhysicsAgent"]
  = (GeminiClient.Failed
       (GeminiClient.GeminiAPIError
          ("Failed to analyze query intent: Failed to generate text: "
           ++ "unavailable 3")),
     [GeminiClient.SendMessage 0; GeminiClient.Sleep 1%float;
      GeminiClient.SendMessage 1; GeminiClient.Sleep 2%float;
      GeminiClient.SendMessage 2; GeminiClient.Sleep 4%float;
      GeminiClient.SendMessage 3]).
Proof.
  apply (analyze_query_intent_gives_up_after_four_attempts chat_ok api_down
           sleep_ok (json_fixed VNone) str_fixed "What is energy?"
           ["MathAgent"; "PhysicsAgent"] "unavailable 3").
  - reflexivity.
  - intros i _. eexists. reflexivity.
  - reflexivity.
  - reflexivity.
  - reflexivity.
  - reflexivity.
Defined.

(* ===================================================================== *)
(** ** Physics agent *)
(* ===================================================================== *)

(** A tool invocation of the physics agent under the runner: the tool is
    executed, and the bare [yield] that follows ends the run. *)
Lemma physics_invoke_fails
    (rec : string -> InvocationContext -> Runner.trace) (r : Runner.t)
    (ctx : InvocationContext) (tool_name : string) (inputs : pydict)
    (rid tid : string) (rest : option pydict -> Gen) :
  exists first,
    Runner.drive rec r ctx (PhysicsAgent.invoke tool_name inputs rid tid rest) =
      Runner.mkTrace
        [first;
         ErrorEvent "AGENT_EXECUTION_ERROR"
           "Agent execution failed: 'NoneType' object has no attribute 'event_type'"
           None (Runner.runner_request_id r) (Runner.runner_trace_id r)]
        true
    /\ (event_type first = EventType.TOOL_RESULT
        \/ event_type first = EventType.ERROR).
Proof.
  unfold PhysicsAgent.invoke. cbn [Runner.drive].
  destruct (Runner.tools r !! tool_name) as [execute|].
  - destruct (execute _); eexists; split; try reflexivity; left; reflexivity.
  - eexists; split; [reflexivity|right; reflexivity].
Qed.

Lemma physics_respond_trace
    (generate : string -> option pydict -> option pydict -> option pydict
                -> exc string)
    (rec : string -> InvocationContext -> Runner.trace) (r : Runner.t)
    (ctx : InvocationContext) (q rid tid : string) :
  Runner.drive rec r ctx (PhysicsAgent.respond generate q rid tid None None None [])
  = Runner.mkTrace
      [match generate q None None None with
       | Ok text => FinalResponseEvent text "PhysicsAgent" None None rid tid
       | Raise msg =>
           ErrorEvent "PHYSICS_AGENT_ERROR" ("Error in Physics Agent: " ++ msg)
             None rid tid
       end] true.
Proof.
  unfold PhysicsAgent.respond, PhysicsAgent.on_error.
  destruct (generate q None None None); reflexivity.
Qed.

(** X23. Run by the runner, the physics agent produces a final response
    exactly when the query asks for no constant, no formula and no
    calculation and the oracle answers; the response then names no tool.
    As soon as one of the three is asked for, the run ends with an error and
    without a final response, whatever tools are registered and whatever
    they return. *)
Theorem physics_agent_answers_only_without_tools
    (re_search : string -> string -> option PhysicsAgent.Match)
    (re_match : string -> string -> bool) (format : string -> string)
    (generate : string -> option pydict -> option pydict -> option pydict
                -> exc string)
    (depth : nat) (r : Runner.t) (ctx : InvocationContext) :
  Runner.agents r !! "PhysicsAgent"
  = Some (PhysicsAgent.run re_search re_match format generate) ->
  let needs :=
    PhysicsAgent._needs_constant_lookup re_search (query ctx)
    || PhysicsAgent._needs_formula_lookup re_search (query ctx)
    || PhysicsAgent._needs_calculation re_search re_match (query ctx) in
  let found :=
    Runner.scan (Runner.events (Runner.run_agent (S depth) r "PhysicsAgent" ctx)) in
  (needs = false ->
     forall text, generate (query ctx) None None None = Ok text ->
     found = Runner.FoundFinal text "PhysicsAgent" None None)
  /\ (needs = true -> exists code msg, found = Runner.FoundError code msg)
  /\ (forall text agent tool results,
        found = Runner.FoundFinal text agent tool results ->
        needs = false /\ tool = None /\ results = None
        /\ generate (query ctx) None None None = Ok text).
Proof.
  intros Hreg needs found.
  assert (Hcases :
    (needs = false
     /\ found = Runner.scan
          [match generate (query ctx) None None None with
           | Ok text =>
               FinalResponseEvent text "PhysicsAgent" None None
                 (request_id ctx) (trace_id ctx)
           | Raise msg =>
               ErrorEvent "PHYSICS_AGENT_ERROR" ("Error in Physics Agent: " ++ msg)
                 None (request_id ctx) (trace_id ctx)
           end])
    \/ (needs = true /\ exists code msg, found = Runner.FoundError code msg)).
  { unfold found, needs. rewrite run_agent_S, Hreg.
    assert (Hfail : forall tool_name inputs rest,
              exists code msg,
                Runner.scan
                  (Runner.events
                     (Runner.drive (Runner.run_agent depth r) r ctx
                        (PhysicsAgent.invoke tool_name inputs (request_id ctx)
                           (trace_id ctx) rest)))
                = Runner.FoundError code msg).
    { intros tool_name inputs rest.
      destruct (physics_invoke_fails (Runner.run_agent depth r) r ctx tool_name
                  inputs (request_id ctx) (trace_id ctx) rest)
        as (first & -> & [H|H]);
        destruct first; try discriminate H; cbn; eauto. }
    unfold PhysicsAgent.run. cbv zeta.
    destruct (PhysicsAgent._needs_constant_lookup re_search (query ctx));
      [right; split; [reflexivity|apply Hfail]|].
    unfold PhysicsAgent.formula_stage.
    destruct (PhysicsAgent._needs_formula_lookup re_search (query ctx));
      [right; split; [reflexivity|apply Hfail]|].
    unfold PhysicsAgent.calculation_stage.
    destruct (PhysicsAgent._needs_calculation re_search re_match (query ctx))
      eqn:Hcalc.
    - right. split; [reflexivity|].
      unfold PhysicsAgent._needs_calculation in Hcalc.
      destruct (PhysicsAgent._extract_calculation_expression re_search re_match
                  (query ctx)); [apply Hfail|discriminate Hcalc].
    - left. split; [reflexivity|].
      rewrite physics_respond_trace. reflexivity. }
  split; [|split].
  - intros Hneeds text Hgen.
    destruct Hcases as [[_ ->]|[H _]]; [|congruence].
    rewrite Hgen. reflexivity.
  - intros Hneeds. destruct Hcases as [[H _]|[_ H]]; [congruence|exact H].
  - intros text agent tool results Hfound.
    destruct Hcases as [[Hn Hf]|[_ (code & msg & Hf)]]; [|congruence].
    rewrite Hf in Hfound.
    destruct (generate (query ctx) None None None); [|discriminate Hfound].
    cbn in Hfound. injection Hfound as -> _ <- <-. auto.
Qed.

Lemma physics_agent_answers_only_without_tools_witness :
  Runner.scan
    (Runner.events
       (Runner.run_agent 1 (physics_runner search_nothing "r1" "t1") "PhysicsAgent"
          (context_of "Why is the sky blue?" "r1" "t1")))
  = Runner.FoundFinal "explanation" "PhysicsAgent" None None
  /\ exists code msg,
       Runner.scan
         (Runner.events
            (Runner.run_agent 1
               (physics_runner (search_only "speed\s+of\s+light") "r1" "t1")
               "PhysicsAgent"
               (context_of "How fast is the speed of light?" "r1" "t1")))
       = Runner.FoundError code msg.
Proof.
  split.
  - apply (proj1 (physics_agent_answers_only_without_tools search_nothing
                    match_never format_identity physics_respond_fixed 0
                    (physics_runner search_nothing "r1" "t1")
                    (context_of "Why is the sky blue?" "r1" "t1") eq_refl));
      reflexivity.
  - apply (proj1 (proj2 (physics_agent_answers_only_without_tools
                    (search_only "speed\s+of\s+light")
                    match_never format_identity physics_respond_fixed 0
                    (physics_runner (search_only "speed\s+of\s+light") "r1" "t1")
                    (context_of "How fast is the speed of light?" "r1" "t1")
                    eq_refl))).
    reflexivity.
Defined.

(** X24. The physics agent with a consumer that sends every tool result
    back: it asks for the constant, the formula and the calculation, in this
    order and each only if the query calls for it, and then yields one final
    response.  The response names no tool when none was asked for, the tool
    when there was one request, and the tool names joined by ", " when
    there were more; [tool_results] is then a dictionary with the three keys
    [constant_result], [formula_result] and [calculation_result], whose
    values that are not [None] are the results received, in order. *)
Theorem physics_agent_reports_the_tools_that_answered
    (re_search : string -> string -> option PhysicsAgent.Match)
    (re_match : string -> string -> bool) (format : string -> string)
    (generate : string -> option pydict -> option pydict -> option pydict
                -> exc string)
    (ctx : InvocationContext) (rid tid : string) (results : list pydict)
    (text : string) :
  let reqs := requests re_search re_match format (query ctx) in
  length results = length reqs ->
  (forall c f k, generate (query ctx) c f k = Ok text) ->
  exists tool_results,
    converse (PhysicsAgent.run re_search re_match format generate ctx)
      (answers_to rid tid reqs results)
    = (map (invocation (request_id ctx) (trace_id ctx)) reqs
       ++ [FinalResponseEvent text "PhysicsAgent" (tools_named (map fst reqs))
             tool_results (request_id ctx) (trace_id ctx)])%list
    /\ match results with
       | [] => tool_results = None
       | [result] => tool_results = Some result
       | _ =>
           exists c f k,
             tool_results = Some [("constant_result", c); ("formula_result", f);
                                  ("calculation_result", k)]
             /\ List.filter given [c; f; k] = map VDict results
       end.
Proof.
  intros reqs Hlen Hgen. subst reqs. revert Hlen.
  unfold requests, PhysicsAgent.run, PhysicsAgent.formula_stage,
    PhysicsAgent.calculation_stage, PhysicsAgent._needs_constant_lookup,
    PhysicsAgent._needs_formula_lookup, PhysicsAgent._needs_calculation.
  cbv zeta.
  destruct (PhysicsAgent._extract_constant_key re_search (query ctx)) as [ckey|];
    destruct (PhysicsAgent._extract_formula_key re_search (query ctx)) as [fkey|];
    destruct (PhysicsAgent._extract_calculation_expression re_search re_match
                (query ctx)) as [expression|];
    cbn [app length]; intros Hlen;
    destruct results as [|r1 [|r2 [|r3 [|r4 rest]]]]; try discriminate Hlen;
    cbn [answers_to combine map fst snd success invocation converse
         PhysicsAgent.invoke PhysicsAgent.received MathAgent.error_set
         PhysicsAgent.used app tools_named];
    unfold PhysicsAgent.respond; rewrite Hgen;
    cbn [converse app map fst String.concat PhysicsAgent.optional];
    eexists; (split; [reflexivity|]);
    try reflexivity;
    do 3 eexists; (split; [reflexivity|]); reflexivity.
Qed.

Lemma physics_agent_reports_the_tools_that_answered_witness :
  exists tool_results,
    converse
      (PhysicsAgent.run (search_only "speed\s+of\s+light") match_never
         format_identity physics_respond_fixed
         (context_of "How fast is the speed of light?" "r1" "t1"))
      [ToolResultEvent "LookupTool" [("key", VStr "c")] None "r2" "t2"]
    = [ToolInvocationEvent "LookupTool"
         [("key", VStr "c"); ("type", VStr "constant")] "r1" "t1";
       FinalResponseEvent "explanation" "PhysicsAgent" (Some "LookupTool")
         tool_results "r1" "t1"]
    /\ tool_results = Some [("key", VStr "c")].
Proof.
  apply (physics_agent_reports_the_tools_that_answered
           (search_only "speed\s+of\s+light") match_never format_identity
           physics_respond_fixed
           (context_of "How fast is the speed of light?" "r1" "t1")
           "r2" "t2" [[("key", VStr "c")]] "explanation").
  - reflexivity.
  - intros c f k. reflexivity.
Defined.

Lemma exact_lookup (lookup_type key : string) :
  lookup_type = "constant" \/ lookup_type = "formula" ->
  In key (LookupTool.keys (collection_of lookup_type)) ->
  exists result,
    LookupTool.execute_lookup key lookup_type = Returns result
    /\ dict_get result "key" = Some (VStr key)
    /\ dict_get result "match_confidence" = None.
Proof.
  intros Ht Hin.
  pose proof (table_keys_checked lookup_type key Ht Hin) as Hk.
  unfold key_checks in Hk.
  apply andb_true_iff in Hk as [Hk _].
  apply andb_true_iff in Hk as [_ Hk].
  destruct (LookupTool.execute_lookup key lookup_type) as [result|];
    [|discriminate Hk].
  exists result. split; [reflexivity|].
  destruct (dict_get result "key") as [[| | | |k'| |]|]; try discriminate Hk.
  destruct (dict_get result "match_confidence"); [discriminate Hk|].
  destruct (dict_get result "original_query"); [discriminate Hk|].
  apply String.eqb_eq in Hk. subst k'. split; reflexivity.
Qed.

(** X25. The keys that the physics agent extracts are of two kinds, whatever
    the pattern search finds: the text captured by one of the general
    patterns, or a key that [settings] defines.  A constant or formula
    named by its specific phrase is therefore always found by the lookup
    tool by exact match, without [match_confidence]. *)
Theorem specific_phrases_name_table_keys
    (re_search : string -> string -> option PhysicsAgent.Match)
    (query key : string) :
  (PhysicsAgent._extract_constant_key re_search query = Some key ->
   PhysicsAgent.first_group re_search PhysicsAgent.constant_patterns
     (PyStr.lower query) = Some key
   \/ exists result,
        LookupTool.execute_lookup key "constant" = Returns result
        /\ dict_get result "key" = Some (VStr key)
        /\ dict_get result "match_confidence" = None)
  /\ (PhysicsAgent._extract_formula_key re_search query = Some key ->
      PhysicsAgent.first_group re_search PhysicsAgent.formula_patterns
        (PyStr.lower query) = Some key
      \/ exists result,
           LookupTool.execute_lookup key "formula" = Returns result
           /\ dict_get result "key" = Some (VStr key)
           /\ dict_get result "match_confidence" = None).
Proof.
  split.
  - unfold PhysicsAgent._extract_constant_key. cbv zeta.
    repeat match goal with
           | |- context [if ?b then Some _ else _] =>
               destruct b;
               [intros [= <-]; right;
                apply (exact_lookup "constant"); [left; reflexivity|];
                vm_compute; tauto|]
           end.
    intros H. left. exact H.
  - unfold PhysicsAgent._extract_formula_key. cbv zeta.
    repeat match goal with
           | |- context [if ?b then Some _ else _] =>
               destruct b;
               [intros [= <-]; right;
                apply (exact_lookup "formula"); [right; reflexivity|];
                vm_compute; tauto|]
           end.
    intros H. left. exact H.
Qed.

Lemma specific_phrases_name_table_keys_witness :
  PhysicsAgent.first_group (search_only "ohm\'s\s+law")
    PhysicsAgent.formula_patterns (PyStr.lower "State Ohm's law") = Some "ohms_law"
  \/ exists result,
       LookupTool.execute_lookup "ohms_law" "formula" = Returns result
       /\ dict_get result "key" = Some (VStr "ohms_law")
       /\ dict_get result "match_confidence" = None.
Proof.
  apply (proj2 (specific_phrases_name_table_keys (search_only "ohm\'s\s+law")
                  "State Ohm's law" "ohms_law")).
  reflexivity.
Defined.

(* ===================================================================== *)
(** ** Calculator tool: the steps of a result *)
(* ===================================================================== *)

Lemma contains_operator (c : ascii) (s : string) :
  CalculatorTool.is_operator c = true ->
  mentions_operator s = false ->
  PyStr.contains (String c EmptyString) s = false.
Proof.
  intros Hc. induction s as [|h t IH]; intros H.
  - reflexivity.
  - cbn [mentions_operator] in H. apply orb_false_iff in H as [Hh Ht].
    cbn [PyStr.contains String.prefix]. rewrite (IH Ht), orb_false_r.
    destruct (ascii_dec c h) as [->|Hne]; [congruence|reflexivity].
Qed.

(** X26. The steps of a calculator result are always the two lines
    "Calculate: ..." and "Result: ...": an expression that gets as far as
    [_generate_steps] holds none of [+ - * /], so the branch that shows the
    steps of basic arithmetic is never taken. *)
Theorem calculator_steps_are_two_lines
    (evaluate : string -> exc float)
    (arithmetic_steps : string -> float -> list string)
    (str_of_float : float -> string)
    (expression : string) (d : pydict) :
  CalculatorTool.execute_expression evaluate
    (CalculatorSteps._generate_steps arithmetic_steps str_of_float) expression
  = Returns d ->
  exists result,
    d = [("result", VFloat result);
         ("steps", VList [VStr ("Calculate: " ++ expression);
                          VStr ("Result: " ++ str_of_float result)])].
Proof.
  unfold CalculatorTool.execute_expression. rewrite validation_cases.
  destruct (PyStr.all_space expression); [discriminate|].
  destruct (mentions_operator expression) eqn:Hop; [discriminate|].
  destruct (mentions_letter expression); [discriminate|].
  cbn [orb].
  destruct (evaluate _) as [r|msg]; [|discriminate].
  intros [= <-]. exists r.
  unfold CalculatorSteps._generate_steps.
  rewrite (contains_operator "+" _ eq_refl Hop),
          (contains_operator "-" _ eq_refl Hop),
          (contains_operator "*" _ eq_refl Hop),
          (contains_operator "/" _ eq_refl Hop).
  reflexivity.
Qed.

Lemma calculator_steps_are_two_lines_witness :
  exists result,
    [("result", VFloat 42%float);
     ("steps", VList [VStr "Calculate: 42"; VStr "Result: 42.0"])]
    = [("result", VFloat result);
       ("steps", VList [VStr ("Calculate: " ++ "42");
                        VStr ("Result: " ++ str_of_float_fixed result)])].
Proof.
  apply (calculator_steps_are_two_lines (evaluate_fixed 42%float) steps_fixed
           str_of_float_fixed "42").
  reflexivity.
Defined.

(* ===================================================================== *)
(** ** Validation errors *)
(* ===================================================================== *)

Lemma find_snoc {A : Type} (p : A -> bool) (l : list A) (x : A) :
  find p (l ++ [x])%list =
    match find p l with
    | Some y => Some y
    | None => if p x then Some x else None
    end.
Proof.
  induction l as [|a l IH]; cbn [app find]; [reflexivity|].
  destruct (p a); [reflexivity|exact IH].
Qed.

Lemma format_fold (errors : list Errors.validation_error)
    (acc : gmap Errors.loc_item string) (field : Errors.loc_item) :
  fold_left (fun formatted_errors error =>
               <[Errors.field_of error := Errors.msg_of error]> formatted_errors)
            errors acc !! field
  = match last_error_for field errors with
    | Some error => Some (Errors.msg_of error)
    | None => acc !! field
    end.
Proof.
  unfold last_error_for. revert acc.
  induction errors as [|e es IH]; intros acc; [reflexivity|].
  cbn [fold_left rev]. rewrite IH, find_snoc.
  destruct (find _ (rev es)); [reflexivity|].
  destruct (bool_decide_reflect (Errors.field_of e = field)) as [<-|Hne].
  - apply lookup_insert_eq.
  - apply lookup_insert_ne, Hne.
Qed.

(** X27. [format_validation_errors] files every error under the last
    element of its location, or under "unknown" when it has none, and keeps
    one message per field: the message of the last error of the list filed
    there.  A field under which no error is filed is absent. *)
Theorem format_validation_errors_last_wins
    (errors : list Errors.validation_error) (field : Errors.loc_item) :
  Errors.format_validation_errors errors !! field
  = Errors.msg_of <$> last_error_for field errors.
Proof.
  unfold Errors.format_validation_errors. rewrite format_fold.
  destruct (last_error_for field errors); reflexivity.
Qed.

(* ===================================================================== *)
(** ** Request validation and the Tutor agent *)
(* ===================================================================== *)

(** X28. The validator of [QueryRequest.question] and the empty-query check
    of the Tutor agent agree: the validator rejects a question exactly when
    the Tutor agent would answer it with the error [EMPTY_QUERY].  A question
    that the API has accepted never gets that error. *)
Theorem validator_agrees_with_empty_query_check
    (oracle : string -> list string -> exc TutorAgent.Intent)
    (ctx : InvocationContext) :
  QueryRequest.validate_question (query ctx)
  = Raise "Question cannot be empty or just whitespace"
  <-> TutorAgent.outcome (TutorAgent.run_events oracle ctx)
      = [ErrorEvent "EMPTY_QUERY" "Query cannot be empty" None
           (request_id ctx) (trace_id ctx)].
Proof.
  unfold QueryRequest.validate_question. rewrite strip_empty_all_space.
  destruct (PyStr.all_space (query ctx)) eqn:Hq.
  - split; [|reflexivity]. intros _.
    unfold TutorAgent.run_events. rewrite blank_guard, Hq. reflexivity.
  - split; [discriminate|].
    rewrite (run_events_routed oracle ctx Hq). cbv zeta.
    cbn [TutorAgent.outcome].
    destruct (TutorAgent.outcome (TutorAgent._analyze_query_intent oracle (query ctx)))
      as [i|msg]; [|discriminate].
    unfold TutorAgent.apply_confidence_thresholds, make_DelegationEvent.
    destruct (PyNum.number_of (TutorAgent.intent_confidence i)) as [n|msg];
      [|discriminate].
    repeat match goal with
           | |- context [if ?b then _ else _] => destruct b
           end; try discriminate.
    destruct (TutorAgent.scores i); discriminate.
Qed.
(* ===================================================================== *)
(** ** Inputs outside ASCII *)
(* ===================================================================== *)

(** The no-break space is white space: a query made of it is empty for the
    Tutor agent, an expression made of it is empty for the calculator, and
    [strip] removes it. *)
Lemma no_break_space_is_blank :
  PyStr.all_space nbsp = true
  /\ PyStr.strip (nbsp ++ " 4 2" ++ nbsp ++ " ") = "4 2"
  /\ TutorAgent.run_events failing_oracle (context_of nbsp "r1" "t1")
     = TutorAgent.mkTraced []
         [ErrorEvent "EMPTY_QUERY" "Query cannot be empty" None "r1" "t1"]
  /\ CalculatorTool._validate_expression nbsp
     = Returns (false, Some "Expression cannot be empty")
  /\ CalculatorTool.execute_expression
       (fun e => if String.eqb e "42" then Ok 42%float else Raise "not 42")
       no_steps ("42" ++ nbsp)
     = Returns [("result", VFloat 42%float); ("steps", VList [])].
Proof. repeat split; vm_compute; reflexivity. Qed.

(** [str.lower] maps the Kelvin sign to [k]: the query holds one math
    keyword and one physics keyword, stage 1 is inconclusive and the oracle
    is asked. *)
Lemma kelvin_sign_is_lowered :
  let q := kelvin_sign ++ "inematics algebra" in
  PyStr.lower q = "kinematics algebra"
  /\ TutorAgent.math_count q = 1%nat
  /\ TutorAgent.physics_count q = 1%nat
  /\ TutorAgent.oracle_calls
       (TutorAgent.run_events failing_oracle (context_of q "r1" "t1"))
     = [(q, ["MathAgent"; "PhysicsAgent"])].
Proof. repeat split; vm_compute; reflexivity. Qed.

(** [len] counts characters: [work] followed by two accented letters has the
    length 6, scores 4/6 against the key [work] and is answered with that
    key. *)
Lemma accents_count_once :
  let key := "work" ++ e_acute ++ e_acute in
  PyStr.len key = 6%nat
  /\ LookupTool._fuzzy_match key LookupTool.formulas
     = (Some "work", 0.66666666666666663%float)
  /\ LookupTool._fuzzy_match ("momentum" ++ e_acute) LookupTool.formulas
     = (Some "momentum", 0.88888888888888884%float)
  /\ exists result,
       LookupTool.execute_lookup key "formula" = Returns result
       /\ dict_get result "key" = Some (VStr "work")
       /\ dict_get result "match_confidence"
          = Some (VFloat 0.66666666666666663%float)
       /\ dict_get result "original_query" = Some (VStr key).
Proof.
  repeat split; try (vm_compute; reflexivity).
  eexists. split; [vm_compute; reflexivity|].
  repeat split; reflexivity.
Qed.

(** The tokens of the calculator are read off the characters: a number may
    hold any decimal digits, a word holds ASCII letters only. *)
Lemma tokens_of_characters :
  map PyStr.text
    (CalculatorTool.tokens
       ("1" ++ PyStr.utf8 0x662 ++ "." ++ PyStr.utf8 0x663 ++ "4 x"
        ++ PyStr.utf8 0xB2 ++ "+" ++ e_acute ++ "1."))
  = ["1" ++ PyStr.utf8 0x662 ++ "." ++ PyStr.utf8 0x663 ++ "4"; "x"; "+"; "1"].
Proof. vm_compute. reflexivity. Qed.
